(** * Long-running operations of the Azure SDK for Go: a shallow embedding

    The development follows three source files of the repository, and the
    engine they rely on:

    - the models of [sdk/keyvault/azkeys]: the conversions between the
      public key models and the generated ones ([keyPropertiesFromGenerated],
      [jsonWebKeyFromGenerated], [JSONWebKey.toGenerated]);
    - [sdk/keyvault/azcertificates/client.go]: the three [Begin...] calls that
      start or resume a long-running certificate operation;
    - [services/preview/sql/mgmt/v4.0/sql/syncmembers.go]: the responders of
      the sync-members client;
    - the polling engine those calls hand their handlers to, which lives in
      [sdk/azcore/runtime] and is modelled from its specification.

    Go values are embedded as follows: a pointer to [T] is an [option T]
    ([None] is [nil]); a slice of [T] is an [option (list T)] so that the nil
    slice and the empty slice stay distinct; a [map[string]V] is an optional
    [gmap string V]; an [error] is an optional error value; a run-time panic
    is an explicit outcome. *)

From Stdlib Require Import String List ZArith Lia Bool Ascii.
From stdpp Require Import base option list gmap strings.

Local Open Scope string_scope.
Local Open Scope list_scope.

(** ** Go values *)

Module Go.

(** Pointer to [A]: [None] is the nil pointer. *)
Definition ptr (A : Type) : Type := option A.

(** Slice of [A]: [None] is the nil slice, [Some []] an empty, non-nil one. *)
Definition slice (A : Type) : Type := option (list A).

(** [map[string]V]; [None] is the nil map. *)
Definition strmap (V : Type) : Type := option (gmap string V).

(** [len(s)]; the nil slice has length 0. *)
Definition len {A} (s : slice A) : nat :=
  match s with
  | None => 0
  | Some l => List.length l
  end.

(** The elements a [range] loop visits; none for the nil slice. *)
Definition elems {A} (s : slice A) : list A :=
  match s with
  | None => []
  | Some l => l
  end.

(** [make([]T, n)]: a fresh non-nil slice of [n] zero values. *)
Definition make {A} (zero : A) (n : nat) : list A := replicate n zero.

(** [for j, op := range src { dst[j] = f(op) }], started at index [j]. *)
Fixpoint range_assign {A B} (f : A -> B) (j : nat) (src : list A) (dst : list B)
  : list B :=
  match src with
  | [] => dst
  | op :: rest => range_assign f (S j) rest (<[j := f op]> dst)
  end.

(** The outcome of running a Go function: it returns, or it panics. *)
Inductive exec (A : Type) : Type :=
| Returns (a : A)
| Panics (reason : string).
Arguments Returns {A} a.
Arguments Panics {A} reason.

Definition nil_dereference : string :=
  "invalid memory address or nil pointer dereference".

(** Pointer dereference. *)
Definition deref {A} (p : ptr A) : exec A :=
  match p with
  | Some a => Returns a
  | None => Panics nil_dereference
  end.

Definition exec_bind {A B} (m : exec A) (k : A -> exec B) : exec B :=
  match m with
  | Returns a => k a
  | Panics r => Panics r
  end.

(** A Go error value, by its message; [error] is the interface, whose nil
    value is [None]. *)
Definition go_error : Type := string.
Definition error : Type := option go_error.

(** [errors.New] *)
Definition errors_New (msg : string) : error := Some msg.

(** [time.Time], as an instant. *)
Definition time_Time : Type := Z.

(** [int32] *)
Definition int32 : Type := Z.

(** [append(s, x)]: the result is never nil. *)
Definition append {A} (s : slice A) (x : A) : slice A := Some (elems s ++ [x]).

(** [for j, op := range src { dst[j] = f(op) }] where [f] may panic; the
    loop stops at the first panic. *)
Fixpoint range_assign_exec {A B} (f : A -> exec B) (j : nat) (src : list A)
    (dst : list B) : exec (list B) :=
  match src with
  | [] => Returns dst
  | op :: rest =>
      exec_bind (f op) (fun b => range_assign_exec f (S j) rest (<[j := b]> dst))
  end.

(** [for _, v := range src { vals = append(vals, f(v)) }] where [f] may
    panic. *)
Fixpoint range_append_exec {A B} (f : A -> exec B) (src : list A)
    (vals : slice B) : exec (slice B) :=
  match src with
  | [] => Returns vals
  | v :: rest =>
      exec_bind (f v) (fun b => range_append_exec f rest (append vals b))
  end.

(** Running [f] over a list from left to right, up to the first panic. *)
Fixpoint traverse {A B} (f : A -> exec B) (l : list A) : exec (list B) :=
  match l with
  | [] => Returns []
  | x :: rest =>
      exec_bind (f x) (fun b =>
      exec_bind (traverse f rest) (fun bs => Returns (b :: bs)))
  end.

(** Whether a run returned. *)
Definition returned {A} (e : exec A) : bool :=
  match e with
  | Returns _ => true
  | Panics _ => false
  end.

(** [p != nil] *)
Definition non_nil {A} (p : ptr A) : bool :=
  match p with
  | Some _ => true
  | None => false
  end.

End Go.

Import Go.

(** ** sdk/keyvault/azkeys: public and generated key models *)

Module azkeys.

Module generated.

(** [generated.KeyAttributes], with the fields the conversions read. *)
Module KeyAttributes.
Record t : Type := mk {
  Created : ptr time_Time;
  Enabled : ptr bool;
  Expires : ptr time_Time;
  Exportable : ptr bool;
  NotBefore : ptr time_Time;
  RecoverableDays : ptr int32;
  RecoveryLevel : ptr string;
  Updated : ptr time_Time
}.
End KeyAttributes.

Module KeyReleasePolicy.
Record t : Type := mk {
  ContentType : ptr string;
  EncodedPolicy : slice Byte.byte;
  Immutable : ptr bool
}.
End KeyReleasePolicy.

Module JSONWebKey.
Record t : Type := mk {
  Crv : ptr string;
  D : slice Byte.byte;
  DP : slice Byte.byte;
  DQ : slice Byte.byte;
  E : slice Byte.byte;
  K : slice Byte.byte;
  KeyOps : slice (ptr string);
  Kid : ptr string;
  Kty : ptr string;
  N : slice Byte.byte;
  P : slice Byte.byte;
  Q : slice Byte.byte;
  QI : slice Byte.byte;
  T : slice Byte.byte;
  X : slice Byte.byte;
  Y : slice Byte.byte
}.
End JSONWebKey.

Module LifetimeActionsType.
Record t : Type := mk { Type_ : ptr string }.
End LifetimeActionsType.

Module LifetimeActionsTrigger.
Record t : Type := mk {
  TimeAfterCreate : ptr string;
  TimeBeforeExpiry : ptr string
}.
End LifetimeActionsTrigger.

Module LifetimeActions.
Record t : Type := mk {
  Action : ptr LifetimeActionsType.t;
  Trigger : ptr LifetimeActionsTrigger.t
}.
End LifetimeActions.

Module KeyRotationPolicyAttributes.
Record t : Type := mk {
  ExpiryTime : ptr string;
  Created : ptr time_Time;
  Updated : ptr time_Time
}.
End KeyRotationPolicyAttributes.

Module KeyRotationPolicy.
Record t : Type := mk {
  ID : ptr string;
  LifetimeActions : slice (ptr LifetimeActions.t);
  Attributes : ptr KeyRotationPolicyAttributes.t
}.
End KeyRotationPolicy.

(** [generated.KeyItem] and [generated.DeletedKeyItem], with the fields the
    conversions read. *)
Module KeyItem.
Record t : Type := mk {
  Kid : ptr string;
  Attributes : ptr KeyAttributes.t;
  Managed : ptr bool;
  Tags : strmap (ptr string)
}.
End KeyItem.

Module DeletedKeyItem.
Record t : Type := mk {
  Kid : ptr string;
  Attributes : ptr KeyAttributes.t;
  Managed : ptr bool;
  Tags : strmap (ptr string);
  RecoveryID : ptr string;
  DeletedDate : ptr time_Time;
  ScheduledPurgeDate : ptr time_Time
}.
End DeletedKeyItem.

End generated.

(** [CurveName], [KeyType] and [Operation] are string types; converting a
    pointer to one of them from or to a pointer to string keeps the
    pointer. *)
Definition CurveName : Type := string.
Definition KeyType : Type := string.
Definition Operation : Type := string.

Definition cast_ptr {A} (p : ptr A) : ptr A := p.

Module ReleasePolicy.
Record t : Type := mk {
  ContentType : ptr string;
  EncodedPolicy : slice Byte.byte;
  Immutable : ptr bool
}.
End ReleasePolicy.

Module Properties.
Record t : Type := mk {
  CreatedOn : ptr time_Time;
  Enabled : ptr bool;
  ExpiresOn : ptr time_Time;
  Exportable : ptr bool;
  ID : ptr string;
  Managed : ptr bool;
  Name : ptr string;
  NotBefore : ptr time_Time;
  RecoverableDays : ptr int32;
  RecoveryLevel : ptr string;
  ReleasePolicy : ptr ReleasePolicy.t;
  Tags : strmap (ptr string);
  UpdatedOn : ptr time_Time;
  VaultURL : ptr string;
  Version : ptr string
}.

(** [Properties{}] *)
Definition zero : t :=
  mk None None None None None None None None None None None None None None None.
End Properties.

Module JSONWebKey.
Record t : Type := mk {
  Crv : ptr CurveName;
  D : slice Byte.byte;
  DP : slice Byte.byte;
  DQ : slice Byte.byte;
  E : slice Byte.byte;
  K : slice Byte.byte;
  KeyOps : slice (ptr Operation);
  ID : ptr string;
  KeyType : ptr KeyType;
  N : slice Byte.byte;
  P : slice Byte.byte;
  Q : slice Byte.byte;
  QI : slice Byte.byte;
  T : slice Byte.byte;
  X : slice Byte.byte;
  Y : slice Byte.byte
}.

(** [JSONWebKey{}] *)
Definition zero : t :=
  mk None None None None None None None None None None None None None None None None.
End JSONWebKey.

(** [keyReleasePolicyFromGenerated] *)
Definition keyReleasePolicyFromGenerated (i : ptr generated.KeyReleasePolicy.t)
  : ptr ReleasePolicy.t :=
  match i with
  | None => None
  | Some i =>
      Some (ReleasePolicy.mk
              (generated.KeyReleasePolicy.ContentType i)
              (generated.KeyReleasePolicy.EncodedPolicy i)
              (generated.KeyReleasePolicy.Immutable i))
  end.

(** [keyPropertiesFromGenerated]: the nil check on [i] comes first; every
    other path reads [*i.RecoveryLevel] while building the literal. *)
Definition keyPropertiesFromGenerated
    (i : ptr generated.KeyAttributes.t)
    (id name version : ptr string) (managed : ptr bool) (vaultURL : ptr string)
    (tags : strmap (ptr string))
    (releasePolicy : ptr generated.KeyReleasePolicy.t)
  : exec (ptr Properties.t) :=
  match i with
  | None => Returns (Some Properties.zero)
  | Some i =>
      exec_bind (deref (generated.KeyAttributes.RecoveryLevel i)) (fun level =>
      Returns (Some {|
        Properties.CreatedOn := generated.KeyAttributes.Created i;
        Properties.Enabled := generated.KeyAttributes.Enabled i;
        Properties.ExpiresOn := generated.KeyAttributes.Expires i;
        Properties.Exportable := generated.KeyAttributes.Exportable i;
        Properties.ID := id;
        Properties.Managed := managed;
        Properties.Name := name;
        Properties.NotBefore := generated.KeyAttributes.NotBefore i;
        Properties.RecoverableDays := generated.KeyAttributes.RecoverableDays i;
        Properties.RecoveryLevel := Some level;
        Properties.ReleasePolicy := keyReleasePolicyFromGenerated releasePolicy;
        Properties.Tags := tags;
        Properties.UpdatedOn := generated.KeyAttributes.Updated i;
        Properties.VaultURL := vaultURL;
        Properties.Version := version
      |}))
  end.

(** The precondition under which [keyPropertiesFromGenerated] dereferences
    nothing nil: no attributes at all, or attributes with a recovery level. *)
Definition attributes_convertible (i : ptr generated.KeyAttributes.t) : Prop :=
  i = None \/
  exists a level, i = Some a /\ generated.KeyAttributes.RecoveryLevel a = Some level.

(** [jsonWebKeyFromGenerated] *)
Definition jsonWebKeyFromGenerated (i : ptr generated.JSONWebKey.t)
  : ptr JSONWebKey.t :=
  match i with
  | None => Some JSONWebKey.zero
  | Some i =>
      let ops :=
        range_assign (@cast_ptr Operation) 0
          (elems (generated.JSONWebKey.KeyOps i))
          (make None (len (generated.JSONWebKey.KeyOps i))) in
      Some {|
        JSONWebKey.Crv := cast_ptr (generated.JSONWebKey.Crv i);
        JSONWebKey.D := generated.JSONWebKey.D i;
        JSONWebKey.DP := generated.JSONWebKey.DP i;
        JSONWebKey.DQ := generated.JSONWebKey.DQ i;
        JSONWebKey.E := generated.JSONWebKey.E i;
        JSONWebKey.K := generated.JSONWebKey.K i;
        JSONWebKey.KeyOps := Some ops;
        JSONWebKey.ID := generated.JSONWebKey.Kid i;
        JSONWebKey.KeyType := cast_ptr (generated.JSONWebKey.Kty i);
        JSONWebKey.N := generated.JSONWebKey.N i;
        JSONWebKey.P := generated.JSONWebKey.P i;
        JSONWebKey.Q := generated.JSONWebKey.Q i;
        JSONWebKey.QI := generated.JSONWebKey.QI i;
        JSONWebKey.T := generated.JSONWebKey.T i;
        JSONWebKey.X := generated.JSONWebKey.X i;
        JSONWebKey.Y := generated.JSONWebKey.Y i
      |}
  end.

(** [JSONWebKey.toGenerated]; the result is never nil. *)
Definition toGenerated (j : JSONWebKey.t) : ptr generated.JSONWebKey.t :=
  let ops :=
    range_assign (@cast_ptr string) 0
      (elems (JSONWebKey.KeyOps j))
      (make None (len (JSONWebKey.KeyOps j))) in
  Some {|
    generated.JSONWebKey.Crv := cast_ptr (JSONWebKey.Crv j);
    generated.JSONWebKey.D := JSONWebKey.D j;
    generated.JSONWebKey.DP := JSONWebKey.DP j;
    generated.JSONWebKey.DQ := JSONWebKey.DQ j;
    generated.JSONWebKey.E := JSONWebKey.E j;
    generated.JSONWebKey.K := JSONWebKey.K j;
    generated.JSONWebKey.KeyOps := Some ops;
    generated.JSONWebKey.Kid := JSONWebKey.ID j;
    generated.JSONWebKey.Kty := cast_ptr (JSONWebKey.KeyType j);
    generated.JSONWebKey.N := JSONWebKey.N j;
    generated.JSONWebKey.P := JSONWebKey.P j;
    generated.JSONWebKey.Q := JSONWebKey.Q j;
    generated.JSONWebKey.QI := JSONWebKey.QI j;
    generated.JSONWebKey.T := JSONWebKey.T j;
    generated.JSONWebKey.X := JSONWebKey.X j;
    generated.JSONWebKey.Y := JSONWebKey.Y j
  |}.

(** [j] with its [KeyOps] replaced. *)
Definition with_KeyOps (ops : slice (ptr Operation)) (j : JSONWebKey.t)
  : JSONWebKey.t :=
  {|
    JSONWebKey.Crv := JSONWebKey.Crv j;
    JSONWebKey.D := JSONWebKey.D j;
    JSONWebKey.DP := JSONWebKey.DP j;
    JSONWebKey.DQ := JSONWebKey.DQ j;
    JSONWebKey.E := JSONWebKey.E j;
    JSONWebKey.K := JSONWebKey.K j;
    JSONWebKey.KeyOps := ops;
    JSONWebKey.ID := JSONWebKey.ID j;
    JSONWebKey.KeyType := JSONWebKey.KeyType j;
    JSONWebKey.N := JSONWebKey.N j;
    JSONWebKey.P := JSONWebKey.P j;
    JSONWebKey.Q := JSONWebKey.Q j;
    JSONWebKey.QI := JSONWebKey.QI j;
    JSONWebKey.T := JSONWebKey.T j;
    JSONWebKey.X := JSONWebKey.X j;
    JSONWebKey.Y := JSONWebKey.Y j
  |}.

(** *** Release policies, rotation policies and key items *)

Definition RotationAction : Type := string.

Module LifetimeActionsType.
Record t : Type := mk { Type_ : ptr RotationAction }.
End LifetimeActionsType.

Module LifetimeActionsTrigger.
Record t : Type := mk {
  TimeAfterCreate : ptr string;
  TimeBeforeExpiry : ptr string
}.
End LifetimeActionsTrigger.

Module LifetimeActions.
Record t : Type := mk {
  Action : ptr LifetimeActionsType.t;
  Trigger : ptr LifetimeActionsTrigger.t
}.
End LifetimeActions.

Module RotationPolicyAttributes.
Record t : Type := mk {
  ExpiresIn : ptr string;
  CreatedOn : ptr time_Time;
  UpdatedOn : ptr time_Time
}.
End RotationPolicyAttributes.

Module RotationPolicy.
Record t : Type := mk {
  Attributes : ptr RotationPolicyAttributes.t;
  LifetimeActions : slice (ptr LifetimeActions.t);
  ID : ptr string
}.
End RotationPolicy.

Module KeyItem.
Record t : Type := mk {
  Properties : ptr Properties.t;
  ID : ptr string;
  Name : ptr string
}.
End KeyItem.

Module DeletedKeyItem.
Record t : Type := mk {
  Properties : ptr Properties.t;
  ID : ptr string;
  Name : ptr string;
  RecoveryID : ptr string;
  DeletedOn : ptr time_Time;
  ScheduledPurgeDate : ptr time_Time
}.
End DeletedKeyItem.

(** [ReleasePolicy.toGenerated] *)
Definition ReleasePolicy_toGenerated (k : ptr ReleasePolicy.t)
  : ptr generated.KeyReleasePolicy.t :=
  match k with
  | None => None
  | Some k =>
      Some (generated.KeyReleasePolicy.mk
              (ReleasePolicy.ContentType k)
              (ReleasePolicy.EncodedPolicy k)
              (ReleasePolicy.Immutable k))
  end.

(** [RotationPolicyAttributes.toGenerated] *)
Definition RotationPolicyAttributes_toGenerated (k : RotationPolicyAttributes.t)
  : ptr generated.KeyRotationPolicyAttributes.t :=
  Some {|
    generated.KeyRotationPolicyAttributes.ExpiryTime :=
      RotationPolicyAttributes.ExpiresIn k;
    generated.KeyRotationPolicyAttributes.Created :=
      RotationPolicyAttributes.CreatedOn k;
    generated.KeyRotationPolicyAttributes.Updated :=
      RotationPolicyAttributes.UpdatedOn k
  |}.

(** [LifetimeActions.toGenerated]: past the nil check, [l.Action] and then
    [l.Trigger] are read through. *)
Definition LifetimeActions_toGenerated (l : ptr LifetimeActions.t)
  : exec (ptr generated.LifetimeActions.t) :=
  match l with
  | None => Returns None
  | Some l =>
      exec_bind (deref (LifetimeActions.Action l)) (fun action =>
      exec_bind (deref (LifetimeActions.Trigger l)) (fun trigger =>
      Returns (Some {|
        generated.LifetimeActions.Action :=
          Some (generated.LifetimeActionsType.mk
                  (cast_ptr (LifetimeActionsType.Type_ action)));
        generated.LifetimeActions.Trigger :=
          Some (generated.LifetimeActionsTrigger.mk
                  (LifetimeActionsTrigger.TimeAfterCreate trigger)
                  (LifetimeActionsTrigger.TimeBeforeExpiry trigger))
      |})))
  end.

(** [lifetimeActionsFromGenerated]: past the nil check, [i.Trigger] and then
    [i.Action] are read through. *)
Definition lifetimeActionsFromGenerated (i : ptr generated.LifetimeActions.t)
  : exec (ptr LifetimeActions.t) :=
  match i with
  | None => Returns None
  | Some i =>
      exec_bind (deref (generated.LifetimeActions.Trigger i)) (fun trigger =>
      exec_bind (deref (generated.LifetimeActions.Action i)) (fun action =>
      Returns (Some {|
        LifetimeActions.Action :=
          Some (LifetimeActionsType.mk
                  (cast_ptr (generated.LifetimeActionsType.Type_ action)));
        LifetimeActions.Trigger :=
          Some (LifetimeActionsTrigger.mk
                  (generated.LifetimeActionsTrigger.TimeAfterCreate trigger)
                  (generated.LifetimeActionsTrigger.TimeBeforeExpiry trigger))
      |})))
  end.

(** [RotationPolicy.toGenerated] *)
Definition RotationPolicy_toGenerated (u : RotationPolicy.t)
  : exec generated.KeyRotationPolicy.t :=
  let attribs :=
    match RotationPolicy.Attributes u with
    | Some a => RotationPolicyAttributes_toGenerated a
    | None => None
    end in
  exec_bind
    (range_assign_exec LifetimeActions_toGenerated 0
       (elems (RotationPolicy.LifetimeActions u))
       (make None (len (RotationPolicy.LifetimeActions u))))
    (fun la =>
       Returns {|
         generated.KeyRotationPolicy.ID := RotationPolicy.ID u;
         generated.KeyRotationPolicy.LifetimeActions := Some la;
         generated.KeyRotationPolicy.Attributes := attribs
       |}).

(** An action that [LifetimeActions.toGenerated] converts without a nil
    dereference: nil, or with both its action and its trigger set. *)
Definition action_complete (l : ptr LifetimeActions.t) : bool :=
  match l with
  | None => true
  | Some l =>
      match LifetimeActions.Action l, LifetimeActions.Trigger l with
      | Some _, Some _ => true
      | _, _ => false
      end
  end.

Section Conversions.

(** [toGeneratedDeletionRecoveryLevel] is defined with the constants of the
    package, and [shared.ParseID] in the shared key vault package; both are
    taken as given. [ParseID] splits an identifier into vault URL, name and
    version. *)
Variable toGeneratedDeletionRecoveryLevel : ptr string -> ptr string.
Variable ParseID : ptr string -> ptr string * ptr string * ptr string.

(** [Properties.toGenerated] *)
Definition Properties_toGenerated (k : ptr Properties.t)
  : ptr generated.KeyAttributes.t :=
  match k with
  | None => None
  | Some k =>
      Some {|
        generated.KeyAttributes.RecoverableDays := Properties.RecoverableDays k;
        generated.KeyAttributes.RecoveryLevel :=
          toGeneratedDeletionRecoveryLevel (Properties.RecoveryLevel k);
        generated.KeyAttributes.Enabled := Properties.Enabled k;
        generated.KeyAttributes.Expires := Properties.ExpiresOn k;
        generated.KeyAttributes.NotBefore := Properties.NotBefore k;
        generated.KeyAttributes.Created := Properties.CreatedOn k;
        generated.KeyAttributes.Updated := Properties.UpdatedOn k;
        generated.KeyAttributes.Exportable := Properties.Exportable k
      |}
  end.

(** [keyItemFromGenerated] *)
Definition keyItemFromGenerated (i : ptr generated.KeyItem.t)
  : exec (ptr KeyItem.t) :=
  match i with
  | None => Returns None
  | Some i =>
      let '(_, name, _) := ParseID (generated.KeyItem.Kid i) in
      exec_bind
        (keyPropertiesFromGenerated (generated.KeyItem.Attributes i)
           None None None (generated.KeyItem.Managed i) None
           (generated.KeyItem.Tags i) None)
        (fun properties =>
           Returns (Some {|
             KeyItem.Properties := properties;
             KeyItem.ID := generated.KeyItem.Kid i;
             KeyItem.Name := name
           |}))
  end.

(** [deletedKeyItemFromGenerated] *)
Definition deletedKeyItemFromGenerated (i : ptr generated.DeletedKeyItem.t)
  : exec (ptr DeletedKeyItem.t) :=
  match i with
  | None => Returns None
  | Some i =>
      let '(vaultURL, name, version) := ParseID (generated.DeletedKeyItem.Kid i) in
      exec_bind
        (keyPropertiesFromGenerated (generated.DeletedKeyItem.Attributes i)
           (generated.DeletedKeyItem.Kid i) name version
           (generated.DeletedKeyItem.Managed i) vaultURL
           (generated.DeletedKeyItem.Tags i) None)
        (fun properties =>
           Returns (Some {|
             DeletedKeyItem.RecoveryID := generated.DeletedKeyItem.RecoveryID i;
             DeletedKeyItem.DeletedOn := generated.DeletedKeyItem.DeletedDate i;
             DeletedKeyItem.ScheduledPurgeDate :=
               generated.DeletedKeyItem.ScheduledPurgeDate i;
             DeletedKeyItem.Properties := properties;
             DeletedKeyItem.ID := generated.DeletedKeyItem.Kid i;
             DeletedKeyItem.Name := name
           |}))
  end.

End Conversions.

End azkeys.

(** ** sdk/keyvault/azsecrets: public and generated secret models *)

Module azsecrets.

Module generated.

(** [generated.SecretAttributes], [generated.SecretItem] and
    [generated.DeletedSecretItem], with the fields the conversions read. *)
Module SecretAttributes.
Record t : Type := mk {
  RecoverableDays : ptr int32;
  RecoveryLevel : ptr string;
  Enabled : ptr bool;
  Expires : ptr time_Time;
  NotBefore : ptr time_Time;
  Created : ptr time_Time;
  Updated : ptr time_Time
}.
End SecretAttributes.

Module SecretItem.
Record t : Type := mk {
  Attributes : ptr SecretAttributes.t;
  ID : ptr string;
  ContentType : ptr string;
  Managed : ptr bool;
  Tags : strmap (ptr string)
}.
End SecretItem.

Module DeletedSecretItem.
Record t : Type := mk {
  Attributes : ptr SecretAttributes.t;
  ID : ptr string;
  ContentType : ptr string;
  Managed : ptr bool;
  Tags : strmap (ptr string);
  RecoveryID : ptr string;
  DeletedDate : ptr time_Time;
  ScheduledPurgeDate : ptr time_Time
}.
End DeletedSecretItem.

End generated.

Module Properties.
Record t : Type := mk {
  ContentType : ptr string;
  CreatedOn : ptr time_Time;
  Enabled : ptr bool;
  ExpiresOn : ptr time_Time;
  Managed : ptr bool;
  KeyID : ptr string;
  NotBefore : ptr time_Time;
  RecoverableDays : ptr int32;
  RecoveryLevel : ptr string;
  Tags : strmap (ptr string);
  UpdatedOn : ptr time_Time;
  VaultURL : ptr string;
  Version : ptr string;
  Name : ptr string
}.
End Properties.

Module SecretItem.
Record t : Type := mk {
  Properties : ptr Properties.t;
  ID : ptr string;
  Name : ptr string
}.
End SecretItem.

Module DeletedSecretItem.
Record t : Type := mk {
  Properties : ptr Properties.t;
  ID : ptr string;
  Name : ptr string;
  RecoveryID : ptr string;
  DeletedOn : ptr time_Time;
  ScheduledPurgeDate : ptr time_Time
}.
End DeletedSecretItem.

(** [Properties.toGenerated]; the recovery level is a string type on both
    sides and the pointer is converted as it is. *)
Definition Properties_toGenerated (s : ptr Properties.t)
  : ptr generated.SecretAttributes.t :=
  match s with
  | None => None
  | Some s =>
      Some {|
        generated.SecretAttributes.RecoverableDays := Properties.RecoverableDays s;
        generated.SecretAttributes.RecoveryLevel := Properties.RecoveryLevel s;
        generated.SecretAttributes.Enabled := Properties.Enabled s;
        generated.SecretAttributes.Expires := Properties.ExpiresOn s;
        generated.SecretAttributes.NotBefore := Properties.NotBefore s;
        generated.SecretAttributes.Created := Properties.CreatedOn s;
        generated.SecretAttributes.Updated := Properties.UpdatedOn s
      |}
  end.

Section Conversions.

(** [shared.ParseID], of the shared key vault package, splits an identifier
    into vault URL, name and version; it is taken as given. *)
Variable ParseID : ptr string -> ptr string * ptr string * ptr string.

(** [secretPropertiesFromGenerated] *)
Definition secretPropertiesFromGenerated (i : ptr generated.SecretAttributes.t)
    (ID contentType keyID : ptr string) (managed : ptr bool)
    (tags : strmap (ptr string)) : ptr Properties.t :=
  match i with
  | None => None
  | Some i =>
      let '(vaultURL, name, version) := ParseID ID in
      Some {|
        Properties.ContentType := contentType;
        Properties.CreatedOn := generated.SecretAttributes.Created i;
        Properties.Enabled := generated.SecretAttributes.Enabled i;
        Properties.ExpiresOn := generated.SecretAttributes.Expires i;
        Properties.KeyID := keyID;
        Properties.Managed := managed;
        Properties.Name := name;
        Properties.NotBefore := generated.SecretAttributes.NotBefore i;
        Properties.RecoverableDays := generated.SecretAttributes.RecoverableDays i;
        Properties.RecoveryLevel := generated.SecretAttributes.RecoveryLevel i;
        Properties.Tags := tags;
        Properties.UpdatedOn := generated.SecretAttributes.Updated i;
        Properties.VaultURL := vaultURL;
        Properties.Version := version
      |}
  end.

(** [secretItemFromGenerated] *)
Definition secretItemFromGenerated (i : ptr generated.SecretItem.t)
  : ptr SecretItem.t :=
  match i with
  | None => None
  | Some i =>
      let '(_, name, _) := ParseID (generated.SecretItem.ID i) in
      Some {|
        SecretItem.Properties :=
          secretPropertiesFromGenerated (generated.SecretItem.Attributes i)
            (generated.SecretItem.ID i) (generated.SecretItem.ContentType i)
            None (generated.SecretItem.Managed i) (generated.SecretItem.Tags i);
        SecretItem.ID := generated.SecretItem.ID i;
        SecretItem.Name := name
      |}
  end.

(** [deletedSecretItemFromGenerated] *)
Definition deletedSecretItemFromGenerated (i : ptr generated.DeletedSecretItem.t)
  : ptr DeletedSecretItem.t :=
  match i with
  | None => None
  | Some i =>
      let '(_, name, _) := ParseID (generated.DeletedSecretItem.ID i) in
      Some {|
        DeletedSecretItem.Properties :=
          secretPropertiesFromGenerated
            (generated.DeletedSecretItem.Attributes i)
            (generated.DeletedSecretItem.ID i)
            (generated.DeletedSecretItem.ContentType i)
            None (generated.DeletedSecretItem.Managed i)
            (generated.DeletedSecretItem.Tags i);
        DeletedSecretItem.Name := name;
        DeletedSecretItem.ID := generated.DeletedSecretItem.ID i;
        DeletedSecretItem.RecoveryID := generated.DeletedSecretItem.RecoveryID i;
        DeletedSecretItem.DeletedOn := generated.DeletedSecretItem.DeletedDate i;
        DeletedSecretItem.ScheduledPurgeDate :=
          generated.DeletedSecretItem.ScheduledPurgeDate i
      |}
  end.

End Conversions.

End azsecrets.

(** ** net/http *)

Module http.

Definition StatusOK : Z := 200.
Definition StatusCreated : Z := 201.
Definition StatusAccepted : Z := 202.
Definition StatusNoContent : Z := 204.

Definition MethodGet : string := "GET".

(** [http.Header]: canonical header name to the values received for it. *)
Definition Header : Type := gmap string (list string).

(** [Header.Get], for a key already in canonical form (as ["Location"] is):
    the first value stored under the key, the empty string when none. *)
Definition Header_Get (h : Header) (key : string) : string :=
  match h !! key with
  | Some (v :: _) => v
  | _ => ""
  end.

(** A response body: its bytes, and what reading it to the end and closing
    it report. *)
Module Body.
Record t : Type := mk {
  bytes : string;
  read_error : error;
  close_error : error
}.
End Body.

Module Response.
Record t : Type := mk {
  StatusCode : Z;
  Header : Header;
  Body : Body.t
}.
End Response.

Module Request.
Record t : Type := mk {
  Method : string;
  URL : string
}.
End Request.

End http.

(** ** sdk/keyvault/azcertificates/client.go *)

Module azcertificates.

(** Models of [azcertificates/internal/generated], with the fields the
    client reads or writes. *)
Module generated.

Module CertificateAttributes.
Record t : Type := mk { Enabled : ptr bool }.
End CertificateAttributes.

Module CertificateCreateParameters.
Record t (CertificatePolicy_t : Type) : Type := mk {
  CertificatePolicy : ptr CertificatePolicy_t;
  Tags : strmap (ptr string);
  CertificateAttributes : ptr CertificateAttributes.t
}.
Arguments mk {_} _ _ _.
End CertificateCreateParameters.

(** [KeyVaultClientCreateCertificateResponse]: the certificate operation
    the service answers with. *)
Module KeyVaultClientCreateCertificateResponse.
Record t : Type := mk { Status : ptr string }.
Definition zero : t := mk None.
End KeyVaultClientCreateCertificateResponse.

Module KeyVaultClientGetCertificateResponse.
Record t (CertificatePolicy_t : Type) : Type := mk {
  Attributes : ptr CertificateAttributes.t;
  Cer : slice Byte.byte;
  ContentType : ptr string;
  ID : ptr string;
  Kid : ptr string;
  Policy : ptr CertificatePolicy_t;
  Sid : ptr string;
  Tags : strmap (ptr string);
  X509Thumbprint : slice Byte.byte
}.
Arguments Attributes {_} _.
Arguments Cer {_} _.
Arguments ContentType {_} _.
Arguments ID {_} _.
Arguments Kid {_} _.
Arguments Policy {_} _.
Arguments Sid {_} _.
Arguments Tags {_} _.
Arguments X509Thumbprint {_} _.
End KeyVaultClientGetCertificateResponse.

(** [generated.CertificateItem], [generated.DeletedCertificateItem] and the
    list responses, with the fields the client reads. *)
Module CertificateItem.
Record t : Type := mk {
  Attributes : ptr CertificateAttributes.t;
  ID : ptr string;
  Tags : strmap (ptr string);
  X509Thumbprint : slice Byte.byte
}.
End CertificateItem.

Module DeletedCertificateItem.
Record t : Type := mk {
  Attributes : ptr CertificateAttributes.t;
  ID : ptr string;
  Tags : strmap (ptr string);
  X509Thumbprint : slice Byte.byte;
  RecoveryID : ptr string;
  DeletedDate : ptr time_Time;
  ScheduledPurgeDate : ptr time_Time
}.
End DeletedCertificateItem.

Module KeyVaultClientGetCertificatesResponse.
Record t : Type := mk {
  Value : slice (ptr CertificateItem.t);
  NextLink : ptr string
}.
End KeyVaultClientGetCertificatesResponse.

Module KeyVaultClientGetCertificateVersionsResponse.
Record t : Type := mk {
  Value : slice (ptr CertificateItem.t);
  NextLink : ptr string
}.
End KeyVaultClientGetCertificateVersionsResponse.

Module KeyVaultClientGetDeletedCertificatesResponse.
Record t : Type := mk {
  Value : slice (ptr DeletedCertificateItem.t);
  NextLink : ptr string
}.
End KeyVaultClientGetDeletedCertificatesResponse.

(** The issuer models of the generated client. *)
Module AdministratorDetails.
Record t : Type := mk {
  EmailAddress : ptr string;
  FirstName : ptr string;
  LastName : ptr string;
  Phone : ptr string
}.
End AdministratorDetails.

Module OrganizationDetails.
Record t : Type := mk {
  AdminDetails : slice (ptr AdministratorDetails.t);
  ID : ptr string
}.
(** [OrganizationDetails{}] *)
Definition zero : t := mk None None.
End OrganizationDetails.

Module IssuerAttributes.
Record t : Type := mk {
  Created : ptr time_Time;
  Enabled : ptr bool;
  Updated : ptr time_Time
}.
End IssuerAttributes.

(** The issuer bundle every issuer operation answers with. *)
Module IssuerBundle.
Record t (Credentials_t : Type) : Type := mk {
  Attributes : ptr IssuerAttributes.t;
  Credentials : ptr Credentials_t;
  ID : ptr string;
  OrganizationDetails : ptr OrganizationDetails.t;
  Provider : ptr string
}.
Arguments mk {_} _ _ _ _ _.
Arguments Attributes {_} _.
Arguments Credentials {_} _.
Arguments ID {_} _.
Arguments OrganizationDetails {_} _.
Arguments Provider {_} _.
End IssuerBundle.

Module CertificateIssuerSetParameters.
Record t (Credentials_t : Type) : Type := mk {
  Provider : ptr string;
  Attributes : ptr IssuerAttributes.t;
  Credentials : ptr Credentials_t;
  OrganizationDetails : ptr OrganizationDetails.t
}.
Arguments mk {_} _ _ _ _.
Arguments Provider {_} _.
Arguments Attributes {_} _.
Arguments Credentials {_} _.
Arguments OrganizationDetails {_} _.
End CertificateIssuerSetParameters.

Module CertificateIssuerUpdateParameters.
Record t (Credentials_t : Type) : Type := mk {
  Attributes : ptr IssuerAttributes.t;
  Credentials : ptr Credentials_t;
  OrganizationDetails : ptr OrganizationDetails.t;
  Provider : ptr string
}.
Arguments mk {_} _ _ _ _.
Arguments Attributes {_} _.
Arguments Credentials {_} _.
Arguments OrganizationDetails {_} _.
Arguments Provider {_} _.
(** [CertificateIssuerUpdateParameters{}] *)
Definition zero {C} : t C := mk None None None None.
End CertificateIssuerUpdateParameters.

End generated.

(** The models file of the package (not part of [client.go]): the public
    model types and their conversions from and to the generated ones. *)
Class Models : Type := {
  Policy : Type;
  Properties : Type;
  Certificate : Type;
  DeletedCertificate : Type;
  generated_CertificatePolicy : Type;
  toGeneratedCertificateCreateParameters : ptr Policy -> ptr generated_CertificatePolicy;
  certificatePolicyFromGenerated : ptr generated_CertificatePolicy -> ptr Policy;
  propertiesFromGenerated :
    ptr generated.CertificateAttributes.t -> strmap (ptr string) ->
    ptr string -> slice Byte.byte -> ptr Properties
}.

(** What a generated operation hands back: its typed response, its error,
    and the raw response captured through [runtime.WithCaptureResponse]
    (nil when nothing was captured). *)
Module Reply.
Record t (R : Type) : Type := mk {
  value : R;
  err : error;
  captured : ptr http.Response.t
}.
Arguments mk {_} _ _ _.
Arguments value {_} _.
Arguments err {_} _.
Arguments captured {_} _.
End Reply.

Module CertificateWithPolicy.
Record t (Properties_t Policy_t : Type) : Type := mk {
  Properties : ptr Properties_t;
  CER : slice Byte.byte;
  ContentType : ptr string;
  ID : ptr string;
  KeyID : ptr string;
  SecretID : ptr string;
  Policy : ptr Policy_t
}.
Arguments mk {_ _} _ _ _ _ _ _ _.
Definition zero {Properties_t Policy_t} : t Properties_t Policy_t :=
  mk None None None None None None None.
End CertificateWithPolicy.

Module GetCertificateOptions.
Record t : Type := mk { Version : string }.
Definition zero : t := mk "".
End GetCertificateOptions.

Module BeginCreateCertificateOptions.
Record t : Type := mk {
  Enabled : ptr bool;
  Tags : strmap (ptr string);
  ResumeToken : string
}.
Definition zero : t := mk None None "".
End BeginCreateCertificateOptions.

Module BeginDeleteCertificateOptions.
Record t : Type := mk { ResumeToken : string }.
Definition zero : t := mk "".
End BeginDeleteCertificateOptions.

Module BeginRecoverDeletedCertificateOptions.
Record t : Type := mk { ResumeToken : string }.
Definition zero : t := mk "".
End BeginRecoverDeletedCertificateOptions.

Section Client.
Context `{Models}.

Definition CertificateCreateParameters : Type :=
  generated.CertificateCreateParameters.t generated_CertificatePolicy.
Definition KeyVaultClientGetCertificateResponse : Type :=
  generated.KeyVaultClientGetCertificateResponse.t generated_CertificatePolicy.

(** What leaves the process: the operations of the generated client and
    the requests sent through its pipeline. *)
Inductive Call : Type :=
| CallCreateCertificate (vaultURL name : string) (parameters : CertificateCreateParameters)
| CallDeleteCertificate (vaultURL name : string)
| CallRecoverDeletedCertificate (vaultURL name : string)
| CallGetCertificate (vaultURL name version : string)
| CallPipelineDo (req : http.Request.t).

Definition Log : Type := list Call.

(** The service behind the generated client; each answer may depend on
    everything sent so far. [NewRequest_error] is the check
    [runtime.NewRequest] makes on its endpoint; the two [...CreateRequest]
    constructors of the generated client build a request locally or
    fail. *)
Class Service : Type := {
  CreateCertificate_reply :
    Log -> string -> string -> CertificateCreateParameters ->
    Reply.t generated.KeyVaultClientCreateCertificateResponse.t;
  DeleteCertificate_reply : Log -> string -> string -> Reply.t unit;
  RecoverDeletedCertificate_reply : Log -> string -> string -> Reply.t unit;
  GetCertificate_reply :
    Log -> string -> string -> string ->
    KeyVaultClientGetCertificateResponse * error;
  Do_reply : Log -> http.Request.t -> ptr http.Response.t * error;
  NewRequest_error : string -> string -> error;
  GetDeletedCertificateCreateRequest :
    string -> string -> http.Request.t + go_error;
  GetCertificateCreateRequest :
    string -> string -> string -> http.Request.t + go_error
}.

(** [runtime.NewPoller] and [runtime.NewPollerFromResumeToken] at handler
    type [H] and response type [T]; neither sends anything. *)
Class Runtime (H T : Type) : Type := {
  Poller : Type;
  NewPoller : ptr http.Response.t -> H -> ptr Poller * error;
  NewPollerFromResumeToken : string -> H -> ptr Poller * error
}.

Context `{Service}.

(** A Go function that may send calls: it threads the log and either
    returns or panics. *)
Definition M (A : Type) : Type := Log -> exec A * Log.

Definition ret {A} (a : A) : M A := fun log => (Returns a, log).

Definition bind {A B} (m : M A) (k : A -> M B) : M B :=
  fun log =>
    match m log with
    | (Returns a, log') => k a log'
    | (Panics r, log') => (Panics r, log')
    end.

Definition lift {A} (e : exec A) : M A := fun log => (e, log).

(** Send [call]; [answer] reads the reply off the log as it stood. *)
Definition send {A} (call : Call) (answer : Log -> A) : M A :=
  fun log => (Returns (answer log), log ++ [call]).

Notation "x <- m ;; k" := (bind m (fun x => k))
  (at level 100, m at next level, right associativity).

Record Client : Type := mkClient { vaultURL : string }.

(** [runtime.NewRequest]: a request with the given method for the given
    endpoint, or the error of the endpoint check. *)
Definition runtime_NewRequest (httpMethod endpoint : string)
  : http.Request.t + go_error :=
  match NewRequest_error httpMethod endpoint with
  | Some e => inr e
  | None => inl (http.Request.mk httpMethod endpoint)
  end.

Definition genClient_CreateCertificate (vault name : string)
    (parameters : CertificateCreateParameters) :=
  send (CallCreateCertificate vault name parameters)
       (fun log => CreateCertificate_reply log vault name parameters).

Definition genClient_DeleteCertificate (vault name : string) :=
  send (CallDeleteCertificate vault name)
       (fun log => DeleteCertificate_reply log vault name).

Definition genClient_RecoverDeletedCertificate (vault name : string) :=
  send (CallRecoverDeletedCertificate vault name)
       (fun log => RecoverDeletedCertificate_reply log vault name).

Definition genClient_GetCertificate (vault name version : string) :=
  send (CallGetCertificate vault name version)
       (fun log => GetCertificate_reply log vault name version).

(** [c.genClient.Pipeline().Do(req)] *)
Definition Pipeline_Do (req : http.Request.t) :=
  send (CallPipelineDo req) (fun log => Do_reply log req).

Definition CertificateWithPolicy : Type :=
  CertificateWithPolicy.t Properties Policy.

Record GetCertificateResponse : Type :=
  mkGetCertificateResponse { get_CertificateWithPolicy : CertificateWithPolicy }.

Record CreateCertificateResponse : Type :=
  mkCreateCertificateResponse { create_CertificateWithPolicy : CertificateWithPolicy }.

(** The conversion [CreateCertificateResponse(resp)] between the two
    struct types of identical shape. *)
Definition CreateCertificateResponse_of (resp : GetCertificateResponse)
  : CreateCertificateResponse :=
  mkCreateCertificateResponse (get_CertificateWithPolicy resp).

(** [Client.GetCertificate] *)
Definition GetCertificate (c : Client) (certificateName : string)
    (options : ptr GetCertificateOptions.t)
  : M (GetCertificateResponse * error) :=
  let options := default GetCertificateOptions.zero options in
  reply <- genClient_GetCertificate (vaultURL c) certificateName
             (GetCertificateOptions.Version options) ;;
  let '(resp, err) := reply in
  match err with
  | Some e => ret (mkGetCertificateResponse CertificateWithPolicy.zero, Some e)
  | None =>
      ret (mkGetCertificateResponse {|
             CertificateWithPolicy.Properties :=
               propertiesFromGenerated
                 (generated.KeyVaultClientGetCertificateResponse.Attributes resp)
                 (generated.KeyVaultClientGetCertificateResponse.Tags resp)
                 (generated.KeyVaultClientGetCertificateResponse.ID resp)
                 (generated.KeyVaultClientGetCertificateResponse.X509Thumbprint resp);
             CertificateWithPolicy.CER :=
               generated.KeyVaultClientGetCertificateResponse.Cer resp;
             CertificateWithPolicy.ContentType :=
               generated.KeyVaultClientGetCertificateResponse.ContentType resp;
             CertificateWithPolicy.ID :=
               generated.KeyVaultClientGetCertificateResponse.ID resp;
             CertificateWithPolicy.KeyID :=
               generated.KeyVaultClientGetCertificateResponse.Kid resp;
             CertificateWithPolicy.SecretID :=
               generated.KeyVaultClientGetCertificateResponse.Sid resp;
             CertificateWithPolicy.Policy :=
               certificatePolicyFromGenerated
                 (generated.KeyVaultClientGetCertificateResponse.Policy resp)
           |}, None)
  end.

(** *** Handlers

    The handler structs are declared next to the client; they are given
    here with the fields the client sets. Their [poll] and [result]
    fields hold the closures built by the [Begin...] calls. *)

Record beginCreateCertificateOperation : Type := mkCreateOperation {
  create_poll : string -> M (ptr http.Response.t * error);
  create_result : M (CreateCertificateResponse * error);
  PollURL : string;
  Status : string
}.

Record beginDeleteCertificateOperation : Type := mkDeleteOperation {
  delete_poll : M (ptr http.Response.t * error)
}.

Record beginRecoverDeletedCertificate : Type := mkRecoverOperation {
  recover_poll : M (ptr http.Response.t * error)
}.

Record DeleteCertificateResponse : Type :=
  mkDeleteCertificateResponse { delete_DeletedCertificate : DeletedCertificate }.

Record RecoverDeletedCertificateResponse : Type :=
  mkRecoverDeletedCertificateResponse { recover_Certificate : Certificate }.

(** [handler.PollURL = pollURL] and [handler.Status = ...] *)
Definition set_PollURL (url : string) (h : beginCreateCertificateOperation) :=
  mkCreateOperation (create_poll h) (create_result h) url (Status h).
Definition set_Status (status : string) (h : beginCreateCertificateOperation) :=
  mkCreateOperation (create_poll h) (create_result h) (PollURL h) status.

(** The [poll] closure of [BeginCreateCertificate]: a GET on the endpoint
    it is given. *)
Definition BeginCreateCertificate_poll (c : Client) (endpoint : string)
  : M (ptr http.Response.t * error) :=
  match runtime_NewRequest http.MethodGet endpoint with
  | inr e => ret (None, Some e)
  | inl req => Pipeline_Do req
  end.

(** The [result] closure of [BeginCreateCertificate]. *)
Definition BeginCreateCertificate_result (c : Client) (certificateName : string)
  : M (CreateCertificateResponse * error) :=
  r <- GetCertificate c certificateName None ;;
  let '(resp, err) := r in
  match err with
  | Some e => ret (mkCreateCertificateResponse CertificateWithPolicy.zero, Some e)
  | None => ret (CreateCertificateResponse_of resp, None)
  end.

(** The [poll] closure of [BeginDeleteCertificate]. *)
Definition BeginDeleteCertificate_poll (c : Client) (certificateName : string)
  : M (ptr http.Response.t * error) :=
  match GetDeletedCertificateCreateRequest (vaultURL c) certificateName with
  | inr e => ret (None, Some e)
  | inl req => Pipeline_Do req
  end.

(** The [poll] closure of [BeginRecoverDeletedCertificate]. *)
Definition BeginRecoverDeletedCertificate_poll (c : Client) (certificateName : string)
  : M (ptr http.Response.t * error) :=
  match GetCertificateCreateRequest (vaultURL c) certificateName "" with
  | inr e => ret (None, Some e)
  | inl req => Pipeline_Do req
  end.

(** The handler literals the three calls start from. *)
Definition BeginCreateCertificate_handler (c : Client) (certificateName : string)
  : beginCreateCertificateOperation :=
  {| create_poll := BeginCreateCertificate_poll c;
     create_result := BeginCreateCertificate_result c certificateName;
     PollURL := "";
     Status := "" |}.

Definition BeginDeleteCertificate_handler (c : Client) (certificateName : string)
  : beginDeleteCertificateOperation :=
  {| delete_poll := BeginDeleteCertificate_poll c certificateName |}.

Definition BeginRecoverDeletedCertificate_handler (c : Client)
    (certificateName : string)
  : beginRecoverDeletedCertificate :=
  {| recover_poll := BeginRecoverDeletedCertificate_poll c certificateName |}.

(** *** The three initiating calls *)

(** The [generated.CertificateCreateParameters] literal of
    [BeginCreateCertificate]. *)
Definition BeginCreateCertificate_parameters (policy : Policy)
    (options : BeginCreateCertificateOptions.t)
  : CertificateCreateParameters :=
  generated.CertificateCreateParameters.mk
    (toGeneratedCertificateCreateParameters (Some policy))
    (BeginCreateCertificateOptions.Tags options)
    (Some (generated.CertificateAttributes.mk
             (BeginCreateCertificateOptions.Enabled options))).

(** [Client.BeginCreateCertificate] *)
Definition BeginCreateCertificate
    `{R : Runtime beginCreateCertificateOperation CreateCertificateResponse}
    (c : Client) (certificateName : string) (policy : Policy)
    (options : ptr BeginCreateCertificateOptions.t)
  : M (ptr Poller * error) :=
  let options := default BeginCreateCertificateOptions.zero options in
  let handler := BeginCreateCertificate_handler c certificateName in
  if negb (String.eqb (BeginCreateCertificateOptions.ResumeToken options) "") then
    ret (NewPollerFromResumeToken
           (BeginCreateCertificateOptions.ResumeToken options) handler)
  else
    reply <- genClient_CreateCertificate (vaultURL c) certificateName
               (BeginCreateCertificate_parameters policy options) ;;
    match Reply.err reply with
    | Some e => ret (None, Some e)
    | None =>
        rawResp <- lift (deref (Reply.captured reply)) ;;
        let pollURL :=
          http.Header_Get (http.Response.Header rawResp) "Location" in
        if String.eqb pollURL "" then
          ret (None, errors_New "missing Location header")
        else
          let handler := set_PollURL pollURL handler in
          status <- lift (deref
            (generated.KeyVaultClientCreateCertificateResponse.Status
               (Reply.value reply))) ;;
          let handler := set_Status status handler in
          ret (NewPoller (Reply.captured reply) handler)
    end.

(** [Client.BeginDeleteCertificate] *)
Definition BeginDeleteCertificate
    `{R : Runtime beginDeleteCertificateOperation DeleteCertificateResponse}
    (c : Client) (certificateName : string)
    (options : ptr BeginDeleteCertificateOptions.t)
  : M (ptr Poller * error) :=
  let options := default BeginDeleteCertificateOptions.zero options in
  let handler := BeginDeleteCertificate_handler c certificateName in
  if negb (String.eqb (BeginDeleteCertificateOptions.ResumeToken options) "") then
    ret (NewPollerFromResumeToken
           (BeginDeleteCertificateOptions.ResumeToken options) handler)
  else
    reply <- genClient_DeleteCertificate (vaultURL c) certificateName ;;
    match Reply.err reply with
    | Some e => ret (None, Some e)
    | None => ret (NewPoller (Reply.captured reply) handler)
    end.

(** [Client.BeginRecoverDeletedCertificate] *)
Definition BeginRecoverDeletedCertificate
    `{R : Runtime beginRecoverDeletedCertificate RecoverDeletedCertificateResponse}
    (c : Client) (certificateName : string)
    (options : ptr BeginRecoverDeletedCertificateOptions.t)
  : M (ptr Poller * error) :=
  let options := default BeginRecoverDeletedCertificateOptions.zero options in
  let handler := BeginRecoverDeletedCertificate_handler c certificateName in
  if negb (String.eqb
             (BeginRecoverDeletedCertificateOptions.ResumeToken options) "") then
    ret (NewPollerFromResumeToken
           (BeginRecoverDeletedCertificateOptions.ResumeToken options) handler)
  else
    reply <- genClient_RecoverDeletedCertificate (vaultURL c) certificateName ;;
    match Reply.err reply with
    | Some e => ret (None, Some e)
    | None => ret (NewPoller (Reply.captured reply) handler)
    end.

(** The calls a run adds to the log. *)
Definition sent {A} (m : M A) (log : Log) : Log :=
  drop (List.length log) (snd (m log)).

Definition is_initiating (call : Call) : bool :=
  match call with
  | CallCreateCertificate _ _ _
  | CallDeleteCertificate _ _
  | CallRecoverDeletedCertificate _ _ => true
  | _ => false
  end.

End Client.

(** *** Pages of certificates *)

Module CertificateItem.
Record t (Properties_t : Type) : Type := mk {
  Properties : ptr Properties_t;
  ID : ptr string
}.
Arguments mk {_} _ _.
Arguments Properties {_} _.
Arguments ID {_} _.
End CertificateItem.

Module DeletedCertificateItem.
Record t (Properties_t : Type) : Type := mk {
  Properties : ptr Properties_t;
  ID : ptr string;
  Name : ptr string;
  RecoveryID : ptr string;
  DeletedOn : ptr time_Time;
  ScheduledPurgeDate : ptr time_Time
}.
Arguments mk {_} _ _ _ _ _ _.
Arguments Properties {_} _.
Arguments ID {_} _.
Arguments Name {_} _.
Arguments RecoveryID {_} _.
Arguments DeletedOn {_} _.
Arguments ScheduledPurgeDate {_} _.
End DeletedCertificateItem.

(** [ListPropertiesOfCertificatesResponse] and
    [ListPropertiesOfCertificateVersionsResponse] have this one shape. *)
Module ListPropertiesOfCertificatesResponse.
Record t (Properties_t : Type) : Type := mk {
  Certificates : slice (ptr (CertificateItem.t Properties_t));
  NextLink : ptr string
}.
Arguments mk {_} _ _.
Arguments Certificates {_} _.
Arguments NextLink {_} _.
End ListPropertiesOfCertificatesResponse.

Module ListDeletedCertificatesResponse.
Record t (Properties_t : Type) : Type := mk {
  DeletedCertificates : slice (ptr (DeletedCertificateItem.t Properties_t));
  NextLink : ptr string
}.
Arguments mk {_} _ _.
Arguments DeletedCertificates {_} _.
Arguments NextLink {_} _.
End ListDeletedCertificatesResponse.

Section Pages.
Context `{Models}.

(** [shared.ParseID], of the shared key vault package, splits an identifier
    into three parts; it is taken as given. *)
Variable ParseID : ptr string -> ptr string * ptr string * ptr string.

(** The item built in the loops of [listCertsPageFromGenerated] and
    [listCertificateVersionsPageFromGenerated]; [v] is read through. *)
Definition certificateItem_of (v : ptr generated.CertificateItem.t)
  : exec (ptr (CertificateItem.t Properties)) :=
  exec_bind (deref v) (fun v =>
  Returns (Some (CertificateItem.mk
    (propertiesFromGenerated
       (generated.CertificateItem.Attributes v)
       (generated.CertificateItem.Tags v)
       (generated.CertificateItem.ID v)
       (generated.CertificateItem.X509Thumbprint v))
    (generated.CertificateItem.ID v)))).

(** [listCertsPageFromGenerated] *)
Definition listCertsPageFromGenerated
    (i : generated.KeyVaultClientGetCertificatesResponse.t)
  : exec (ListPropertiesOfCertificatesResponse.t Properties) :=
  exec_bind
    (range_append_exec certificateItem_of
       (elems (generated.KeyVaultClientGetCertificatesResponse.Value i)) None)
    (fun vals =>
       Returns (ListPropertiesOfCertificatesResponse.mk vals
                  (generated.KeyVaultClientGetCertificatesResponse.NextLink i))).

(** [listCertificateVersionsPageFromGenerated] *)
Definition listCertificateVersionsPageFromGenerated
    (i : generated.KeyVaultClientGetCertificateVersionsResponse.t)
  : exec (ListPropertiesOfCertificatesResponse.t Properties) :=
  exec_bind
    (range_append_exec certificateItem_of
       (elems (generated.KeyVaultClientGetCertificateVersionsResponse.Value i))
       None)
    (fun vals =>
       Returns (ListPropertiesOfCertificatesResponse.mk vals
                  (generated.KeyVaultClientGetCertificateVersionsResponse.NextLink i))).

(** The item built in the loop of [listDeletedCertsPageFromGenerated]; [c]
    is read through. *)
Definition deletedCertificateItem_of (c : ptr generated.DeletedCertificateItem.t)
  : exec (ptr (DeletedCertificateItem.t Properties)) :=
  exec_bind (deref c) (fun c =>
  let '(_, name, _) := ParseID (generated.DeletedCertificateItem.ID c) in
  Returns (Some (DeletedCertificateItem.mk
    (propertiesFromGenerated
       (generated.DeletedCertificateItem.Attributes c)
       (generated.DeletedCertificateItem.Tags c)
       (generated.DeletedCertificateItem.ID c)
       (generated.DeletedCertificateItem.X509Thumbprint c))
    (generated.DeletedCertificateItem.ID c)
    name
    (generated.DeletedCertificateItem.RecoveryID c)
    (generated.DeletedCertificateItem.DeletedDate c)
    (generated.DeletedCertificateItem.ScheduledPurgeDate c)))).

(** [listDeletedCertsPageFromGenerated]: the slice is made only for a page
    that has items. *)
Definition listDeletedCertsPageFromGenerated
    (g : generated.KeyVaultClientGetDeletedCertificatesResponse.t)
  : exec (ListDeletedCertificatesResponse.t Properties) :=
  let value := generated.KeyVaultClientGetDeletedCertificatesResponse.Value g in
  exec_bind
    (if (0 <? len value)%nat then
       exec_bind
         (range_assign_exec deletedCertificateItem_of 0 (elems value)
            (make None (len value)))
         (fun certs => Returns (Some certs))
     else Returns None)
    (fun certs =>
       Returns (ListDeletedCertificatesResponse.mk certs
                  (generated.KeyVaultClientGetDeletedCertificatesResponse.NextLink g))).

End Pages.

(** *** Issuers *)

Module AdministratorContact.
Record t : Type := mk {
  Email : ptr string;
  FirstName : ptr string;
  LastName : ptr string;
  Phone : ptr string
}.
End AdministratorContact.

(** [Issuer], with the fields the client reads and writes. *)
Module Issuer.
Record t (Credentials_t : Type) : Type := mk {
  AdministratorContacts : slice (ptr AdministratorContact.t);
  CreatedOn : ptr time_Time;
  Credentials : ptr Credentials_t;
  Enabled : ptr bool;
  ID : ptr string;
  Name : ptr string;
  OrganizationID : ptr string;
  Provider : ptr string;
  UpdatedOn : ptr time_Time
}.
Arguments mk {_} _ _ _ _ _ _ _ _ _.
Arguments AdministratorContacts {_} _.
Arguments CreatedOn {_} _.
Arguments Credentials {_} _.
Arguments Enabled {_} _.
Arguments ID {_} _.
Arguments Name {_} _.
Arguments OrganizationID {_} _.
Arguments Provider {_} _.
Arguments UpdatedOn {_} _.

(** [Issuer{}] *)
Definition zero {C} : t C := mk None None None None None None None None None.

(** The three assignments made when the bundle has attributes. *)
Definition set_attributes {C} (a : generated.IssuerAttributes.t) (i : t C) : t C :=
  mk (AdministratorContacts i) (generated.IssuerAttributes.Created a)
     (Credentials i) (generated.IssuerAttributes.Enabled a) (ID i) (Name i)
     (OrganizationID i) (Provider i) (generated.IssuerAttributes.Updated a).

Definition set_OrganizationID {C} (id : ptr string) (i : t C) : t C :=
  mk (AdministratorContacts i) (CreatedOn i) (Credentials i) (Enabled i) (ID i)
     (Name i) id (Provider i) (UpdatedOn i).

Definition set_AdministratorContacts {C}
    (contacts : slice (ptr AdministratorContact.t)) (i : t C) : t C :=
  mk contacts (CreatedOn i) (Credentials i) (Enabled i) (ID i) (Name i)
     (OrganizationID i) (Provider i) (UpdatedOn i).

Definition set_Name {C} (name : ptr string) (i : t C) : t C :=
  mk (AdministratorContacts i) (CreatedOn i) (Credentials i) (Enabled i) (ID i)
     name (OrganizationID i) (Provider i) (UpdatedOn i).
End Issuer.

Module CreateIssuerOptions.
Record t (Credentials_t : Type) : Type := mk {
  Enabled : ptr bool;
  Credentials : ptr Credentials_t;
  AdministratorContacts : slice (ptr AdministratorContact.t);
  OrganizationID : ptr string
}.
Arguments mk {_} _ _ _ _.
Arguments Enabled {_} _.
Arguments Credentials {_} _.
Arguments AdministratorContacts {_} _.
Arguments OrganizationID {_} _.
Definition zero {C} : t C := mk None None None None.
End CreateIssuerOptions.

(** The element built in the loops over administrator contacts; [v] is read
    through. *)
Definition administratorDetails_of (v : ptr AdministratorContact.t)
  : exec (ptr generated.AdministratorDetails.t) :=
  exec_bind (deref v) (fun v =>
  Returns (Some (generated.AdministratorDetails.mk
    (AdministratorContact.Email v) (AdministratorContact.FirstName v)
    (AdministratorContact.LastName v) (AdministratorContact.Phone v)))).

(** The element built in the loops over administrator details; [v] is read
    through. *)
Definition administratorContact_of (v : ptr generated.AdministratorDetails.t)
  : exec (ptr AdministratorContact.t) :=
  exec_bind (deref v) (fun v =>
  Returns (Some (AdministratorContact.mk
    (generated.AdministratorDetails.EmailAddress v)
    (generated.AdministratorDetails.FirstName v)
    (generated.AdministratorDetails.LastName v)
    (generated.AdministratorDetails.Phone v)))).

(** The organization details built from an organization identifier and a
    list of contacts, as [CreateIssuer] and [Issuer.toUpdateParameters] both
    do: nil when both are nil; the contacts are copied only when not nil. *)
Definition organization_details (organizationID : ptr string)
    (contacts : slice (ptr AdministratorContact.t))
  : exec (ptr generated.OrganizationDetails.t) :=
  match contacts, organizationID with
  | None, None => Returns None
  | _, _ =>
      let orgDetails := generated.OrganizationDetails.zero in
      let orgDetails :=
        match organizationID with
        | Some _ =>
            generated.OrganizationDetails.mk
              (generated.OrganizationDetails.AdminDetails orgDetails)
              organizationID
        | None => orgDetails
        end in
      match contacts with
      | Some l =>
          exec_bind
            (range_assign_exec administratorDetails_of 0 l
               (make None (List.length l)))
            (fun a =>
               Returns (Some (generated.OrganizationDetails.mk (Some a)
                                (generated.OrganizationDetails.ID orgDetails))))
      | None => Returns (Some orgDetails)
      end
  end.

Section Issuers.

(** The credentials of an issuer and their conversions belong to the models
    of the package; [shared.ParseID] to the shared key vault package. *)
Variable IssuerCredentials : Type.
Variable generated_IssuerCredentials : Type.
Variable IssuerCredentials_toGenerated :
  ptr IssuerCredentials -> ptr generated_IssuerCredentials.
Variable issuerCredentialsFromGenerated :
  ptr generated_IssuerCredentials -> ptr IssuerCredentials.
Variable ParseID : ptr string -> ptr string * ptr string * ptr string.

Definition IssuerBundle : Type :=
  generated.IssuerBundle.t generated_IssuerCredentials.

(** [Issuer.toUpdateParameters] *)
Definition Issuer_toUpdateParameters (i : ptr (Issuer.t IssuerCredentials))
  : exec (generated.CertificateIssuerUpdateParameters.t generated_IssuerCredentials) :=
  match i with
  | None => Returns generated.CertificateIssuerUpdateParameters.zero
  | Some i =>
      let attrib :=
        match Issuer.Enabled i with
        | Some _ => Some (generated.IssuerAttributes.mk None (Issuer.Enabled i) None)
        | None => None
        end in
      exec_bind
        (organization_details (Issuer.OrganizationID i)
           (Issuer.AdministratorContacts i))
        (fun orgDetail =>
           Returns (generated.CertificateIssuerUpdateParameters.mk
                      attrib
                      (IssuerCredentials_toGenerated (Issuer.Credentials i))
                      orgDetail
                      (Issuer.Provider i)))
  end.

(** The parameters [CreateIssuer] sends. *)
Definition CreateIssuer_parameters (provider : string)
    (options : CreateIssuerOptions.t IssuerCredentials)
  : exec (generated.CertificateIssuerSetParameters.t generated_IssuerCredentials) :=
  exec_bind
    (organization_details (CreateIssuerOptions.OrganizationID options)
       (CreateIssuerOptions.AdministratorContacts options))
    (fun orgDetails =>
       Returns (generated.CertificateIssuerSetParameters.mk
                  (Some provider)
                  (Some (generated.IssuerAttributes.mk
                           None (CreateIssuerOptions.Enabled options) None))
                  (IssuerCredentials_toGenerated
                     (CreateIssuerOptions.Credentials options))
                  orgDetails)).

(** The administrator contacts read off organization details. *)
Definition adminDetails_of (o : generated.OrganizationDetails.t)
  : exec (slice (ptr AdministratorContact.t)) :=
  match generated.OrganizationDetails.AdminDetails o with
  | Some l =>
      exec_bind
        (range_assign_exec administratorContact_of 0 l
           (make None (List.length l)))
        (fun a => Returns (Some a))
  | None => Returns None
  end.

(** [Client.CreateIssuer]; [SetCertificateIssuer] is the operation of the
    generated client on the service. *)
Definition CreateIssuer
    (SetCertificateIssuer :
       string -> string ->
       generated.CertificateIssuerSetParameters.t generated_IssuerCredentials ->
       IssuerBundle * error)
    (c : Client) (issuerName provider : string)
    (options : ptr (CreateIssuerOptions.t IssuerCredentials))
  : exec (Issuer.t IssuerCredentials * error) :=
  let options := default CreateIssuerOptions.zero options in
  exec_bind (CreateIssuer_parameters provider options) (fun parameters =>
  let '(resp, err) := SetCertificateIssuer (vaultURL c) issuerName parameters in
  match err with
  | Some e => Returns (Issuer.zero, Some e)
  | None =>
      let issuer :=
        Issuer.mk None None
          (issuerCredentialsFromGenerated (generated.IssuerBundle.Credentials resp))
          None (generated.IssuerBundle.ID resp) None None
          (generated.IssuerBundle.Provider resp) None in
      let issuer :=
        match generated.IssuerBundle.Attributes resp with
        | Some a => Issuer.set_attributes a issuer
        | None => issuer
        end in
      exec_bind
        (match generated.IssuerBundle.OrganizationDetails resp with
         | Some o =>
             let issuer :=
               Issuer.set_OrganizationID (generated.OrganizationDetails.ID o)
                 issuer in
             exec_bind (adminDetails_of o) (fun adminDetails =>
             Returns (Issuer.set_AdministratorContacts adminDetails issuer))
         | None => Returns issuer
         end)
        (fun issuer =>
           let '(_, _, name) := ParseID (generated.IssuerBundle.ID resp) in
           Returns (Issuer.set_Name name issuer, None))
  end).

(** [Client.GetIssuer] *)
Definition GetIssuer
    (GetCertificateIssuer : string -> string -> IssuerBundle * error)
    (c : Client) (issuerName : string)
  : exec (Issuer.t IssuerCredentials * error) :=
  let '(resp, err) := GetCertificateIssuer (vaultURL c) issuerName in
  match err with
  | Some e => Returns (Issuer.zero, Some e)
  | None =>
      let issuer :=
        Issuer.mk None None
          (issuerCredentialsFromGenerated (generated.IssuerBundle.Credentials resp))
          None (generated.IssuerBundle.ID resp) None None
          (generated.IssuerBundle.Provider resp) None in
      let issuer :=
        match generated.IssuerBundle.Attributes resp with
        | Some a => Issuer.set_attributes a issuer
        | None => issuer
        end in
      exec_bind
        (match generated.IssuerBundle.OrganizationDetails resp with
         | Some o =>
             let issuer :=
               Issuer.set_OrganizationID (generated.OrganizationDetails.ID o)
                 issuer in
             exec_bind (adminDetails_of o) (fun adminDetails =>
             Returns (Issuer.set_AdministratorContacts adminDetails issuer))
         | None => Returns issuer
         end)
        (fun issuer =>
           let '(_, _, name) := ParseID (generated.IssuerBundle.ID resp) in
           Returns (Issuer.set_Name name issuer, None))
  end.

(** [Client.UpdateIssuer]: the name of the issuer is read through its
    pointer while the arguments of the call are evaluated, before the update
    parameters are built. *)
Definition UpdateIssuer
    (UpdateCertificateIssuer :
       string -> string ->
       generated.CertificateIssuerUpdateParameters.t generated_IssuerCredentials ->
       IssuerBundle * error)
    (c : Client) (certificateIssuer : Issuer.t IssuerCredentials)
  : exec (Issuer.t IssuerCredentials * error) :=
  exec_bind (deref (Issuer.Name certificateIssuer)) (fun issuerName =>
  exec_bind (Issuer_toUpdateParameters (Some certificateIssuer)) (fun parameters =>
  let '(resp, err) :=
    UpdateCertificateIssuer (vaultURL c) issuerName parameters in
  match err with
  | Some e => Returns (Issuer.zero, Some e)
  | None =>
      let issuer :=
        Issuer.mk None None
          (issuerCredentialsFromGenerated (generated.IssuerBundle.Credentials resp))
          None (generated.IssuerBundle.ID resp) None None
          (generated.IssuerBundle.Provider resp) None in
      let issuer :=
        match generated.IssuerBundle.Attributes resp with
        | Some a => Issuer.set_attributes a issuer
        | None => issuer
        end in
      exec_bind
        (match generated.IssuerBundle.OrganizationDetails resp with
         | Some o =>
             let issuer :=
               Issuer.set_OrganizationID (generated.OrganizationDetails.ID o)
                 issuer in
             exec_bind (adminDetails_of o) (fun adminDetails =>
             Returns (Issuer.set_AdministratorContacts adminDetails issuer))
         | None => Returns issuer
         end)
        (fun issuer =>
           let '(_, _, name) := ParseID (generated.IssuerBundle.ID resp) in
           Returns (Issuer.set_Name name issuer, None))
  end)).

End Issuers.

End azcertificates.

(** ** github.com/Azure/go-autorest: responders

    The sync-members client builds its responders from the decorators of the
    autorest library. A responder inspects a response and may fill the value
    it decodes into and replace the body of the response; here it takes the
    response and that value and returns both with the error. Reading a body
    leaves its bytes in place in this model. *)

Module autorest.

(** [autorest.Response]: the raw HTTP response, nothing else. *)
Module Response.
Record t : Type := mk { Response : ptr http.Response.t }.
Definition zero : t := mk None.
End Response.

Definition Responder (V : Type) : Type :=
  http.Response.t -> V -> http.Response.t * V * error.
Definition RespondDecorator (V : Type) : Type := Responder V -> Responder V.

(** [CreateResponder]: decorators are applied in order around a responder
    that accepts everything, so the last one listed runs outermost. *)
Definition CreateResponder {V} (decorators : list (RespondDecorator V))
  : Responder V :=
  fold_left (fun r decorate => decorate r) decorators
    (fun resp v => (resp, v, None)).

(** [Respond]: a nil response is accepted without running any decorator. *)
Definition Respond {V} (r : ptr http.Response.t)
    (decorators : list (RespondDecorator V)) (v : V)
  : ptr http.Response.t * V * error :=
  match r with
  | None => (None, v, None)
  | Some resp =>
      let '(resp', v', err) := CreateResponder decorators resp v in
      (Some resp', v', err)
  end.

(** [ResponseHasStatusCode], on a non-nil response. *)
Definition ResponseHasStatusCode (resp : http.Response.t) (codes : list Z) : bool :=
  existsb (Z.eqb (http.Response.StatusCode resp)) codes.

(** [ByClosing]: runs the inner responder, then closes the body the response
    has by then; a failure to close replaces the error. *)
Definition ByClosing {V} : RespondDecorator V :=
  fun r resp v =>
    let '(resp', v', err) := r resp v in
    match http.Body.close_error (http.Response.Body resp') with
    | Some e => (resp', v', Some ("Error closing the response body: " +:+ e))
    | None => (resp', v', err)
    end.

(** The UTF-8 byte order mark. *)
Definition BOM : string :=
  String (ascii_of_nat 239) (String (ascii_of_nat 187) (String (ascii_of_nat 191) "")).

(** [bytes.TrimPrefix] *)
Definition TrimPrefix (s prefix : string) : string :=
  if String.prefix prefix s
  then String.substring (String.length prefix)
         (String.length s - String.length prefix) s
  else s.

Fixpoint TrimLeft_space (s : string) : string :=
  match s with
  | String " " rest => TrimLeft_space rest
  | _ => s
  end.

(** [strings.Trim(s, " ")] *)
Definition Trim_space (s : string) : string :=
  String.rev (TrimLeft_space (String.rev (TrimLeft_space s))).

(** [ByUnmarshallingJSON(v)]: when the inner responder accepts, reads the
    body, drops a byte order mark, and decodes into [v] unless only spaces
    are left. *)
Definition ByUnmarshallingJSON {V} (Unmarshal : string -> V -> V * error)
  : RespondDecorator V :=
  fun r resp v =>
    let '(resp', v', err) := r resp v in
    match err with
    | Some _ => (resp', v', err)
    | None =>
        let b := TrimPrefix (http.Body.bytes (http.Response.Body resp')) BOM in
        match http.Body.read_error (http.Response.Body resp') with
        | Some e =>
            (resp', v',
             Some ("Error occurred reading http.Response#Body - Error = " +:+ e))
        | None =>
            if (0 <? String.length (Trim_space b))%nat then
              let '(v'', errInner) := Unmarshal b v' in
              match errInner with
              | Some e =>
                  (resp', v'',
                   Some ("Error occurred unmarshalling JSON - Error = " +:+ e))
              | None => (resp', v'', None)
              end
            else (resp', v', None)
        end
    end.

End autorest.

Module azure.

(** The in-memory copy of a body that replaces it once it has been read to
    build an error: it reads and closes without error. *)
Definition copied_body (resp : http.Response.t) : http.Response.t :=
  http.Response.mk (http.Response.StatusCode resp) (http.Response.Header resp)
    (http.Body.mk (http.Body.bytes (http.Response.Body resp)) None None).

(** [azure.WithErrorUnlessStatusCode]: when the inner responder accepts and
    the status code is not among [codes], the body is read and replaced by
    its copy and the response is turned into an error (a request error
    built from the body, or the error of decoding that body: not nil either
    way). *)
Definition WithErrorUnlessStatusCode {V} (codes : list Z)
  : autorest.RespondDecorator V :=
  fun r resp v =>
    let '(resp', v', err) := r resp v in
    match err with
    | None =>
        if negb (autorest.ResponseHasStatusCode resp' codes)
        then (copied_body resp', v',
              Some "autorest/azure: Service returned an error")
        else (resp', v', None)
    | Some _ => (resp', v', err)
    end.

End azure.

(** ** services/preview/sql/mgmt/v4.0/sql/syncmembers.go *)

Module sql.

(** [SyncMember]: the embedded raw response and the decoded resource. *)
Module SyncMember.
Record t (SyncMemberProperties_t : Type) : Type := mk {
  Response : autorest.Response.t;
  SyncMemberProperties : ptr SyncMemberProperties_t;
  ID : ptr string;
  Name : ptr string;
  Type_ : ptr string
}.
Arguments mk {_} _ _ _ _ _.
Arguments Response {_} _.
Arguments SyncMemberProperties {_} _.
Arguments ID {_} _.
Arguments Name {_} _.
Arguments Type_ {_} _.

Definition zero {P} : t P := mk autorest.Response.zero None None None None.

(** [result.Response = ...] *)
Definition set_Response {P} (r : autorest.Response.t) (m : t P) : t P :=
  mk r (SyncMemberProperties m) (ID m) (Name m) (Type_ m).
End SyncMember.

(** [encoding/json] at type [SyncMember]: decoding bytes into a value gives
    the value as far as it was filled, and the error. *)
Class Json : Type := {
  SyncMemberProperties : Type;
  Unmarshal : string -> SyncMember.t SyncMemberProperties ->
              SyncMember.t SyncMemberProperties * error
}.

Section Responders.
Context `{Json}.

(** [SyncMembersClient.CreateOrUpdateResponder]; the response the result
    points to is the one passed in, as the responders left it. *)
Definition CreateOrUpdateResponder (resp : ptr http.Response.t)
  : SyncMember.t SyncMemberProperties * error :=
  let '(resp', result, err) :=
    autorest.Respond resp
      [azure.WithErrorUnlessStatusCode
         [http.StatusOK; http.StatusCreated; http.StatusAccepted];
       autorest.ByUnmarshallingJSON Unmarshal;
       autorest.ByClosing]
      SyncMember.zero in
  (SyncMember.set_Response (autorest.Response.mk resp') result, err).

(** [SyncMembersClient.DeleteResponder] *)
Definition DeleteResponder (resp : ptr http.Response.t)
  : autorest.Response.t * error :=
  let '(resp', _, err) :=
    autorest.Respond resp
      [azure.WithErrorUnlessStatusCode
         [http.StatusOK; http.StatusAccepted; http.StatusNoContent];
       autorest.ByClosing]
      tt in
  (autorest.Response.mk resp', err).

(** [SyncMembersClient.RefreshMemberSchemaResponder] *)
Definition RefreshMemberSchemaResponder (resp : ptr http.Response.t)
  : autorest.Response.t * error :=
  let '(resp', _, err) :=
    autorest.Respond resp
      [azure.WithErrorUnlessStatusCode [http.StatusOK; http.StatusAccepted];
       autorest.ByClosing]
      tt in
  (autorest.Response.mk resp', err).

(** The body of [resp] can be read and is either blank or decodes. *)
Definition body_decodes (resp : http.Response.t) : Prop :=
  let b := autorest.TrimPrefix
             (http.Body.bytes (http.Response.Body resp)) autorest.BOM in
  http.Body.read_error (http.Response.Body resp) = None
  /\ ((0 <? String.length (autorest.Trim_space b))%nat = false
      \/ snd (Unmarshal b SyncMember.zero) = None).

(** [SyncMembersClient.GetResponder] *)
Definition GetResponder (resp : ptr http.Response.t)
  : SyncMember.t SyncMemberProperties * error :=
  let '(resp', result, err) :=
    autorest.Respond resp
      [azure.WithErrorUnlessStatusCode [http.StatusOK];
       autorest.ByUnmarshallingJSON Unmarshal;
       autorest.ByClosing]
      SyncMember.zero in
  (SyncMember.set_Response (autorest.Response.mk resp') result, err).

(** [SyncMembersClient.UpdateResponder] *)
Definition UpdateResponder (resp : ptr http.Response.t)
  : SyncMember.t SyncMemberProperties * error :=
  let '(resp', result, err) :=
    autorest.Respond resp
      [azure.WithErrorUnlessStatusCode [http.StatusOK; http.StatusAccepted];
       autorest.ByUnmarshallingJSON Unmarshal;
       autorest.ByClosing]
      SyncMember.zero in
  (SyncMember.set_Response (autorest.Response.mk resp') result, err).
End Responders.

(** JSON white space. *)
Definition json_space (a : ascii) : bool :=
  match nat_of_ascii a with
  | 32 | 9 | 10 | 13 => true
  | _ => false
  end.

(** Whether the first byte after white space can begin a JSON value; the
    decoder of [encoding/json] reports a syntax error when it cannot. *)
Fixpoint json_begins_value (b : string) : bool :=
  match b with
  | EmptyString => false
  | String a rest =>
      if json_space a then json_begins_value rest
      else
        let n := nat_of_ascii a in
        (n =? 123)%nat || (n =? 91)%nat || (n =? 34)%nat || (n =? 45)%nat
        || ((48 <=? n)%nat && (n <=? 57)%nat)
        || (n =? 116)%nat || (n =? 102)%nat || (n =? 110)%nat
  end.

(** A decoder rejects what cannot begin a JSON value. *)
Definition rejects_non_json (J : Json) : Prop :=
  forall b v, json_begins_value b = false -> snd (Unmarshal b v) <> None.

End sql.

(** ** The polling engine

    The engine the [Begin...] calls hand their handlers to
    ([runtime.Poller] of sdk/azcore, and the [Future] of the older clients)
    is described by the specification of long-running operations; the
    definitions below follow that description. *)

Module lro.

(** Modelled from the spec: the status of an operation (data model), the
    engine's type being absent from the sources. *)
Inductive OperationStatus : Type :=
| NotStarted
| InProgress
| Succeeded
| Failed
| Canceled.

(** Modelled from the spec: the terminal statuses are Succeeded, Failed
    and Canceled (glossary). *)
Definition terminal (s : OperationStatus) : bool :=
  match s with
  | Succeeded | Failed | Canceled => true
  | NotStarted | InProgress => false
  end.

(** Modelled from the spec: the polling metadata (data model). *)
Record PollingMetadata : Type := mkMetadata {
  pollURL : string;
  method : string;
  status : OperationStatus;
  resourceLocation : option string;
  retryAfter : Z;
  backoff : Z
}.

(** Modelled from the spec: the errors [Poll] surfaces (error taxonomy). *)
Inductive PollError : Type :=
| TransportError (msg : string)
| ProtocolError (msg : string).

(** Requests executed on the transport so far. *)
Definition Net (A : Type) : Type := list http.Request.t -> A * list http.Request.t.

Definition net_ret {A} (a : A) : Net A := fun log => (a, log).

Definition net_bind {A B} (m : Net A) (k : A -> Net B) : Net B :=
  fun log => let '(a, log') := m log in k a log'.

(** Modelled from the spec: [Transport.Execute(request)] gives a response
    or fails; every executed request is recorded. *)
Definition Execute
    (transport : list http.Request.t -> http.Request.t -> http.Response.t + string)
    (req : http.Request.t) : Net (http.Response.t + string) :=
  fun log => (transport log req, log ++ [req]).

(** Modelled from the spec: the capability set of a handler (handler
    contract). [body_status] is the explicit status field of a response
    body, when the body has one that can be read; [payload] is the final
    result, when the response itself carries it. *)
Record Handler (T : Type) : Type := mkHandler {
  IssuePoll : PollingMetadata -> Net (http.Response.t + string);
  body_status : http.Response.t -> option OperationStatus;
  payload : http.Response.t -> option T;
  FetchFinalResult : Net (T + string)
}.
Arguments IssuePoll {T} _ _.
Arguments body_status {T} _ _.
Arguments payload {T} _ _.
Arguments FetchFinalResult {T} _.

(** Modelled from the spec: a poller owns a handler, the polling metadata,
    the cached terminal result and a done flag (data model). *)
Record Poller (T : Type) : Type := mkPoller {
  handler : Handler T;
  meta : PollingMetadata;
  cached : option T;
  done_flag : bool
}.
Arguments mkPoller {T} _ _ _ _.
Arguments handler {T} _.
Arguments meta {T} _.
Arguments cached {T} _.
Arguments done_flag {T} _.

(** Modelled from the spec: [Done()] is a pure read, true iff the status
    is Succeeded, Failed or Canceled. *)
Definition Done {T} (p : Poller T) : bool := terminal (status (meta p)).

Section Engine.
(** The seconds of a [Retry-After] header, and the cap of the computed
    delay. *)
Variable parse_seconds : string -> option Z.
Variable max_backoff : Z.

(** Modelled from the spec: the status a response stands for (status
    extraction): the status field of the body takes precedence;
    otherwise 200, 201, 204 mean Succeeded and 202 means InProgress. *)
Definition status_of {T} (h : Handler T) (resp : http.Response.t)
  : option OperationStatus :=
  match body_status h resp with
  | Some s => Some s
  | None =>
      let code := http.Response.StatusCode resp in
      if (code =? 200)%Z || (code =? 201)%Z || (code =? 204)%Z
      then Some Succeeded
      else if (code =? 202)%Z then Some InProgress
      else None
  end.

(** Modelled from the spec: the metadata after a poll response (status
    extraction): while in progress the next poll URL is the [Location]
    header if present, else the URL polled; the delay is the
    [Retry-After] header, which resets the computed backoff, or else the
    computed backoff, which starts at 1 and doubles up to the cap. *)
Definition next_metadata (m : PollingMetadata) (resp : http.Response.t)
    (s : OperationStatus) : PollingMetadata :=
  match s with
  | InProgress =>
      let url :=
        match http.Response.Header resp !! "Location" with
        | Some (v :: _) => v
        | _ => pollURL m
        end in
      match http.Response.Header resp !! "Retry-After" with
      | Some (v :: _) =>
          match parse_seconds v with
          | Some seconds =>
              mkMetadata url (method m) s (resourceLocation m) seconds 1
          | None =>
              mkMetadata url (method m) s (resourceLocation m)
                (backoff m) (Z.min max_backoff (2 * backoff m))
          end
      | _ =>
          mkMetadata url (method m) s (resourceLocation m)
            (backoff m) (Z.min max_backoff (2 * backoff m))
      end
  | _ =>
      mkMetadata (pollURL m) (method m) s (resourceLocation m)
        (retryAfter m) (backoff m)
  end.

(** Modelled from the spec: [Poll] (poller engine). A no-op once done;
    otherwise the handler issues the next request; a transport failure,
    a 4xx or 5xx answer and a response without a status surface as
    errors and leave the poller as it was; else the metadata is updated
    and, when the status is terminal and the response does not carry
    the final payload, the final result is fetched eagerly. *)
Definition Poll {T} (p : Poller T) : Net (Poller T * option PollError) :=
  if Done p then net_ret (p, None)
  else
    net_bind (IssuePoll (handler p) (meta p)) (fun r =>
    match r with
    | inr e => net_ret (p, Some (TransportError e))
    | inl resp =>
        if (400 <=? http.Response.StatusCode resp)%Z
        then net_ret (p, Some (ProtocolError "unexpected status code"))
        else
          match status_of (handler p) resp with
          | None => net_ret (p, Some (ProtocolError "no status in response"))
          | Some s =>
              let m := next_metadata (meta p) resp s in
              if terminal s then
                match payload (handler p) resp with
                | Some t => net_ret (mkPoller (handler p) m (Some t) true, None)
                | None =>
                    net_bind (FetchFinalResult (handler p)) (fun f =>
                    match f with
                    | inl t =>
                        net_ret (mkPoller (handler p) m (Some t) true, None)
                    | inr e =>
                        net_ret (mkPoller (handler p) m (cached p) true,
                                 Some (TransportError e))
                    end)
                end
              else net_ret (mkPoller (handler p) m (cached p) false, None)
          end
    end).

(** [n] calls of [Poll] in a row, whatever each one reports. *)
Fixpoint Poll_times {T} (n : nat) (p : Poller T) : Net (Poller T) :=
  match n with
  | O => net_ret p
  | S k => net_bind (Poll p) (fun r => Poll_times k (fst r))
  end.

(** Modelled from the spec: the poller the engine builds from the
    response of the initiating call (system overview, status
    extraction), the constructor being absent from the sources. Its
    status is the one the response stands for, the status field of the
    body taking precedence over the status code; while in progress the
    metadata is that of a first in-progress response, which polls the
    [Location] header if present, else the original URL; a terminal
    status caches the result the response itself carries; nothing is
    requested. A response that stands for no status is a protocol
    error. [url] is the original URL and [method] the HTTP method to
    use for the polls. *)
Definition NewPoller {T} (h : Handler T) (url method : string)
    (resp : http.Response.t) : Poller T + PollError :=
  match status_of h resp with
  | None => inr (ProtocolError "no status in response")
  | Some s =>
      let m := next_metadata (mkMetadata url method s None 0 1) resp s in
      inl (mkPoller h m (if terminal s then payload h resp else None)
             (terminal s))
  end.

(** Modelled from the spec: a future is the poller whose result is the
    raw response: every response carries it, and nothing is fetched at
    the end (single-result variant). *)
Definition Future : Type := Poller http.Response.t.

Definition future_handler
    (issue : PollingMetadata -> Net (http.Response.t + string))
    (body : http.Response.t -> option OperationStatus)
  : Handler http.Response.t :=
  mkHandler http.Response.t issue body (fun resp => Some resp)
    (net_ret (inr "a future fetches no final result")).
End Engine.

End lro.

(** ** Sample values

    Concrete keys, responses and a small stand-in for the service, used to
    run the definitions above on explicit inputs. *)

Module samples.

Definition attributes_with_level : azkeys.generated.KeyAttributes.t :=
  azkeys.generated.KeyAttributes.mk
    None (Some true) None None None (Some 90%Z) (Some "Recoverable+Purgeable") None.

Definition signing_key : azkeys.JSONWebKey.t :=
  azkeys.JSONWebKey.mk
    (Some "P-256") None None None None None
    (Some [Some "sign"; None; Some "verify"]) (Some "key-1") (Some "EC")
    None None None None None (Some [Byte.x01; Byte.x02]) (Some []).

Definition empty_body : http.Body.t := http.Body.mk "" None None.

Definition operation_url : string :=
  "https://vault.example/certificates/cert1/pending".

(** 202 Accepted with a [Location] header. *)
Definition accepted : http.Response.t :=
  http.Response.mk http.StatusAccepted
    {[ "Location" := [operation_url] ]} empty_body.


(** 200 OK without any header. *)
Definition ok_without_location : http.Response.t :=
  http.Response.mk http.StatusOK ∅ empty_body.

Definition models : azcertificates.Models := {|
  azcertificates.Policy := string;
  azcertificates.Properties := string;
  azcertificates.Certificate := string;
  azcertificates.DeletedCertificate := string;
  azcertificates.generated_CertificatePolicy := string;
  azcertificates.toGeneratedCertificateCreateParameters := fun p => p;
  azcertificates.certificatePolicyFromGenerated := fun p => p;
  azcertificates.propertiesFromGenerated := fun _ _ id _ => id
|}.

Definition certificate_bundle
  : @azcertificates.KeyVaultClientGetCertificateResponse models :=
  azcertificates.generated.KeyVaultClientGetCertificateResponse.mk string
    None (Some [Byte.x30]) (Some "application/x-pkcs12")
    (Some "https://vault.example/certificates/cert1/1") None (Some "policy")
    None None None.

Definition name_required : go_error := "parameter certificateName cannot be empty".

(** A service that answers [CreateCertificate] with the raw response
    [created] and an operation in state [status], knows one certificate,
    and answers every pipeline request with 200. *)
Definition service (created : http.Response.t) (status : ptr string)
  : @azcertificates.Service models := {|
  azcertificates.CreateCertificate_reply := fun _ _ _ _ =>
    azcertificates.Reply.mk
      (azcertificates.generated.KeyVaultClientCreateCertificateResponse.mk status)
      None (Some created);
  azcertificates.DeleteCertificate_reply := fun _ _ _ =>
    azcertificates.Reply.mk tt None (Some ok_without_location);
  azcertificates.RecoverDeletedCertificate_reply := fun _ _ _ =>
    azcertificates.Reply.mk tt None (Some ok_without_location);
  azcertificates.GetCertificate_reply := fun _ _ name _ =>
    (certificate_bundle,
     if String.eqb name "cert1" then None else Some "CertificateNotFound");
  azcertificates.Do_reply := fun _ _ => (Some ok_without_location, None);
  azcertificates.NewRequest_error := fun _ endpoint =>
    if String.eqb endpoint "" then Some "no Host in request URL" else None;
  azcertificates.GetDeletedCertificateCreateRequest := fun vault name =>
    if String.eqb name "" then inr name_required
    else inl (http.Request.mk http.MethodGet
                (vault +:+ "/deletedcertificates/" +:+ name));
  azcertificates.GetCertificateCreateRequest := fun vault name version =>
    if String.eqb name "" then inr name_required
    else inl (http.Request.mk http.MethodGet
                (vault +:+ "/certificates/" +:+ name +:+ "/" +:+ version))
|}.

(** A poller that only remembers how it was built. *)
Definition runtime (H T : Type) : azcertificates.Runtime H T := {|
  azcertificates.Poller := option string * ptr http.Response.t * H;
  azcertificates.NewPoller := fun resp handler =>
    (Some (None, resp, handler), None);
  azcertificates.NewPollerFromResumeToken := fun token handler =>
    (Some (Some token, None, handler), None)
|}.

Definition client : azcertificates.Client :=
  azcertificates.mkClient "https://vault.example".

(** A decoder that checks only how the document begins, and records the
    bytes it accepted as the resource identifier. *)
Definition json : sql.Json := {|
  sql.SyncMemberProperties := string;
  sql.Unmarshal := fun b v =>
    if sql.json_begins_value b
    then (sql.SyncMember.mk (sql.SyncMember.Response v) None (Some b) None None,
          None)
    else (v, Some "invalid character looking for beginning of value")
|}.

Definition response (status : Z) (body : string) : http.Response.t :=
  http.Response.mk status ∅ (http.Body.mk body None None).

(** 200 OK with an HTML page for a body. *)
Definition ok_html : http.Response.t := response http.StatusOK "<html></html>".

(** 200 OK with a JSON document. *)
Definition ok_json : http.Response.t := response http.StatusOK "{}".

(** A transport on which the operation is still running at the first
    request and has succeeded from the second on. *)
Definition transport (log : list http.Request.t) (req : http.Request.t)
  : http.Response.t + string :=
  match log with
  | [] => inl accepted
  | _ => inl ok_json
  end.

Definition operation_handler : lro.Handler http.Response.t :=
  lro.future_handler
    (fun m => lro.Execute transport
                (http.Request.mk (lro.method m) (lro.pollURL m)))
    (fun _ => None).

Definition metadata (s : lro.OperationStatus) : lro.PollingMetadata :=
  lro.mkMetadata operation_url "GET" s None 0 1.

(** A future that has already succeeded, and one still in progress. *)
Definition finished_future : lro.Future :=
  lro.mkPoller operation_handler (metadata lro.Succeeded) (Some ok_json) true.

Definition running_future : lro.Future :=
  lro.mkPoller operation_handler (metadata lro.InProgress) None false.

(** A rotation policy with a rotate action, a nil action and no attributes. *)
Definition rotation_policy : azkeys.RotationPolicy.t :=
  azkeys.RotationPolicy.mk None
    (Some [Some (azkeys.LifetimeActions.mk
                   (Some (azkeys.LifetimeActionsType.mk (Some "Rotate")))
                   (Some (azkeys.LifetimeActionsTrigger.mk (Some "P90D") None)));
           None])
    (Some "https://vault.example/keys/key-1/rotationpolicy").

(** A parser of identifiers that knows one identifier. *)
Definition ParseID (id : ptr string) : ptr string * ptr string * ptr string :=
  match id with
  | Some "https://vault.example/certificates/issuers/issuer1" =>
      (Some "https://vault.example", Some "issuers", Some "issuer1")
  | _ => (None, None, None)
  end.

(** A service that refuses every initiating request. *)
Definition refusing_service : @azcertificates.Service models := {|
  azcertificates.CreateCertificate_reply := fun _ _ _ _ =>
    azcertificates.Reply.mk
      azcertificates.generated.KeyVaultClientCreateCertificateResponse.zero
      (Some "Forbidden") None;
  azcertificates.DeleteCertificate_reply := fun _ _ _ =>
    azcertificates.Reply.mk tt (Some "Forbidden") None;
  azcertificates.RecoverDeletedCertificate_reply := fun _ _ _ =>
    azcertificates.Reply.mk tt (Some "Forbidden") None;
  azcertificates.GetCertificate_reply := fun _ _ _ _ =>
    (certificate_bundle, Some "Forbidden");
  azcertificates.Do_reply := fun _ _ => (None, Some "Forbidden");
  azcertificates.NewRequest_error := fun _ endpoint =>
    if String.eqb endpoint "" then Some "no Host in request URL" else None;
  azcertificates.GetDeletedCertificateCreateRequest := fun vault name =>
    if String.eqb name "" then inr name_required
    else inl (http.Request.mk http.MethodGet
                (vault +:+ "/deletedcertificates/" +:+ name));
  azcertificates.GetCertificateCreateRequest := fun vault name version =>
    if String.eqb name "" then inr name_required
    else inl (http.Request.mk http.MethodGet
                (vault +:+ "/certificates/" +:+ name +:+ "/" +:+ version))
|}.

(** A page of two certificates, and a page of two deleted ones. *)
Definition certificates_page
  : azcertificates.generated.KeyVaultClientGetCertificatesResponse.t :=
  azcertificates.generated.KeyVaultClientGetCertificatesResponse.mk
    (Some [Some (azcertificates.generated.CertificateItem.mk
                   None (Some "https://vault.example/certificates/a") None None);
           Some (azcertificates.generated.CertificateItem.mk
                   None (Some "https://vault.example/certificates/b") None None)])
    (Some "https://vault.example/certificates?skiptoken=2").

Definition deleted_certificates_page
  : azcertificates.generated.KeyVaultClientGetDeletedCertificatesResponse.t :=
  azcertificates.generated.KeyVaultClientGetDeletedCertificatesResponse.mk
    (Some [Some (azcertificates.generated.DeletedCertificateItem.mk
                   None (Some "https://vault.example/deletedcertificates/a")
                   None None None None None);
           Some (azcertificates.generated.DeletedCertificateItem.mk
                   None (Some "https://vault.example/deletedcertificates/b")
                   None None None None None)])
    None.

Definition contact : azcertificates.AdministratorContact.t :=
  azcertificates.AdministratorContact.mk
    (Some "admin@example.com") (Some "Ada") None None.

(** Options of [CreateIssuer] with one contact and an organization. *)
Definition issuer_options : azcertificates.CreateIssuerOptions.t string :=
  azcertificates.CreateIssuerOptions.mk
    (Some true) None (Some [Some contact]) (Some "org-1").

(** A service that creates the issuer it is asked for and echoes what it
    was sent. *)
Definition SetCertificateIssuer (vault name : string)
    (parameters : azcertificates.generated.CertificateIssuerSetParameters.t string)
  : azcertificates.generated.IssuerBundle.t string * error :=
  (azcertificates.generated.IssuerBundle.mk
     (azcertificates.generated.CertificateIssuerSetParameters.Attributes parameters)
     (azcertificates.generated.CertificateIssuerSetParameters.Credentials parameters)
     (Some (vault +:+ "/certificates/issuers/" +:+ name))
     (azcertificates.generated.CertificateIssuerSetParameters.OrganizationDetails
        parameters)
     (azcertificates.generated.CertificateIssuerSetParameters.Provider parameters),
   None).

(** An issuer to update, with two contacts and no organization. *)
Definition issuer : azcertificates.Issuer.t string :=
  azcertificates.Issuer.mk (Some [Some contact; Some contact]) None None
    (Some false) None (Some "issuer1") None (Some "Test") None.

(** What [CreateIssuer] sends for [issuer_options], and a service that
    answers [GetIssuer] with the bundle created from it. *)
Definition issuer_parameters
  : azcertificates.generated.CertificateIssuerSetParameters.t string :=
  azcertificates.generated.CertificateIssuerSetParameters.mk
    (Some "Test")
    (Some (azcertificates.generated.IssuerAttributes.mk None (Some true) None))
    None
    (Some (azcertificates.generated.OrganizationDetails.mk
             (Some [Some (azcertificates.generated.AdministratorDetails.mk
                            (Some "admin@example.com") (Some "Ada") None None)])
             (Some "org-1"))).

Definition GetCertificateIssuer (vault name : string)
  : azcertificates.generated.IssuerBundle.t string * error :=
  SetCertificateIssuer vault name issuer_parameters.






(** What [GetCertificate] makes of the certificate the sample service
    knows. *)
Definition certificate_with_policy
  : azcertificates.CertificateWithPolicy.t string string :=
  azcertificates.CertificateWithPolicy.mk
    (Some "https://vault.example/certificates/cert1/1")
    (Some [Byte.x30]) (Some "application/x-pkcs12")
    (Some "https://vault.example/certificates/cert1/1") None None
    (Some "policy").

End samples.

(** * Properties *)

(** ** The copy loop *)

Section RangeAssign.
Context {A B : Type} (f : A -> B) (z : B).

Lemma range_assign_app (src : list A) :
  forall (done : list B),
    range_assign f (List.length done) src (done ++ make z (List.length src))
    = done ++ map f src.
Proof.
  induction src as [|op rest IH]; intros done; simpl.
  - reflexivity.
  - replace (<[List.length done:=f op]> (done ++ z :: make z (List.length rest)))
      with ((done ++ [f op]) ++ make z (List.length rest)).
    + replace (S (List.length done)) with (List.length (done ++ [f op]))
        by (rewrite length_app; simpl; lia).
      rewrite IH, <- app_assoc. reflexivity.
    + rewrite <- app_assoc. simpl.
      rewrite insert_app_r_alt by lia.
      replace (List.length done - length done)%nat with 0%nat by lia.
      reflexivity.
Qed.

Lemma range_assign_make (src : list A) :
  range_assign f 0 src (make z (List.length src)) = map f src.
Proof. exact (range_assign_app src []). Qed.
End RangeAssign.

Lemma map_cast_ptr {A} (l : list (ptr A)) : map (@azkeys.cast_ptr A) l = l.
Proof. induction l as [|x l IH]; simpl; [reflexivity | now rewrite IH]. Qed.

Lemma copied_ops {A} (s : slice (ptr A)) :
  range_assign (@azkeys.cast_ptr A) 0 (elems s) (make None (len s)) = elems s.
Proof.
  destruct s as [l|]; simpl.
  - rewrite range_assign_make. apply map_cast_ptr.
  - reflexivity.
Qed.

(** ** azkeys: conversions of key models *)

(** C9. [keyPropertiesFromGenerated] returns (a non-nil pointer) whenever its
    attributes argument is nil or carries a non-nil [RecoveryLevel]; for nil
    attributes the result is the empty [Properties]; for non-nil attributes
    the recovery level is read unconditionally, so the call panics with a nil
    dereference exactly when [RecoveryLevel] is nil, and such an argument
    exists. *)
Theorem keyPropertiesFromGenerated_total_on_precondition
    (i : ptr azkeys.generated.KeyAttributes.t)
    (id name version : ptr string) (managed : ptr bool) (vaultURL : ptr string)
    (tags : strmap (ptr string)) (releasePolicy : ptr azkeys.generated.KeyReleasePolicy.t) :
  let run := azkeys.keyPropertiesFromGenerated
               i id name version managed vaultURL tags releasePolicy in
  (azkeys.attributes_convertible i -> exists p, run = Returns (Some p))
  /\ (i = None -> run = Returns (Some azkeys.Properties.zero))
  /\ (forall a level,
        i = Some a -> azkeys.generated.KeyAttributes.RecoveryLevel a = Some level ->
        exists p, run = Returns (Some p)
                  /\ azkeys.Properties.RecoveryLevel p = Some level)
  /\ (forall a,
        i = Some a -> azkeys.generated.KeyAttributes.RecoveryLevel a = None ->
        run = Panics nil_dereference)
  /\ (exists a,
        azkeys.generated.KeyAttributes.RecoveryLevel a = None
        /\ azkeys.keyPropertiesFromGenerated
             (Some a) id name version managed vaultURL tags releasePolicy
           = Panics nil_dereference).
Proof.
  cbv zeta. repeat split.
  - intros [-> | (a & level & -> & Hlevel)]; simpl.
    + eexists; reflexivity.
    + rewrite Hlevel; simpl. eexists; reflexivity.
  - intros ->. reflexivity.
  - intros a level -> Hlevel. simpl. rewrite Hlevel. simpl.
    eexists; split; reflexivity.
  - intros a -> Hlevel. simpl. rewrite Hlevel. reflexivity.
  - exists (azkeys.generated.KeyAttributes.mk None None None None None None None None).
    split; reflexivity.
Qed.

Lemma keyPropertiesFromGenerated_total_on_precondition_witness :
  azkeys.attributes_convertible (Some samples.attributes_with_level)
  /\ exists p,
       azkeys.keyPropertiesFromGenerated
         (Some samples.attributes_with_level) None None None None None None None
       = Returns (Some p).
Proof.
  assert (H : azkeys.attributes_convertible (Some samples.attributes_with_level)).
  { right. exists samples.attributes_with_level, "Recoverable+Purgeable".
    split; reflexivity. }
  split; [exact H |].
  exact (proj1 (keyPropertiesFromGenerated_total_on_precondition
                  (Some samples.attributes_with_level) None None None None None None None) H).
Defined.

(** C10, as stated, fails on the zero key: its nil [KeyOps] comes back as an
    empty slice that is not nil, because both conversions build the slice
    with [make]. *)
Lemma jsonWebKey_roundtrip_loses_nil_KeyOps :
  azkeys.jsonWebKeyFromGenerated (azkeys.toGenerated azkeys.JSONWebKey.zero)
  <> Some azkeys.JSONWebKey.zero.
Proof. vm_compute. discriminate. Qed.

(** C10, amended. Converting a key to the generated model and back gives a
    non-nil key that agrees with the original in every field except that
    [KeyOps] is always a non-nil slice holding the original elements in
    order; hence the round trip is the identity exactly on keys whose
    [KeyOps] is not nil. *)
Theorem jsonWebKey_roundtrip (j : azkeys.JSONWebKey.t) :
  azkeys.jsonWebKeyFromGenerated (azkeys.toGenerated j)
  = Some (azkeys.with_KeyOps (Some (elems (azkeys.JSONWebKey.KeyOps j))) j)
  /\ (azkeys.JSONWebKey.KeyOps j <> None ->
      azkeys.jsonWebKeyFromGenerated (azkeys.toGenerated j) = Some j)
  /\ (azkeys.JSONWebKey.KeyOps j = None ->
      azkeys.jsonWebKeyFromGenerated (azkeys.toGenerated j) <> Some j).
Proof.
  assert (E : azkeys.jsonWebKeyFromGenerated (azkeys.toGenerated j)
              = Some (azkeys.with_KeyOps
                        (Some (elems (azkeys.JSONWebKey.KeyOps j))) j)).
  { destruct j as [? ? ? ? ? ? ops ? ? ? ? ? ? ? ? ?].
    unfold azkeys.jsonWebKeyFromGenerated, azkeys.toGenerated,
      azkeys.with_KeyOps, azkeys.Operation; simpl.
    do 3 f_equal.
    exact (eq_trans
             (f_equal (fun m => range_assign azkeys.cast_ptr 0 m
                                  (make None (List.length m)))
                      (copied_ops ops))
             (copied_ops (Some (elems ops)))). }
  rewrite E. split; [reflexivity | split].
  - destruct j as [? ? ? ? ? ? ops ? ? ? ? ? ? ? ? ?]; simpl.
    destruct ops; [reflexivity | congruence].
  - destruct j as [? ? ? ? ? ? ops ? ? ? ? ? ? ? ? ?]; simpl.
    intros ->. simpl. discriminate.
Qed.

Lemma jsonWebKey_roundtrip_witness :
  azkeys.JSONWebKey.KeyOps samples.signing_key <> None
  /\ azkeys.jsonWebKeyFromGenerated (azkeys.toGenerated samples.signing_key)
     = Some samples.signing_key.
Proof.
  assert (H : azkeys.JSONWebKey.KeyOps samples.signing_key <> None)
    by (simpl; discriminate).
  split; [exact H |].
  exact (proj1 (proj2 (jsonWebKey_roundtrip samples.signing_key)) H).
Defined.

(** ** azcertificates: starting and resuming certificate operations *)

Section CertificateClient.
Import azcertificates.
Context `{Mo : Models} `{Sv : !Service}.
Context `{Rc : !Runtime beginCreateCertificateOperation CreateCertificateResponse}.
Context `{Rd : !Runtime beginDeleteCertificateOperation DeleteCertificateResponse}.
Context `{Rr : !Runtime beginRecoverDeletedCertificate RecoverDeletedCertificateResponse}.

Lemma eqb_empty_false (s : string) : s <> "" -> String.eqb s "" = false.
Proof. intros Hs. now apply String.eqb_neq. Qed.

Lemma sent_append {A} (m : M A) (log : Log) (r : exec A) (calls : list Call) :
  m log = (r, log ++ calls) -> sent m log = calls.
Proof.
  intros E. unfold sent. rewrite E. simpl.
  now rewrite drop_app_length.
Qed.

Lemma sent_nothing {A} (m : M A) (log : Log) (r : exec A) :
  m log = (r, log) -> sent m log = [].
Proof.
  intros E. apply (sent_append m log r []). now rewrite app_nil_r.
Qed.

(** A run of [BeginCreateCertificate] that does not resume, on a service
    that accepts the request and lets the raw response be captured. *)
Lemma BeginCreateCertificate_fresh
    (c : Client) (certificateName : string) (policy : Policy)
    (options : ptr BeginCreateCertificateOptions.t) (log : Log)
    (rawResp : http.Response.t) :
  let opts := default BeginCreateCertificateOptions.zero options in
  let call := CallCreateCertificate (vaultURL c) certificateName
                (BeginCreateCertificate_parameters policy opts) in
  let reply := CreateCertificate_reply log (vaultURL c) certificateName
                 (BeginCreateCertificate_parameters policy opts) in
  let location := http.Header_Get (http.Response.Header rawResp) "Location" in
  BeginCreateCertificateOptions.ResumeToken opts = "" ->
  Reply.err reply = None ->
  Reply.captured reply = Some rawResp ->
  BeginCreateCertificate c certificateName policy options log
  = (if String.eqb location "" then
       Returns (None, errors_New "missing Location header")
     else
       match generated.KeyVaultClientCreateCertificateResponse.Status
               (Reply.value reply) with
       | None => Panics nil_dereference
       | Some status =>
           Returns (NewPoller (Some rawResp)
                      (set_Status status
                         (set_PollURL location
                            (BeginCreateCertificate_handler c certificateName))))
       end,
     log ++ [call]).
Proof.
  intros opts call reply location Htoken Herr Hraw.
  unfold BeginCreateCertificate. fold opts. rewrite Htoken. simpl.
  unfold bind, genClient_CreateCertificate, send. fold reply.
  rewrite Herr, Hraw. simpl. fold location.
  destruct (String.eqb location ""); [reflexivity |].
  destruct (generated.KeyVaultClientCreateCertificateResponse.Status
              (Reply.value reply)); reflexivity.
Qed.

(** C1. A [Begin...] call whose options carry a non-empty [ResumeToken]
    returns what [runtime.NewPollerFromResumeToken] builds from the token
    and the handler of its kind, and sends nothing: the log is unchanged,
    so neither the initiating request nor any other call leaves the
    process. *)
Theorem Begin_with_ResumeToken_resumes
    (c : Client) (certificateName : string) (policy : Policy)
    (enabled : ptr bool) (tags : strmap (ptr string))
    (token : string) (log : Log) :
  token <> "" ->
  let create :=
    BeginCreateCertificate c certificateName policy
      (Some (BeginCreateCertificateOptions.mk enabled tags token)) in
  let delete :=
    BeginDeleteCertificate c certificateName
      (Some (BeginDeleteCertificateOptions.mk token)) in
  let recover :=
    BeginRecoverDeletedCertificate c certificateName
      (Some (BeginRecoverDeletedCertificateOptions.mk token)) in
  (create log
   = (Returns (NewPollerFromResumeToken token
                 (BeginCreateCertificate_handler c certificateName)), log)
   /\ sent create log = [])
  /\ (delete log
      = (Returns (NewPollerFromResumeToken token
                    (BeginDeleteCertificate_handler c certificateName)), log)
      /\ sent delete log = [])
  /\ (recover log
      = (Returns (NewPollerFromResumeToken token
                    (BeginRecoverDeletedCertificate_handler c certificateName)), log)
      /\ sent recover log = []).
Proof.
  intros Htoken create delete recover.
  assert (Ec : create log
               = (Returns (NewPollerFromResumeToken token
                    (BeginCreateCertificate_handler c certificateName)), log)).
  { unfold create, BeginCreateCertificate; simpl.
    now rewrite (eqb_empty_false token Htoken). }
  assert (Ed : delete log
               = (Returns (NewPollerFromResumeToken token
                    (BeginDeleteCertificate_handler c certificateName)), log)).
  { unfold delete, BeginDeleteCertificate; simpl.
    now rewrite (eqb_empty_false token Htoken). }
  assert (Er : recover log
               = (Returns (NewPollerFromResumeToken token
                    (BeginRecoverDeletedCertificate_handler c certificateName)), log)).
  { unfold recover, BeginRecoverDeletedCertificate; simpl.
    now rewrite (eqb_empty_false token Htoken). }
  repeat split; try assumption; eapply sent_nothing; eassumption.
Qed.

(** Past the [Location] guard the call reads the status of the operation
    through a pointer: an answer without a status makes it panic. *)
Lemma BeginCreateCertificate_nil_Status
    (c : Client) (certificateName : string) (policy : Policy)
    (options : ptr BeginCreateCertificateOptions.t) (log : Log)
    (rawResp : http.Response.t) :
  let opts := default BeginCreateCertificateOptions.zero options in
  let reply := CreateCertificate_reply log (vaultURL c) certificateName
                 (BeginCreateCertificate_parameters policy opts) in
  BeginCreateCertificateOptions.ResumeToken opts = "" ->
  Reply.err reply = None ->
  Reply.captured reply = Some rawResp ->
  http.Header_Get (http.Response.Header rawResp) "Location" <> "" ->
  generated.KeyVaultClientCreateCertificateResponse.Status (Reply.value reply)
  = None ->
  fst (BeginCreateCertificate c certificateName policy options log)
  = Panics nil_dereference.
Proof.
  intros opts reply Htoken Herr Hraw Hloc Hstatus.
  rewrite (BeginCreateCertificate_fresh c certificateName policy options
             log rawResp Htoken Herr Hraw).
  fold opts reply. simpl.
  now rewrite (eqb_empty_false _ Hloc), Hstatus.
Qed.

(** C3. When [BeginCreateCertificate] does not resume and the initiating
    [CreateCertificate] request succeeds, the handler given to the poller
    has its [PollURL] set to the [Location] header of the captured raw
    response; when that header is absent (or empty) the call returns the
    error "missing Location header" and no poller. *)
Theorem BeginCreateCertificate_PollURL_is_Location
    (c : Client) (certificateName : string) (policy : Policy)
    (options : ptr BeginCreateCertificateOptions.t) (log : Log)
    (rawResp : http.Response.t) :
  let opts := default BeginCreateCertificateOptions.zero options in
  let parameters := BeginCreateCertificate_parameters policy opts in
  let reply := CreateCertificate_reply log (vaultURL c) certificateName parameters in
  let location := http.Header_Get (http.Response.Header rawResp) "Location" in
  let run := BeginCreateCertificate c certificateName policy options log in
  BeginCreateCertificateOptions.ResumeToken opts = "" ->
  Reply.err reply = None ->
  Reply.captured reply = Some rawResp ->
  (forall status,
      location <> "" ->
      generated.KeyVaultClientCreateCertificateResponse.Status (Reply.value reply)
      = Some status ->
      exists handler,
        fst run = Returns (NewPoller (Some rawResp) handler)
        /\ PollURL handler = location
        /\ Status handler = status)
  /\ (http.Response.Header rawResp !! "Location" = None ->
      fst run = Returns (None, errors_New "missing Location header"))
  /\ (location = "" ->
      fst run = Returns (None, errors_New "missing Location header")).
Proof.
  intros opts parameters reply location run Htoken Herr Hraw.
  pose proof (BeginCreateCertificate_fresh c certificateName policy options
                log rawResp Htoken Herr Hraw) as E.
  fold opts parameters reply location run in E. rewrite E. simpl.
  split; [| split].
  - intros status Hloc Hstatus.
    rewrite (eqb_empty_false location Hloc), Hstatus.
    eexists; split; [reflexivity | split; reflexivity].
  - intros Habsent.
    assert (Hloc : location = "")
      by (unfold location, http.Header_Get; now rewrite Habsent).
    now rewrite Hloc.
  - intros Hloc. now rewrite Hloc.
Qed.

Lemma BeginDeleteCertificate_fresh
    (c : Client) (certificateName : string)
    (options : ptr BeginDeleteCertificateOptions.t) (log : Log) :
  let reply := DeleteCertificate_reply log (vaultURL c) certificateName in
  BeginDeleteCertificateOptions.ResumeToken
    (default BeginDeleteCertificateOptions.zero options) = "" ->
  Reply.err reply = None ->
  BeginDeleteCertificate c certificateName options log
  = (Returns (NewPoller (Reply.captured reply)
                (BeginDeleteCertificate_handler c certificateName)),
     log ++ [CallDeleteCertificate (vaultURL c) certificateName]).
Proof.
  intros reply Htoken Herr.
  unfold BeginDeleteCertificate. rewrite Htoken. simpl.
  unfold bind, genClient_DeleteCertificate, send. fold reply.
  now rewrite Herr.
Qed.

Lemma BeginRecoverDeletedCertificate_fresh
    (c : Client) (certificateName : string)
    (options : ptr BeginRecoverDeletedCertificateOptions.t) (log : Log) :
  let reply := RecoverDeletedCertificate_reply log (vaultURL c) certificateName in
  BeginRecoverDeletedCertificateOptions.ResumeToken
    (default BeginRecoverDeletedCertificateOptions.zero options) = "" ->
  Reply.err reply = None ->
  BeginRecoverDeletedCertificate c certificateName options log
  = (Returns (NewPoller (Reply.captured reply)
                (BeginRecoverDeletedCertificate_handler c certificateName)),
     log ++ [CallRecoverDeletedCertificate (vaultURL c) certificateName]).
Proof.
  intros reply Htoken Herr.
  unfold BeginRecoverDeletedCertificate. rewrite Htoken. simpl.
  unfold bind, genClient_RecoverDeletedCertificate, send. fold reply.
  now rewrite Herr.
Qed.

(** C5. Each handler polls the target of its kind. The create handler
    handed to the poller carries the [Location] header of the initiating
    response as its [PollURL], and its [poll] closure sends a GET to the
    endpoint it is given, so to that URL; the delete handler sends the
    request [GetDeletedCertificateCreateRequest] builds for the vault and
    the certificate name; the recover handler sends the request
    [GetCertificateCreateRequest] builds for the vault, the certificate
    name and no version. *)
Theorem handlers_poll_target_of_their_kind
    (c : Client) (certificateName : string) (policy : Policy)
    (createOptions : ptr BeginCreateCertificateOptions.t)
    (deleteOptions : ptr BeginDeleteCertificateOptions.t)
    (recoverOptions : ptr BeginRecoverDeletedCertificateOptions.t)
    (log : Log) (rawResp : http.Response.t) :
  let opts := default BeginCreateCertificateOptions.zero createOptions in
  let createReply :=
    CreateCertificate_reply log (vaultURL c) certificateName
      (BeginCreateCertificate_parameters policy opts) in
  let deleteReply := DeleteCertificate_reply log (vaultURL c) certificateName in
  let recoverReply :=
    RecoverDeletedCertificate_reply log (vaultURL c) certificateName in
  let location := http.Header_Get (http.Response.Header rawResp) "Location" in
  (forall status,
      BeginCreateCertificateOptions.ResumeToken opts = "" ->
      Reply.err createReply = None ->
      Reply.captured createReply = Some rawResp ->
      location <> "" ->
      generated.KeyVaultClientCreateCertificateResponse.Status
        (Reply.value createReply) = Some status ->
      exists handler,
        fst (BeginCreateCertificate c certificateName policy createOptions log)
        = Returns (NewPoller (Some rawResp) handler)
        /\ PollURL handler = location
        /\ forall log',
             NewRequest_error http.MethodGet location = None ->
             create_poll handler (PollURL handler) log'
             = (Returns (Do_reply log' (http.Request.mk http.MethodGet location)),
                log' ++ [CallPipelineDo (http.Request.mk http.MethodGet location)]))
  /\ ((BeginDeleteCertificateOptions.ResumeToken
         (default BeginDeleteCertificateOptions.zero deleteOptions) = "" ->
       Reply.err deleteReply = None ->
       fst (BeginDeleteCertificate c certificateName deleteOptions log)
       = Returns (NewPoller (Reply.captured deleteReply)
                    (BeginDeleteCertificate_handler c certificateName)))
      /\ forall log' req,
           GetDeletedCertificateCreateRequest (vaultURL c) certificateName = inl req ->
           delete_poll (BeginDeleteCertificate_handler c certificateName) log'
           = (Returns (Do_reply log' req), log' ++ [CallPipelineDo req]))
  /\ ((BeginRecoverDeletedCertificateOptions.ResumeToken
         (default BeginRecoverDeletedCertificateOptions.zero recoverOptions) = "" ->
       Reply.err recoverReply = None ->
       fst (BeginRecoverDeletedCertificate c certificateName recoverOptions log)
       = Returns (NewPoller (Reply.captured recoverReply)
                    (BeginRecoverDeletedCertificate_handler c certificateName)))
      /\ forall log' req,
           GetCertificateCreateRequest (vaultURL c) certificateName "" = inl req ->
           recover_poll (BeginRecoverDeletedCertificate_handler c certificateName) log'
           = (Returns (Do_reply log' req), log' ++ [CallPipelineDo req])).
Proof.
  intros opts createReply deleteReply recoverReply location.
  split; [| split; split].
  - intros status Htoken Herr Hraw Hloc Hstatus.
    pose proof (BeginCreateCertificate_fresh c certificateName policy
                  createOptions log rawResp Htoken Herr Hraw) as E.
    fold opts createReply location in E. rewrite E. simpl.
    rewrite (eqb_empty_false location Hloc), Hstatus.
    eexists; split; [reflexivity | split; [reflexivity |]].
    intros log' Hvalid. simpl.
    unfold BeginCreateCertificate_poll, runtime_NewRequest.
    rewrite Hvalid. reflexivity.
  - intros Htoken Herr.
    now rewrite (BeginDeleteCertificate_fresh c certificateName deleteOptions
                   log Htoken Herr).
  - intros log' req Hreq. simpl.
    unfold BeginDeleteCertificate_poll. now rewrite Hreq.
  - intros Htoken Herr.
    now rewrite (BeginRecoverDeletedCertificate_fresh c certificateName
                   recoverOptions log Htoken Herr).
  - intros log' req Hreq. simpl.
    unfold BeginRecoverDeletedCertificate_poll. now rewrite Hreq.
Qed.

(** C6. The [result] function of the create handler calls [GetCertificate]
    for the same certificate name (latest version) and converts its
    response to a [CreateCertificateResponse], which holds the very
    certificate of the response of [GetCertificate]; when
    [GetCertificate] returns an error, it returns that error with the
    zero [CreateCertificateResponse]. *)
Theorem create_result_fetches_GetCertificate
    (c : Client) (certificateName : string) (log : Log) :
  let result := create_result (BeginCreateCertificate_handler c certificateName) in
  sent result log = [CallGetCertificate (vaultURL c) certificateName ""]
  /\ (exists resp err log',
        GetCertificate c certificateName None log = (Returns (resp, err), log'))
  /\ (forall resp e log',
        GetCertificate c certificateName None log = (Returns (resp, Some e), log') ->
        result log
        = (Returns (mkCreateCertificateResponse CertificateWithPolicy.zero, Some e),
           log'))
  /\ (forall resp log',
        GetCertificate c certificateName None log = (Returns (resp, None), log') ->
        result log
        = (Returns (mkCreateCertificateResponse (get_CertificateWithPolicy resp),
                    None), log'))
  /\ (forall r err log',
        result log = (Returns (r, err), log') ->
        exists resp,
          GetCertificate c certificateName None log = (Returns (resp, err), log')
          /\ (err = None ->
              create_CertificateWithPolicy r = get_CertificateWithPolicy resp)
          /\ (err <> None ->
              create_CertificateWithPolicy r = CertificateWithPolicy.zero)).
Proof.
  intros result.
  assert (Eres : forall r log',
             GetCertificate c certificateName None log = (Returns r, log') ->
             result log
             = (Returns (match snd r with
                         | Some e =>
                             (mkCreateCertificateResponse CertificateWithPolicy.zero,
                              Some e)
                         | None =>
                             (mkCreateCertificateResponse
                                (get_CertificateWithPolicy (fst r)), None)
                         end), log')).
  { intros [resp err] log' E. unfold result; simpl.
    unfold BeginCreateCertificate_result, bind. rewrite E.
    destruct err; reflexivity. }
  assert (Eget : exists resp err,
             GetCertificate c certificateName None log
             = (Returns (resp, err),
                log ++ [CallGetCertificate (vaultURL c) certificateName ""])).
  { unfold GetCertificate, bind, genClient_GetCertificate, send; simpl.
    destruct (GetCertificate_reply log (vaultURL c) certificateName "")
      as [resp [e|]]; simpl; eexists; eexists; reflexivity. }
  split; [| split; [| split; [| split]]].
  - destruct Eget as (resp & err & E).
    eapply sent_append. exact (Eres _ _ E).
  - destruct Eget as (resp & err & E). eauto.
  - intros resp e log' E. exact (Eres _ _ E).
  - intros resp log' E. exact (Eres _ _ E).
  - intros r err log' Hres.
    destruct Eget as (resp & err0 & E).
    rewrite (Eres _ _ E) in Hres. simpl in Hres.
    exists resp. destruct err0 as [e|]; inversion Hres; subst.
    + split; [exact E |]. split; [discriminate | reflexivity].
    + split; [exact E |]. split; [reflexivity | congruence].
Qed.

End CertificateClient.

(** *** The certificate client on the sample service *)

Lemma Begin_with_ResumeToken_resumes_witness :
  "token-1" <> ""
  /\ azcertificates.sent
       (azcertificates.BeginCreateCertificate
          (H0 := samples.service samples.accepted (Some "inProgress"))
          (R := samples.runtime _ _)
          samples.client "cert1" "policy"
          (Some (azcertificates.BeginCreateCertificateOptions.mk None None "token-1")))
       [] = [].
Proof.
  assert (H : "token-1" <> "") by discriminate.
  split; [exact H |].
  exact (proj2 (proj1
    (Begin_with_ResumeToken_resumes
       (Sv := samples.service samples.accepted (Some "inProgress"))
       (Rc := samples.runtime _ _) (Rd := samples.runtime _ _)
       (Rr := samples.runtime _ _)
       samples.client "cert1" "policy" None None "token-1" [] H))).
Defined.

Lemma BeginCreateCertificate_PollURL_is_Location_witness :
  exists handler,
    fst (azcertificates.BeginCreateCertificate
           (H0 := samples.service samples.accepted (Some "inProgress"))
           (R := samples.runtime _ _)
           samples.client "cert1" "policy" None [])
    = Returns (azcertificates.NewPoller (Some samples.accepted) handler)
    /\ azcertificates.PollURL handler = samples.operation_url
    /\ azcertificates.Status handler = "inProgress".
Proof.
  refine (proj1
    (BeginCreateCertificate_PollURL_is_Location
       (Sv := samples.service samples.accepted (Some "inProgress"))
       (Rc := samples.runtime _ _)
       samples.client "cert1" "policy" None [] samples.accepted
       _ _ _) "inProgress" _ _).
  - reflexivity.
  - reflexivity.
  - reflexivity.
  - vm_compute. discriminate.
  - reflexivity.
Defined.

Lemma handlers_poll_target_of_their_kind_witness :
  azcertificates.delete_poll
    (azcertificates.BeginDeleteCertificate_handler
       (H0 := samples.service samples.accepted (Some "inProgress"))
       samples.client "cert1") []
  = (Returns (Some samples.ok_without_location, None),
     [azcertificates.CallPipelineDo
        (http.Request.mk "GET" "https://vault.example/deletedcertificates/cert1")]).
Proof.
  refine (proj2 (proj1 (proj2
    (handlers_poll_target_of_their_kind
       (Sv := samples.service samples.accepted (Some "inProgress"))
       (Rc := samples.runtime _ _) (Rd := samples.runtime _ _)
       (Rr := samples.runtime _ _)
       samples.client "cert1" "policy" None None None [] samples.accepted)))
    [] (http.Request.mk "GET" "https://vault.example/deletedcertificates/cert1") _).
  reflexivity.
Defined.

Lemma create_result_fetches_GetCertificate_witness :
  azcertificates.create_result
    (azcertificates.BeginCreateCertificate_handler
       (H0 := samples.service samples.accepted (Some "inProgress"))
       samples.client "cert1") []
  = (Returns (azcertificates.mkCreateCertificateResponse (H := samples.models)
                samples.certificate_with_policy,
              None),
     [azcertificates.CallGetCertificate "https://vault.example" "cert1" ""])
  /\ azcertificates.create_result
       (azcertificates.BeginCreateCertificate_handler
          (H0 := samples.service samples.accepted (Some "inProgress"))
          samples.client "cert2") []
     = (Returns (azcertificates.mkCreateCertificateResponse (H := samples.models)
                   azcertificates.CertificateWithPolicy.zero,
                 Some "CertificateNotFound"),
        [azcertificates.CallGetCertificate "https://vault.example" "cert2" ""]).
Proof.
  split.
  - exact (proj1 (proj2 (proj2 (proj2
      (create_result_fetches_GetCertificate
         (Sv := samples.service samples.accepted (Some "inProgress"))
         samples.client "cert1" []))))
      (azcertificates.mkGetCertificateResponse (H := samples.models)
         samples.certificate_with_policy)
      _ eq_refl).
  - exact (proj1 (proj2 (proj2
      (create_result_fetches_GetCertificate
         (Sv := samples.service samples.accepted (Some "inProgress"))
         samples.client "cert2" [])))
      (azcertificates.mkGetCertificateResponse (H := samples.models)
         azcertificates.CertificateWithPolicy.zero)
      "CertificateNotFound" _ eq_refl).
Defined.

(** ** sql: the responders of the sync-members client *)

Section SyncMembersResponders.
Import sql.
Context `{J : Json}.

Lemma ResponseHasStatusCode_In (resp : http.Response.t) (codes : list Z) :
  autorest.ResponseHasStatusCode resp codes = true
  <-> In (http.Response.StatusCode resp) codes.
Proof.
  unfold autorest.ResponseHasStatusCode. rewrite existsb_exists. split.
  - intros (code & Hin & Heq). apply Z.eqb_eq in Heq. now subst.
  - intros Hin. exists (http.Response.StatusCode resp).
    split; [exact Hin | apply Z.eqb_refl].
Qed.

(** A responder that only checks the status code and closes. *)
Lemma status_then_close_run (codes : list Z) (resp : http.Response.t) :
  autorest.Respond (Some resp)
    [azure.WithErrorUnlessStatusCode codes; autorest.ByClosing] tt
  = if autorest.ResponseHasStatusCode resp codes then
      (Some resp, tt,
       match http.Body.close_error (http.Response.Body resp) with
       | Some e => Some ("Error closing the response body: " +:+ e)
       | None => None
       end)
    else
      (Some (azure.copied_body resp), tt,
       Some "autorest/azure: Service returned an error").
Proof.
  unfold autorest.Respond, autorest.CreateResponder; cbn [fold_left].
  unfold autorest.ByClosing, azure.WithErrorUnlessStatusCode.
  destruct (autorest.ResponseHasStatusCode resp codes); cbn [negb].
  - destruct (http.Body.close_error (http.Response.Body resp)); reflexivity.
  - reflexivity.
Qed.

Lemma DeleteResponder_run (resp : http.Response.t) :
  DeleteResponder (Some resp)
  = if autorest.ResponseHasStatusCode resp [200; 202; 204]%Z then
      (autorest.Response.mk (Some resp),
       match http.Body.close_error (http.Response.Body resp) with
       | Some e => Some ("Error closing the response body: " +:+ e)
       | None => None
       end)
    else
      (autorest.Response.mk (Some (azure.copied_body resp)),
       Some "autorest/azure: Service returned an error").
Proof.
  unfold DeleteResponder. rewrite status_then_close_run.
  change [http.StatusOK; http.StatusAccepted; http.StatusNoContent]
    with [200; 202; 204]%Z.
  now destruct (autorest.ResponseHasStatusCode resp [200; 202; 204]%Z).
Qed.

Lemma RefreshMemberSchemaResponder_run (resp : http.Response.t) :
  RefreshMemberSchemaResponder (Some resp)
  = if autorest.ResponseHasStatusCode resp [200; 202]%Z then
      (autorest.Response.mk (Some resp),
       match http.Body.close_error (http.Response.Body resp) with
       | Some e => Some ("Error closing the response body: " +:+ e)
       | None => None
       end)
    else
      (autorest.Response.mk (Some (azure.copied_body resp)),
       Some "autorest/azure: Service returned an error").
Proof.
  unfold RefreshMemberSchemaResponder. rewrite status_then_close_run.
  change [http.StatusOK; http.StatusAccepted] with [200; 202]%Z.
  now destruct (autorest.ResponseHasStatusCode resp [200; 202]%Z).
Qed.

(** What [CreateOrUpdateResponder] returns on a response whose body closes
    cleanly. *)
Lemma CreateOrUpdateResponder_run (resp : http.Response.t) :
  http.Body.close_error (http.Response.Body resp) = None ->
  let b := autorest.TrimPrefix
             (http.Body.bytes (http.Response.Body resp)) autorest.BOM in
  let raw := autorest.Response.mk (Some resp) in
  CreateOrUpdateResponder (Some resp)
  = if autorest.ResponseHasStatusCode resp [200; 201; 202]%Z
    then
      match http.Body.read_error (http.Response.Body resp) with
      | Some e =>
          (SyncMember.set_Response raw SyncMember.zero,
           Some ("Error occurred reading http.Response#Body - Error = " +:+ e))
      | None =>
          if (0 <? String.length (autorest.Trim_space b))%nat then
            (SyncMember.set_Response raw (fst (Unmarshal b SyncMember.zero)),
             match snd (Unmarshal b SyncMember.zero) with
             | Some e =>
                 Some ("Error occurred unmarshalling JSON - Error = " +:+ e)
             | None => None
             end)
          else (SyncMember.set_Response raw SyncMember.zero, None)
      end
    else (SyncMember.set_Response
            (autorest.Response.mk (Some (azure.copied_body resp)))
            SyncMember.zero,
          Some "autorest/azure: Service returned an error").
Proof.
  intros Hclose b raw.
  unfold CreateOrUpdateResponder, autorest.Respond, autorest.CreateResponder;
    cbn [fold_left].
  unfold autorest.ByClosing, autorest.ByUnmarshallingJSON,
    azure.WithErrorUnlessStatusCode.
  change [http.StatusOK; http.StatusCreated; http.StatusAccepted]
    with [200; 201; 202]%Z.
  destruct (autorest.ResponseHasStatusCode resp [200; 201; 202]%Z); cbn [negb];
    [| reflexivity].
  fold b.
  destruct (http.Body.read_error (http.Response.Body resp));
    [now rewrite Hclose |].
  destruct (0 <? String.length (autorest.Trim_space b))%nat;
    [| now rewrite Hclose].
  destruct (Unmarshal b SyncMember.zero) as [v [e|]]; now rewrite Hclose.
Qed.

(** C7, amended. On a response whose body closes without error,
    [DeleteResponder] returns a nil error exactly for the status codes
    200, 202, 204 and [RefreshMemberSchemaResponder] exactly for 200, 202;
    [CreateOrUpdateResponder] returns an error for every status code
    outside 200, 201, 202, and for a code among them returns a nil error
    exactly when the body can be read and is blank or decodes as JSON. *)
Theorem responders_accept_their_status_codes (resp : http.Response.t) :
  http.Body.close_error (http.Response.Body resp) = None ->
  let code := http.Response.StatusCode resp in
  (snd (DeleteResponder (Some resp)) = None <-> In code [200; 202; 204]%Z)
  /\ (snd (RefreshMemberSchemaResponder (Some resp)) = None
      <-> In code [200; 202]%Z)
  /\ (snd (CreateOrUpdateResponder (Some resp)) = None
      <-> In code [200; 201; 202]%Z /\ body_decodes resp)
  /\ (~ In code [200; 201; 202]%Z ->
      snd (CreateOrUpdateResponder (Some resp)) <> None).
Proof.
  intros Hclose code.
  assert (Hcreate : snd (CreateOrUpdateResponder (Some resp)) = None
                    <-> In code [200; 201; 202]%Z /\ body_decodes resp).
  { rewrite (CreateOrUpdateResponder_run resp Hclose).
    unfold body_decodes, code.
    rewrite <- (ResponseHasStatusCode_In resp [200; 201; 202]%Z).
    destruct (autorest.ResponseHasStatusCode resp [200; 201; 202]%Z); simpl.
    - destruct (http.Body.read_error (http.Response.Body resp)); simpl.
      + split; [discriminate | intros (_ & Hread & _); discriminate].
      + destruct (0 <? String.length _)%nat; simpl.
        * destruct (snd (Unmarshal _ SyncMember.zero)); simpl.
          -- split; [discriminate |].
             intros (_ & _ & [Hblank | Hdec]); discriminate.
          -- split; [| reflexivity]. intros _. repeat split. now right.
        * split; [| reflexivity]. intros _. repeat split. now left.
    - split; [discriminate | intros (Hcode & _); discriminate]. }
  split; [| split; [| split]].
  - rewrite DeleteResponder_run. unfold code.
    rewrite <- (ResponseHasStatusCode_In resp [200; 202; 204]%Z).
    destruct (autorest.ResponseHasStatusCode resp [200; 202; 204]%Z); simpl.
    + rewrite Hclose. split; reflexivity.
    + split; discriminate.
  - rewrite RefreshMemberSchemaResponder_run. unfold code.
    rewrite <- (ResponseHasStatusCode_In resp [200; 202]%Z).
    destruct (autorest.ResponseHasStatusCode resp [200; 202]%Z); simpl.
    + rewrite Hclose. split; reflexivity.
    + split; discriminate.
  - exact Hcreate.
  - intros Hout Herr. apply Hcreate in Herr. now destruct Herr.
Qed.

(** C8. [DeleteResponder] and [RefreshMemberSchemaResponder] return the raw
    response and nothing else: nil for a nil response, and otherwise the
    response passed in (with its body replaced by a copy when the status
    code was refused), whatever the body holds. [CreateOrUpdateResponder]
    returns a [SyncMember]: on an accepted response with a readable,
    non-blank body it is the value decoded from that body, with the raw
    response attached. *)
Theorem delete_style_responders_return_the_raw_response
    (resp : ptr http.Response.t) :
  (resp = None ->
   fst (DeleteResponder resp) = autorest.Response.mk None
   /\ fst (RefreshMemberSchemaResponder resp) = autorest.Response.mk None)
  /\ (forall r,
        resp = Some r ->
        (fst (DeleteResponder resp) = autorest.Response.mk (Some r)
         \/ fst (DeleteResponder resp)
            = autorest.Response.mk (Some (azure.copied_body r)))
        /\ (fst (RefreshMemberSchemaResponder resp) = autorest.Response.mk (Some r)
            \/ fst (RefreshMemberSchemaResponder resp)
               = autorest.Response.mk (Some (azure.copied_body r)))
        /\ (In (http.Response.StatusCode r) [200; 202; 204]%Z ->
            fst (DeleteResponder resp) = autorest.Response.mk (Some r))
        /\ (In (http.Response.StatusCode r) [200; 202]%Z ->
            fst (RefreshMemberSchemaResponder resp)
            = autorest.Response.mk (Some r)))
  /\ (forall r,
        resp = Some r ->
        let b := autorest.TrimPrefix
                   (http.Body.bytes (http.Response.Body r)) autorest.BOM in
        In (http.Response.StatusCode r) [200; 201; 202]%Z ->
        http.Body.read_error (http.Response.Body r) = None ->
        http.Body.close_error (http.Response.Body r) = None ->
        (0 <? String.length (autorest.Trim_space b))%nat = true ->
        fst (CreateOrUpdateResponder resp)
        = SyncMember.set_Response (autorest.Response.mk resp)
            (fst (Unmarshal b SyncMember.zero))).
Proof.
  split; [| split].
  - intros ->. split; reflexivity.
  - intros r ->.
    rewrite DeleteResponder_run, RefreshMemberSchemaResponder_run.
    split; [| split; [| split]].
    + destruct (autorest.ResponseHasStatusCode r [200; 202; 204]%Z);
        [now left | now right].
    + destruct (autorest.ResponseHasStatusCode r [200; 202]%Z);
        [now left | now right].
    + intros Hcode. apply ResponseHasStatusCode_In in Hcode. now rewrite Hcode.
    + intros Hcode. apply ResponseHasStatusCode_In in Hcode. now rewrite Hcode.
  - intros r -> b Hcode Hread Hclose Hblank.
    rewrite (CreateOrUpdateResponder_run r Hclose). fold b.
    apply (ResponseHasStatusCode_In r [200; 201; 202]%Z) in Hcode.
    now rewrite Hcode, Hread, Hblank.
Qed.

End SyncMembersResponders.

(** C7, as stated, fails for [CreateOrUpdateResponder]: with any decoder
    that rejects what cannot begin a JSON value, a response with status 200
    and an HTML body is answered with an error although 200 is accepted. *)
Lemma CreateOrUpdateResponder_rejects_undecodable_200 :
  ~ (forall J : sql.Json,
        sql.rejects_non_json J ->
        forall resp : http.Response.t,
          snd (sql.CreateOrUpdateResponder (Some resp)) = None
          <-> In (http.Response.StatusCode resp) [200; 201; 202]%Z).
Proof.
  intros Hclaim.
  assert (HJ : sql.rejects_non_json samples.json).
  { intros b v Hb. unfold samples.json; simpl. rewrite Hb. discriminate. }
  pose proof (proj2 (Hclaim samples.json HJ samples.ok_html)) as Hnil.
  assert (Hin : In (http.Response.StatusCode samples.ok_html) [200; 201; 202]%Z)
    by (left; reflexivity).
  specialize (Hnil Hin). vm_compute in Hnil. discriminate.
Qed.

Lemma responders_accept_their_status_codes_witness :
  snd (sql.DeleteResponder (Some (samples.response 204 ""))) = None
  <-> In 204%Z [200; 202; 204]%Z.
Proof.
  exact (proj1 (responders_accept_their_status_codes (J := samples.json)
                  (samples.response 204 "") eq_refl)).
Defined.

Lemma delete_style_responders_return_the_raw_response_witness :
  fst (sql.CreateOrUpdateResponder (H := samples.json) (Some samples.ok_json))
  = sql.SyncMember.mk (autorest.Response.mk (Some samples.ok_json))
      None (Some "{}") None None.
Proof.
  refine (proj2 (proj2
    (delete_style_responders_return_the_raw_response (J := samples.json)
       (Some samples.ok_json))) samples.ok_json eq_refl _ _ _ _).
  - left; reflexivity.
  - reflexivity.
  - reflexivity.
  - reflexivity.
Defined.

(** ** The polling engine: a terminal status is sticky *)

Section PollingEngine.
Variable parse_seconds : string -> option Z.
Variable max_backoff : Z.

Lemma Poll_when_done {T} (p : lro.Poller T) (log : list http.Request.t) :
  lro.Done p = true ->
  lro.Poll parse_seconds max_backoff p log = ((p, None), log).
Proof. intros Hdone. unfold lro.Poll. now rewrite Hdone. Qed.

Lemma Poll_times_when_done {T} (n : nat) :
  forall (p : lro.Poller T) (log : list http.Request.t),
    lro.Done p = true ->
    lro.Poll_times parse_seconds max_backoff n p log = (p, log).
Proof.
  induction n as [|k IH]; intros p log Hdone; simpl.
  - reflexivity.
  - unfold lro.net_bind. rewrite (Poll_when_done p log Hdone). simpl.
    now apply IH.
Qed.

(** C2. Once a poller is in a terminal status (Succeeded, Failed or
    Canceled), a call of [Poll] returns it as it is without executing any
    request, and so does any number of further calls: the request log and
    the stored status are unchanged and [Done] stays true. The same holds
    of a future, which is the poller of raw responses. *)
Theorem Poll_after_terminal_is_noop :
  (forall (T : Type) (p : lro.Poller T) (log : list http.Request.t) (n : nat),
      lro.terminal (lro.status (lro.meta p)) = true ->
      let after := lro.Poll_times parse_seconds max_backoff n p log in
      lro.Poll parse_seconds max_backoff p log = ((p, None), log)
      /\ after = (p, log)
      /\ lro.status (lro.meta (fst after)) = lro.status (lro.meta p)
      /\ lro.Done (fst after) = true)
  /\ (forall (f : lro.Future) (log : list http.Request.t) (n : nat),
        lro.terminal (lro.status (lro.meta f)) = true ->
        let after := lro.Poll_times parse_seconds max_backoff n f log in
        lro.Poll parse_seconds max_backoff f log = ((f, None), log)
        /\ after = (f, log)
        /\ lro.status (lro.meta (fst after)) = lro.status (lro.meta f)
        /\ lro.Done (fst after) = true).
Proof.
  assert (Hall : forall (T : Type) (p : lro.Poller T)
                   (log : list http.Request.t) (n : nat),
             lro.terminal (lro.status (lro.meta p)) = true ->
             let after := lro.Poll_times parse_seconds max_backoff n p log in
             lro.Poll parse_seconds max_backoff p log = ((p, None), log)
             /\ after = (p, log)
             /\ lro.status (lro.meta (fst after)) = lro.status (lro.meta p)
             /\ lro.Done (fst after) = true).
  { intros T p log n Hterminal after.
    assert (Hafter : after = (p, log))
      by (apply Poll_times_when_done; exact Hterminal).
    split; [apply Poll_when_done; exact Hterminal |].
    split; [exact Hafter |].
    rewrite Hafter. split; [reflexivity | exact Hterminal]. }
  split; [exact Hall | exact (Hall http.Response.t)].
Qed.

End PollingEngine.

Lemma Poll_after_terminal_is_noop_witness :
  lro.terminal (lro.status (lro.meta samples.finished_future)) = true
  /\ lro.Poll_times (fun _ => None) 32 3 samples.finished_future []
     = (samples.finished_future, []).
Proof.
  assert (H : lro.terminal (lro.status (lro.meta samples.finished_future)) = true)
    by reflexivity.
  split; [exact H |].
  exact (proj1 (proj2
    (proj2 (Poll_after_terminal_is_noop (fun _ => None) 32)
       samples.finished_future [] 3%nat H))).
Defined.

(** ** The poller of an initiating response with status 200 *)

Section SynchronousCompletion.
Import azcertificates.
Context `{Mo : Models} `{Sv : !Service}.
Context `{Rc : !Runtime beginCreateCertificateOperation CreateCertificateResponse}.
Variable parse_seconds : string -> option Z.
Variable max_backoff : Z.



End SynchronousCompletion.



(** * Further properties of the conversions and the clients *)

(** ** Loops that may panic *)

Section RangeExec.
Context {A B : Type} (f : A -> exec B).

Lemma range_assign_exec_app (z : B) (src : list A) :
  forall (filled : list B),
    range_assign_exec f (List.length filled) src
      (filled ++ make z (List.length src))
    = exec_bind (traverse f src) (fun bs => Returns (filled ++ bs)).
Proof.
  induction src as [|op rest IH]; intros filled; simpl.
  - now rewrite app_nil_r.
  - destruct (f op) as [b|r]; simpl; [| reflexivity].
    replace (<[List.length filled:=b]> (filled ++ z :: make z (List.length rest)))
      with ((filled ++ [b]) ++ make z (List.length rest)).
    + replace (S (List.length filled)) with (List.length (filled ++ [b]))
        by (rewrite length_app; simpl; lia).
      rewrite IH. destruct (traverse f rest); simpl; [| reflexivity].
      now rewrite <- app_assoc.
    + rewrite <- app_assoc. simpl.
      rewrite insert_app_r_alt by lia.
      replace (List.length filled - List.length filled)%nat with 0%nat by lia.
      reflexivity.
Qed.

(** The loop over a slice made for it is the traversal of its elements. *)
Lemma range_assign_exec_make (z : B) (src : list A) :
  range_assign_exec f 0 src (make z (List.length src)) = traverse f src.
Proof.
  pose proof (range_assign_exec_app z src []) as E. simpl in E.
  rewrite E. now destruct (traverse f src).
Qed.

Lemma range_append_exec_traverse (src : list A) :
  forall vals : slice B,
    range_append_exec f src vals
    = exec_bind (traverse f src) (fun bs =>
        Returns (match bs with
                 | [] => vals
                 | _ => Some (elems vals ++ bs)
                 end)).
Proof.
  induction src as [|v rest IH]; intros vals; simpl.
  - reflexivity.
  - destruct (f v) as [b|r]; simpl; [| reflexivity].
    rewrite IH. destruct (traverse f rest) as [bs|r]; simpl; [| reflexivity].
    destruct bs; simpl; [reflexivity |].
    now rewrite <- app_assoc.
Qed.

Lemma traverse_length (l : list A) :
  forall bs, traverse f l = Returns bs -> List.length bs = List.length l.
Proof.
  induction l as [|x rest IH]; simpl; intros bs E.
  - now inversion E.
  - destruct (f x); simpl in E; [| discriminate].
    destruct (traverse f rest) as [bs'|]; simpl in E; [| discriminate].
    inversion E; subst. simpl. now rewrite (IH bs').
Qed.

(** A traversal returns exactly when [f] returns on every element, and
    panics as [f] does otherwise. *)
Lemma traverse_returned (l : list A) :
  returned (traverse f l) = forallb (fun x => returned (f x)) l.
Proof.
  induction l as [|x rest IH]; simpl; [reflexivity |].
  destruct (f x); simpl; [| reflexivity].
  rewrite <- IH. now destruct (traverse f rest).
Qed.

Lemma traverse_panics (r : string) (l : list A) :
  (forall x, returned (f x) = false -> f x = Panics r) ->
  returned (traverse f l) = false -> traverse f l = Panics r.
Proof.
  intros Hf. induction l as [|x rest IH]; simpl; [discriminate |].
  destruct (f x) as [b|r'] eqn:E; simpl.
  - intros Hrest. destruct (traverse f rest); simpl in *; [discriminate |].
    now rewrite IH.
  - intros _. specialize (Hf x). rewrite E in Hf.
    injection (Hf eq_refl) as ->. reflexivity.
Qed.

Lemma traverse_map (g : A -> B) (l : list A) :
  Forall (fun x => f x = Returns (g x)) l -> traverse f l = Returns (map g l).
Proof.
  induction 1 as [|x rest Hx _ IH]; simpl; [reflexivity |].
  now rewrite Hx, IH.
Qed.
End RangeExec.

Lemma returned_true {A} (e : exec A) : returned e = true <-> exists a, e = Returns a.
Proof.
  destruct e; simpl; split; eauto; try discriminate.
  intros [a E]. discriminate.
Qed.

(** Traversing with two conversions that undo each other gives the list
    back. *)
Lemma traverse_inverse {A B} (f : A -> exec B) (g : B -> exec A) (l : list A) :
  (forall x y, f x = Returns y -> g y = Returns x) ->
  forall bs, traverse f l = Returns bs -> traverse g bs = Returns l.
Proof.
  intros Hfg. induction l as [|x rest IH]; simpl; intros bs E.
  - inversion E. reflexivity.
  - destruct (f x) as [y|] eqn:Ex; simpl in E; [| discriminate].
    destruct (traverse f rest) as [ys|]; simpl in E; [| discriminate].
    inversion E; subst. simpl.
    now rewrite (Hfg x y Ex), (IH ys eq_refl).
Qed.

(** ** azkeys: release policies, rotation policies, key items *)

(** X1. A release policy survives the conversion to the generated model and
    back, and a generated release policy the conversion to the public model
    and back, nil included. *)
Theorem ReleasePolicy_roundtrip :
  (forall k : ptr azkeys.ReleasePolicy.t,
      azkeys.keyReleasePolicyFromGenerated (azkeys.ReleasePolicy_toGenerated k) = k)
  /\ (forall g : ptr azkeys.generated.KeyReleasePolicy.t,
        azkeys.ReleasePolicy_toGenerated (azkeys.keyReleasePolicyFromGenerated g) = g).
Proof.
  split.
  - intros [[? ? ?]|]; reflexivity.
  - intros [[? ? ?]|]; reflexivity.
Qed.

(** X2. [LifetimeActions.toGenerated] and [lifetimeActionsFromGenerated]
    undo each other: one returns [g] on [l] exactly when the other returns
    [l] on [g]. *)
Theorem LifetimeActions_conversions_inverse
    (l : ptr azkeys.LifetimeActions.t) (g : ptr azkeys.generated.LifetimeActions.t) :
  azkeys.LifetimeActions_toGenerated l = Returns g
  <-> azkeys.lifetimeActionsFromGenerated g = Returns l.
Proof.
  split.
  - destruct l as [[[[ty]|] [[after before]|]]|]; simpl; intros E;
      inversion E; reflexivity.
  - destruct g as [[[[ty]|] [[after before]|]]|]; simpl; intros E;
      inversion E; reflexivity.
Qed.

(** X3. [LifetimeActions.toGenerated] panics with a nil dereference exactly
    on a non-nil action whose [Action] or [Trigger] is nil, and returns on
    every other input; a nil action gives nil. *)
Theorem LifetimeActions_toGenerated_panics_iff (l : ptr azkeys.LifetimeActions.t) :
  (azkeys.LifetimeActions_toGenerated l = Panics nil_dereference
   <-> azkeys.action_complete l = false)
  /\ ((exists g, azkeys.LifetimeActions_toGenerated l = Returns g)
      <-> azkeys.action_complete l = true)
  /\ (l = None <-> azkeys.LifetimeActions_toGenerated l = Returns None).
Proof.
  destruct l as [[[a|] [t|]]|]; simpl; repeat split;
    try discriminate; try reflexivity; eauto;
    try (intros [g E]; discriminate).
Qed.

Lemma LifetimeActions_toGenerated_returned (l : ptr azkeys.LifetimeActions.t) :
  returned (azkeys.LifetimeActions_toGenerated l) = azkeys.action_complete l.
Proof. now destruct l as [[[a|] [t|]]|]. Qed.

Lemma RotationPolicy_toGenerated_run (u : azkeys.RotationPolicy.t) :
  azkeys.RotationPolicy_toGenerated u
  = exec_bind
      (traverse azkeys.LifetimeActions_toGenerated
         (elems (azkeys.RotationPolicy.LifetimeActions u)))
      (fun la =>
         Returns (azkeys.generated.KeyRotationPolicy.mk
                    (azkeys.RotationPolicy.ID u) (Some la)
                    (match azkeys.RotationPolicy.Attributes u with
                     | Some a => azkeys.RotationPolicyAttributes_toGenerated a
                     | None => None
                     end))).
Proof.
  unfold azkeys.RotationPolicy_toGenerated.
  replace (len (azkeys.RotationPolicy.LifetimeActions u))
    with (List.length (elems (azkeys.RotationPolicy.LifetimeActions u)))
    by (now destruct (azkeys.RotationPolicy.LifetimeActions u)).
  now rewrite range_assign_exec_make.
Qed.

(** X4. [RotationPolicy.toGenerated] returns exactly when every lifetime
    action of the policy is nil or has both its [Action] and its [Trigger];
    otherwise it panics with a nil dereference. *)
Theorem RotationPolicy_toGenerated_returns_iff (u : azkeys.RotationPolicy.t) :
  let complete :=
    forallb azkeys.action_complete
      (elems (azkeys.RotationPolicy.LifetimeActions u)) in
  ((exists g, azkeys.RotationPolicy_toGenerated u = Returns g) <-> complete = true)
  /\ (azkeys.RotationPolicy_toGenerated u = Panics nil_dereference
      <-> complete = false).
Proof.
  intros complete.
  assert (Hret : returned
                   (traverse azkeys.LifetimeActions_toGenerated
                      (elems (azkeys.RotationPolicy.LifetimeActions u)))
                 = complete).
  { rewrite traverse_returned. unfold complete.
    induction (elems (azkeys.RotationPolicy.LifetimeActions u)) as [|x l IH];
      simpl; [reflexivity |].
    now rewrite LifetimeActions_toGenerated_returned, IH. }
  rewrite RotationPolicy_toGenerated_run.
  destruct (traverse azkeys.LifetimeActions_toGenerated _) as [la|r] eqn:E;
    simpl in *.
  - rewrite <- Hret. split; split; eauto; discriminate.
  - assert (Hr : Panics r = @Panics (list (ptr azkeys.generated.LifetimeActions.t))
                              nil_dereference).
    { rewrite <- E. apply traverse_panics.
      - intros [[[a|] [t|]]|]; simpl; intros Hx; try discriminate; reflexivity.
      - now rewrite E. }
    inversion Hr; subst. rewrite <- Hret.
    split; split; try reflexivity; try discriminate.
    intros [g Hg]. discriminate.
Qed.

(** X5. When [RotationPolicy.toGenerated] returns, the generated policy
    keeps the identifier, has attributes exactly when the policy has them,
    and its lifetime actions are a slice that is never nil, of the same
    length, whose elements convert back to the actions of the policy in
    order. *)
Theorem RotationPolicy_toGenerated_result
    (u : azkeys.RotationPolicy.t) (g : azkeys.generated.KeyRotationPolicy.t) :
  azkeys.RotationPolicy_toGenerated u = Returns g ->
  azkeys.generated.KeyRotationPolicy.ID g = azkeys.RotationPolicy.ID u
  /\ (azkeys.generated.KeyRotationPolicy.Attributes g = None
      <-> azkeys.RotationPolicy.Attributes u = None)
  /\ exists la,
       azkeys.generated.KeyRotationPolicy.LifetimeActions g = Some la
       /\ List.length la = len (azkeys.RotationPolicy.LifetimeActions u)
       /\ traverse azkeys.lifetimeActionsFromGenerated la
          = Returns (elems (azkeys.RotationPolicy.LifetimeActions u)).
Proof.
  rewrite RotationPolicy_toGenerated_run.
  destruct (traverse azkeys.LifetimeActions_toGenerated _) as [la|r] eqn:E;
    simpl; [| discriminate].
  intros Hg. inversion Hg; subst; simpl.
  split; [reflexivity |]. split.
  - destruct (azkeys.RotationPolicy.Attributes u); simpl; split;
      intros; try discriminate; reflexivity.
  - exists la. split; [reflexivity |]. split.
    + rewrite (traverse_length _ _ _ E).
      now destruct (azkeys.RotationPolicy.LifetimeActions u).
    + eapply traverse_inverse; [| exact E].
      intros x y. apply LifetimeActions_conversions_inverse.
Qed.

Section KeyConversions.
Variable toGeneratedDeletionRecoveryLevel : ptr string -> ptr string.
Variable ParseID : ptr string -> ptr string * ptr string * ptr string.

(** X6. Attributes converted by [keyPropertiesFromGenerated] come back from
    [Properties.toGenerated] with every field as it was, the recovery level
    being passed through [toGeneratedDeletionRecoveryLevel]; nil attributes
    do not come back as nil but as attributes that are not nil. *)
Theorem key_attributes_roundtrip
    (i : ptr azkeys.generated.KeyAttributes.t)
    (id name version : ptr string) (managed : ptr bool) (vaultURL : ptr string)
    (tags : strmap (ptr string))
    (releasePolicy : ptr azkeys.generated.KeyReleasePolicy.t)
    (p : ptr azkeys.Properties.t) :
  azkeys.keyPropertiesFromGenerated
    i id name version managed vaultURL tags releasePolicy = Returns p ->
  (forall a,
      i = Some a ->
      azkeys.Properties_toGenerated toGeneratedDeletionRecoveryLevel p
      = Some (azkeys.generated.KeyAttributes.mk
                (azkeys.generated.KeyAttributes.Created a)
                (azkeys.generated.KeyAttributes.Enabled a)
                (azkeys.generated.KeyAttributes.Expires a)
                (azkeys.generated.KeyAttributes.Exportable a)
                (azkeys.generated.KeyAttributes.NotBefore a)
                (azkeys.generated.KeyAttributes.RecoverableDays a)
                (toGeneratedDeletionRecoveryLevel
                   (azkeys.generated.KeyAttributes.RecoveryLevel a))
                (azkeys.generated.KeyAttributes.Updated a)))
  /\ (forall a,
        i = Some a ->
        toGeneratedDeletionRecoveryLevel
          (azkeys.generated.KeyAttributes.RecoveryLevel a)
        = azkeys.generated.KeyAttributes.RecoveryLevel a ->
        azkeys.Properties_toGenerated toGeneratedDeletionRecoveryLevel p = i)
  /\ (i = None ->
      azkeys.Properties_toGenerated toGeneratedDeletionRecoveryLevel p <> None).
Proof.
  intros E. split; [| split].
  - intros a ->. simpl in E.
    destruct a as [? ? ? ? ? ? [level|] ?]; simpl in E; inversion E; subst.
    reflexivity.
  - intros a -> Hconv. simpl in E.
    destruct a as [? ? ? ? ? ? [level|] ?]; simpl in *; inversion E; subst.
    simpl. now rewrite Hconv.
  - intros ->. simpl in E. inversion E; subst. discriminate.
Qed.

(** X7. [keyItemFromGenerated] gives nil for nil; for an item without
    attributes it returns properties that are empty, so the [Managed] flag
    and the tags of the item are dropped; for an item with attributes it
    returns exactly when the recovery level is set, and the properties then
    carry the flag and the tags. The identifier is kept and the name is the
    second part of the parsed identifier. *)
Theorem keyItemFromGenerated_cases (i : azkeys.generated.KeyItem.t) :
  let run := azkeys.keyItemFromGenerated ParseID (Some i) in
  let name := snd (fst (ParseID (azkeys.generated.KeyItem.Kid i))) in
  azkeys.keyItemFromGenerated ParseID None = Returns None
  /\ (azkeys.generated.KeyItem.Attributes i = None ->
      run = Returns (Some (azkeys.KeyItem.mk
                             (Some azkeys.Properties.zero)
                             (azkeys.generated.KeyItem.Kid i) name)))
  /\ (forall a,
        azkeys.generated.KeyItem.Attributes i = Some a ->
        azkeys.generated.KeyAttributes.RecoveryLevel a = None ->
        run = Panics nil_dereference)
  /\ (forall a level,
        azkeys.generated.KeyItem.Attributes i = Some a ->
        azkeys.generated.KeyAttributes.RecoveryLevel a = Some level ->
        exists p,
          run = Returns (Some (azkeys.KeyItem.mk (Some p)
                                 (azkeys.generated.KeyItem.Kid i) name))
          /\ azkeys.Properties.Managed p = azkeys.generated.KeyItem.Managed i
          /\ azkeys.Properties.Tags p = azkeys.generated.KeyItem.Tags i
          /\ azkeys.Properties.RecoveryLevel p = Some level
          /\ azkeys.Properties.ID p = None
          /\ azkeys.Properties.Name p = None).
Proof.
  intros run name. unfold run, name. destruct i as [kid attrs managed tags]; simpl.
  destruct (ParseID kid) as [[vault nm] version]; simpl.
  split; [reflexivity |]. split; [| split].
  - intros ->. reflexivity.
  - intros a -> Hlevel. simpl. now rewrite Hlevel.
  - intros a level -> Hlevel. simpl. rewrite Hlevel. simpl.
    eexists. split; [reflexivity |]. repeat split.
Qed.

(** X8. [deletedKeyItemFromGenerated] returns exactly when
    [keyItemFromGenerated] returns on the same identifier, attributes, flag
    and tags, and the two then agree on the identifier and the name; the
    properties of a deleted item with attributes also carry the identifier
    and the parts [ParseID] splits it into. *)
Theorem deletedKeyItemFromGenerated_agrees (d : azkeys.generated.DeletedKeyItem.t) :
  let i := azkeys.generated.KeyItem.mk
             (azkeys.generated.DeletedKeyItem.Kid d)
             (azkeys.generated.DeletedKeyItem.Attributes d)
             (azkeys.generated.DeletedKeyItem.Managed d)
             (azkeys.generated.DeletedKeyItem.Tags d) in
  let parts := ParseID (azkeys.generated.DeletedKeyItem.Kid d) in
  returned (azkeys.deletedKeyItemFromGenerated ParseID (Some d))
  = returned (azkeys.keyItemFromGenerated ParseID (Some i))
  /\ (forall item,
        azkeys.deletedKeyItemFromGenerated ParseID (Some d) = Returns item ->
        exists deleted key,
          item = Some deleted
          /\ azkeys.keyItemFromGenerated ParseID (Some i) = Returns (Some key)
          /\ azkeys.DeletedKeyItem.ID deleted = azkeys.KeyItem.ID key
          /\ azkeys.DeletedKeyItem.Name deleted = azkeys.KeyItem.Name key
          /\ azkeys.DeletedKeyItem.RecoveryID deleted
             = azkeys.generated.DeletedKeyItem.RecoveryID d
          /\ (forall a p,
                azkeys.generated.DeletedKeyItem.Attributes d = Some a ->
                azkeys.DeletedKeyItem.Properties deleted = Some p ->
                azkeys.Properties.ID p = azkeys.generated.DeletedKeyItem.Kid d
                /\ azkeys.Properties.VaultURL p = fst (fst parts)
                /\ azkeys.Properties.Name p = snd (fst parts)
                /\ azkeys.Properties.Version p = snd parts)).
Proof.
  intros i parts. unfold i, parts.
  destruct d as [kid attrs managed tags rid ddate purge]; simpl.
  destruct (ParseID kid) as [[vault nm] version]; simpl.
  destruct attrs as [[? ? ? ? ? ? [level|] ?]|]; simpl.
  - split; [reflexivity |]. intros item E. inversion E; subst.
    eexists; eexists. split; [reflexivity |]. split; [reflexivity |].
    split; [reflexivity |]. split; [reflexivity |]. split; [reflexivity |].
    intros attrs' p' _ Hp. inversion Hp; subst. simpl. repeat split.
  - split; [reflexivity |]. intros item E. discriminate.
  - split; [reflexivity |]. intros item E. inversion E; subst.
    eexists; eexists. split; [reflexivity |]. split; [reflexivity |].
    split; [reflexivity |]. split; [reflexivity |]. split; [reflexivity |].
    intros attrs' p' Ha. discriminate.
Qed.

End KeyConversions.

(** ** azsecrets: secret attributes and items *)

Section SecretConversions.
Variable ParseID : ptr string -> ptr string * ptr string * ptr string.

(** X9. Secret attributes survive [secretPropertiesFromGenerated] followed
    by [Properties.toGenerated] unchanged, whatever identifier, content
    type, key identifier, flag and tags go with them, and nil attributes
    come back as nil. *)
Theorem secret_attributes_roundtrip
    (i : ptr azsecrets.generated.SecretAttributes.t)
    (ID contentType keyID : ptr string) (managed : ptr bool)
    (tags : strmap (ptr string)) :
  azsecrets.Properties_toGenerated
    (azsecrets.secretPropertiesFromGenerated ParseID i ID contentType keyID
       managed tags)
  = i.
Proof.
  destruct i as [[? ? ? ? ? ? ?]|]; simpl; [| reflexivity].
  destruct (ParseID ID) as [[vault name] version]. reflexivity.
Qed.

(** X10. [secretItemFromGenerated] and [deletedSecretItemFromGenerated] give
    nil for nil; an item has properties exactly when it has attributes; and
    on the same identifier, attributes, content type, flag and tags the two
    conversions produce the same properties, identifier and name, the name
    being the one inside the properties. *)
Theorem secret_item_conversions_agree (d : azsecrets.generated.DeletedSecretItem.t) :
  let i := azsecrets.generated.SecretItem.mk
             (azsecrets.generated.DeletedSecretItem.Attributes d)
             (azsecrets.generated.DeletedSecretItem.ID d)
             (azsecrets.generated.DeletedSecretItem.ContentType d)
             (azsecrets.generated.DeletedSecretItem.Managed d)
             (azsecrets.generated.DeletedSecretItem.Tags d) in
  azsecrets.secretItemFromGenerated ParseID None = None
  /\ azsecrets.deletedSecretItemFromGenerated ParseID None = None
  /\ exists item deleted,
       azsecrets.secretItemFromGenerated ParseID (Some i) = Some item
       /\ azsecrets.deletedSecretItemFromGenerated ParseID (Some d) = Some deleted
       /\ azsecrets.DeletedSecretItem.Properties deleted
          = azsecrets.SecretItem.Properties item
       /\ azsecrets.DeletedSecretItem.ID deleted = azsecrets.SecretItem.ID item
       /\ azsecrets.DeletedSecretItem.Name deleted = azsecrets.SecretItem.Name item
       /\ (azsecrets.SecretItem.Properties item = None
           <-> azsecrets.generated.DeletedSecretItem.Attributes d = None)
       /\ (forall p,
             azsecrets.SecretItem.Properties item = Some p ->
             azsecrets.Properties.Name p = azsecrets.SecretItem.Name item
             /\ azsecrets.Properties.Managed p
                = azsecrets.generated.DeletedSecretItem.Managed d
             /\ azsecrets.Properties.Tags p
                = azsecrets.generated.DeletedSecretItem.Tags d).
Proof.
  intros i. unfold i.
  destruct d as [attrs id ct managed tags rid ddate purge]; simpl.
  split; [reflexivity |]. split; [reflexivity |].
  destruct (ParseID id) as [[vault name] version] eqn:Hid.
  eexists; eexists. split; [reflexivity |]. split; [reflexivity |]. simpl.
  split; [reflexivity |]. split; [reflexivity |]. split; [reflexivity |].
  destruct attrs as [a|]; simpl; rewrite ?Hid.
  - split; [split; discriminate |].
    intros p Hp. inversion Hp; subst. simpl. repeat split.
  - split; [split; reflexivity |]. intros p Hp. discriminate.
Qed.

End SecretConversions.

Lemma RotationPolicy_toGenerated_result_witness :
  exists la,
    azkeys.generated.KeyRotationPolicy.LifetimeActions
      (azkeys.generated.KeyRotationPolicy.mk
         (Some "https://vault.example/keys/key-1/rotationpolicy")
         (Some [Some (azkeys.generated.LifetimeActions.mk
                        (Some (azkeys.generated.LifetimeActionsType.mk (Some "Rotate")))
                        (Some (azkeys.generated.LifetimeActionsTrigger.mk
                                 (Some "P90D") None)));
                None])
         None)
    = Some la
    /\ List.length la = len (azkeys.RotationPolicy.LifetimeActions samples.rotation_policy)
    /\ traverse azkeys.lifetimeActionsFromGenerated la
       = Returns (elems (azkeys.RotationPolicy.LifetimeActions samples.rotation_policy)).
Proof.
  exact (proj2 (proj2
    (RotationPolicy_toGenerated_result samples.rotation_policy _ eq_refl))).
Defined.

Lemma key_attributes_roundtrip_witness :
  azkeys.Properties_toGenerated (fun level => level)
    (Some (azkeys.Properties.mk
             None (Some true) None None None None None None (Some 90%Z)
             (Some "Recoverable+Purgeable") None None None None None))
  = Some samples.attributes_with_level.
Proof.
  exact (proj1 (proj2
    (key_attributes_roundtrip (fun level => level)
       (Some samples.attributes_with_level) None None None None None None None
       _ eq_refl)) samples.attributes_with_level eq_refl eq_refl).
Defined.

(** ** azcertificates: failures, pages and issuers *)

Section CertificateClientFailures.
Import azcertificates.
Context `{Mo : Models} `{Sv : !Service}.
Context `{Rc : !Runtime beginCreateCertificateOperation CreateCertificateResponse}.
Context `{Rd : !Runtime beginDeleteCertificateOperation DeleteCertificateResponse}.
Context `{Rr : !Runtime beginRecoverDeletedCertificate RecoverDeletedCertificateResponse}.

(** X11. When the initiating request of [BeginCreateCertificate] fails, the
    call returns that error and no poller, and the initiating request is
    the only thing it sent. *)
Theorem BeginCreateCertificate_initiating_failure
    (c : Client) (certificateName : string) (policy : Policy)
    (options : ptr BeginCreateCertificateOptions.t) (log : Log) (e : go_error) :
  let opts := default BeginCreateCertificateOptions.zero options in
  let parameters := BeginCreateCertificate_parameters policy opts in
  BeginCreateCertificateOptions.ResumeToken opts = "" ->
  Reply.err (CreateCertificate_reply log (vaultURL c) certificateName parameters)
  = Some e ->
  BeginCreateCertificate c certificateName policy options log
  = (Returns (None, Some e),
     log ++ [CallCreateCertificate (vaultURL c) certificateName parameters]).
Proof.
  intros opts parameters Htoken Herr.
  unfold BeginCreateCertificate. fold opts. rewrite Htoken. simpl.
  unfold bind, genClient_CreateCertificate, send. fold parameters.
  now rewrite Herr.
Qed.

(** X12. When the initiating request of [BeginDeleteCertificate] or of
    [BeginRecoverDeletedCertificate] fails, the call returns that error and
    no poller, and the initiating request is the only thing it sent. *)
Theorem BeginDelete_BeginRecover_initiating_failure
    (c : Client) (certificateName : string) (log : Log) :
  (forall (options : ptr BeginDeleteCertificateOptions.t) (e : go_error),
      BeginDeleteCertificateOptions.ResumeToken
        (default BeginDeleteCertificateOptions.zero options) = "" ->
      Reply.err (DeleteCertificate_reply log (vaultURL c) certificateName) = Some e ->
      BeginDeleteCertificate c certificateName options log
      = (Returns (None, Some e),
         log ++ [CallDeleteCertificate (vaultURL c) certificateName]))
  /\ (forall (options : ptr BeginRecoverDeletedCertificateOptions.t) (e : go_error),
        BeginRecoverDeletedCertificateOptions.ResumeToken
          (default BeginRecoverDeletedCertificateOptions.zero options) = "" ->
        Reply.err (RecoverDeletedCertificate_reply log (vaultURL c) certificateName)
        = Some e ->
        BeginRecoverDeletedCertificate c certificateName options log
        = (Returns (None, Some e),
           log ++ [CallRecoverDeletedCertificate (vaultURL c) certificateName])).
Proof.
  split.
  - intros options e Htoken Herr.
    unfold BeginDeleteCertificate. rewrite Htoken. simpl.
    unfold bind, genClient_DeleteCertificate, send. now rewrite Herr.
  - intros options e Htoken Herr.
    unfold BeginRecoverDeletedCertificate. rewrite Htoken. simpl.
    unfold bind, genClient_RecoverDeletedCertificate, send. now rewrite Herr.
Qed.

(** X13. A poll closure whose request cannot be built returns the error of
    the constructor and no response, and sends nothing; otherwise it sends
    exactly one request through the pipeline and returns what the pipeline
    answers. *)
Theorem poll_closures_send_at_most_one_request
    (c : Client) (certificateName endpoint : string) (log : Log) :
  let create := BeginCreateCertificate_poll c endpoint in
  let delete := BeginDeleteCertificate_poll c certificateName in
  let recover := BeginRecoverDeletedCertificate_poll c certificateName in
  (match NewRequest_error http.MethodGet endpoint with
   | Some e => create log = (Returns (None, Some e), log)
   | None =>
       create log
       = (Returns (Do_reply log (http.Request.mk http.MethodGet endpoint)),
          log ++ [CallPipelineDo (http.Request.mk http.MethodGet endpoint)])
   end)
  /\ (match GetDeletedCertificateCreateRequest (vaultURL c) certificateName with
      | inr e => delete log = (Returns (None, Some e), log)
      | inl req => delete log = (Returns (Do_reply log req), log ++ [CallPipelineDo req])
      end)
  /\ (match GetCertificateCreateRequest (vaultURL c) certificateName "" with
      | inr e => recover log = (Returns (None, Some e), log)
      | inl req => recover log = (Returns (Do_reply log req), log ++ [CallPipelineDo req])
      end)
  /\ (List.length (sent create log) <= 1
      /\ List.length (sent delete log) <= 1
      /\ List.length (sent recover log) <= 1)%nat.
Proof.
  intros create delete recover.
  assert (Hc : match NewRequest_error http.MethodGet endpoint with
               | Some e => create log = (Returns (None, Some e), log)
               | None =>
                   create log
                   = (Returns (Do_reply log (http.Request.mk http.MethodGet endpoint)),
                      log ++ [CallPipelineDo
                                (http.Request.mk http.MethodGet endpoint)])
               end).
  { unfold create, BeginCreateCertificate_poll, runtime_NewRequest.
    destruct (NewRequest_error http.MethodGet endpoint); reflexivity. }
  assert (Hd : match GetDeletedCertificateCreateRequest (vaultURL c) certificateName with
               | inr e => delete log = (Returns (None, Some e), log)
               | inl req =>
                   delete log = (Returns (Do_reply log req), log ++ [CallPipelineDo req])
               end).
  { unfold delete, BeginDeleteCertificate_poll.
    destruct (GetDeletedCertificateCreateRequest (vaultURL c) certificateName);
      reflexivity. }
  assert (Hr : match GetCertificateCreateRequest (vaultURL c) certificateName "" with
               | inr e => recover log = (Returns (None, Some e), log)
               | inl req =>
                   recover log = (Returns (Do_reply log req), log ++ [CallPipelineDo req])
               end).
  { unfold recover, BeginRecoverDeletedCertificate_poll.
    destruct (GetCertificateCreateRequest (vaultURL c) certificateName "");
      reflexivity. }
  split; [exact Hc |]. split; [exact Hd |]. split; [exact Hr |].
  split; [| split].
  - destruct (NewRequest_error http.MethodGet endpoint).
    + rewrite (sent_nothing _ _ _ Hc). simpl. lia.
    + rewrite (sent_append _ _ _ _ Hc). simpl. lia.
  - destruct (GetDeletedCertificateCreateRequest (vaultURL c) certificateName).
    + rewrite (sent_append _ _ _ _ Hd). simpl. lia.
    + rewrite (sent_nothing _ _ _ Hd). simpl. lia.
  - destruct (GetCertificateCreateRequest (vaultURL c) certificateName "").
    + rewrite (sent_append _ _ _ _ Hr). simpl. lia.
    + rewrite (sent_nothing _ _ _ Hr). simpl. lia.
Qed.

End CertificateClientFailures.

Lemma BeginCreateCertificate_initiating_failure_witness :
  azcertificates.BeginCreateCertificate
    (H0 := samples.refusing_service) (R := samples.runtime _ _)
    samples.client "cert1" "policy" None []
  = (Returns (None, Some "Forbidden"),
     [azcertificates.CallCreateCertificate (H := samples.models)
        "https://vault.example" "cert1"
        (azcertificates.generated.CertificateCreateParameters.mk
           (Some "policy") None
           (Some (azcertificates.generated.CertificateAttributes.mk None)))]).
Proof.
  exact (BeginCreateCertificate_initiating_failure
           (Sv := samples.refusing_service) (Rc := samples.runtime _ _)
           samples.client "cert1" "policy" None [] "Forbidden" eq_refl eq_refl).
Defined.

Section CertificatePages.
Import azcertificates.
Context `{Mo : Models}.
Variable ParseID : ptr string -> ptr string * ptr string * ptr string.

Lemma certificateItem_of_returned (v : ptr generated.CertificateItem.t) :
  returned (certificateItem_of v) = non_nil v.
Proof. now destruct v. Qed.

Lemma deletedCertificateItem_of_returned (c : ptr generated.DeletedCertificateItem.t) :
  returned (deletedCertificateItem_of ParseID c) = non_nil c.
Proof.
  destruct c as [c|]; simpl; [| reflexivity].
  unfold deletedCertificateItem_of; simpl.
  now destruct (ParseID (generated.DeletedCertificateItem.ID c)) as [[? ?] ?].
Qed.

Lemma deletedCertificateItem_of_Some (c : generated.DeletedCertificateItem.t) :
  deletedCertificateItem_of ParseID (Some c)
  = Returns (Some (DeletedCertificateItem.mk
      (propertiesFromGenerated
         (generated.DeletedCertificateItem.Attributes c)
         (generated.DeletedCertificateItem.Tags c)
         (generated.DeletedCertificateItem.ID c)
         (generated.DeletedCertificateItem.X509Thumbprint c))
      (generated.DeletedCertificateItem.ID c)
      (snd (fst (ParseID (generated.DeletedCertificateItem.ID c))))
      (generated.DeletedCertificateItem.RecoveryID c)
      (generated.DeletedCertificateItem.DeletedDate c)
      (generated.DeletedCertificateItem.ScheduledPurgeDate c))).
Proof.
  unfold deletedCertificateItem_of; simpl.
  now destruct (ParseID (generated.DeletedCertificateItem.ID c)) as [[? ?] ?].
Qed.

Lemma listCertsPageFromGenerated_run
    (i : generated.KeyVaultClientGetCertificatesResponse.t) :
  listCertsPageFromGenerated i
  = exec_bind
      (traverse certificateItem_of
         (elems (generated.KeyVaultClientGetCertificatesResponse.Value i)))
      (fun items =>
         Returns (ListPropertiesOfCertificatesResponse.mk
                    (match items with [] => None | _ => Some items end)
                    (generated.KeyVaultClientGetCertificatesResponse.NextLink i))).
Proof.
  unfold listCertsPageFromGenerated. rewrite range_append_exec_traverse.
  destruct (traverse certificateItem_of _) as [items|]; simpl; [| reflexivity].
  now destruct items.
Qed.

Lemma listDeletedCertsPageFromGenerated_run
    (g : generated.KeyVaultClientGetDeletedCertificatesResponse.t) :
  listDeletedCertsPageFromGenerated ParseID g
  = exec_bind
      (traverse (deletedCertificateItem_of ParseID)
         (elems (generated.KeyVaultClientGetDeletedCertificatesResponse.Value g)))
      (fun items =>
         Returns (ListDeletedCertificatesResponse.mk
                    (match items with [] => None | _ => Some items end)
                    (generated.KeyVaultClientGetDeletedCertificatesResponse.NextLink g))).
Proof.
  unfold listDeletedCertsPageFromGenerated.
  destruct (generated.KeyVaultClientGetDeletedCertificatesResponse.Value g)
    as [l|]; cbn [len elems]; [| reflexivity].
  rewrite range_assign_exec_make.
  destruct l as [|c rest]; [reflexivity |].
  cbn [List.length Nat.ltb Nat.leb traverse].
  destruct (deletedCertificateItem_of ParseID c) as [b|]; simpl; [| reflexivity].
  now destruct (traverse (deletedCertificateItem_of ParseID) rest).
Qed.

(** X14. [listCertsPageFromGenerated] keeps the link to the next page and
    turns the items of a page into as many certificate items, in order,
    each with the identifier of its item and the properties converted from
    it; a page without items gives a nil slice, never an empty one that is
    not nil. [listCertificateVersionsPageFromGenerated] does the same. *)
Theorem listCertsPageFromGenerated_keeps_items
    (i : generated.KeyVaultClientGetCertificatesResponse.t)
    (page : ListPropertiesOfCertificatesResponse.t Properties) :
  listCertsPageFromGenerated i = Returns page ->
  let value := generated.KeyVaultClientGetCertificatesResponse.Value i in
  let certificates := ListPropertiesOfCertificatesResponse.Certificates page in
  ListPropertiesOfCertificatesResponse.NextLink page
  = generated.KeyVaultClientGetCertificatesResponse.NextLink i
  /\ len certificates = len value
  /\ (certificates = None <-> len value = 0%nat)
  /\ Forall2
       (fun v item =>
          exists v' item',
            v = Some v' /\ item = Some item'
            /\ CertificateItem.ID item' = generated.CertificateItem.ID v'
            /\ CertificateItem.Properties item'
               = propertiesFromGenerated
                   (generated.CertificateItem.Attributes v')
                   (generated.CertificateItem.Tags v')
                   (generated.CertificateItem.ID v')
                   (generated.CertificateItem.X509Thumbprint v'))
       (elems value) (elems certificates)
  /\ listCertificateVersionsPageFromGenerated
       (generated.KeyVaultClientGetCertificateVersionsResponse.mk value
          (generated.KeyVaultClientGetCertificatesResponse.NextLink i))
     = Returns page.
Proof.
  intros E value certificates.
  assert (Eversions :
            listCertificateVersionsPageFromGenerated
              (generated.KeyVaultClientGetCertificateVersionsResponse.mk value
                 (generated.KeyVaultClientGetCertificatesResponse.NextLink i))
            = Returns page) by exact E.
  rewrite listCertsPageFromGenerated_run in E. fold value in E.
  destruct (traverse certificateItem_of (elems value)) as [items|] eqn:Et;
    simpl in E; [| discriminate].
  inversion E; subst page; clear E. unfold certificates; clear certificates; simpl.
  pose proof (traverse_length _ _ _ Et) as Hlen.
  assert (Hlen' : List.length (elems value) = len value)
    by (now destruct value).
  assert (Hall : Forall2
            (fun v item =>
               exists v' item',
                 v = Some v' /\ item = Some item'
                 /\ CertificateItem.ID item' = generated.CertificateItem.ID v'
                 /\ CertificateItem.Properties item'
                    = propertiesFromGenerated
                        (generated.CertificateItem.Attributes v')
                        (generated.CertificateItem.Tags v')
                        (generated.CertificateItem.ID v')
                        (generated.CertificateItem.X509Thumbprint v'))
            (elems value) items).
  { clear Hlen Hlen' Eversions. revert items Et.
    induction (elems value) as [|v rest IH]; simpl; intros items Et.
    - inversion Et. constructor.
    - destruct v as [v'|]; simpl in Et; [| discriminate].
      destruct (traverse certificateItem_of rest) as [items'|]; simpl in Et;
        [| discriminate].
      inversion Et; subst. constructor; [| now apply IH].
      eexists; eexists. repeat split. }
  split; [reflexivity |]. split; [| split; [| split]].
  - destruct items; simpl in *; lia.
  - destruct items; simpl in *; split; intros; try reflexivity;
      try discriminate; lia.
  - now destruct items.
  - exact Eversions.
Qed.

(** X15. [listDeletedCertsPageFromGenerated] keeps the link to the next
    page and turns the items of a page into as many deleted certificate
    items, in order, each with the identifier, recovery identifier and
    dates of its item and with the second part of the parsed identifier for
    a name; a page without items gives a nil slice. *)
Theorem listDeletedCertsPageFromGenerated_keeps_items
    (g : generated.KeyVaultClientGetDeletedCertificatesResponse.t)
    (page : ListDeletedCertificatesResponse.t Properties) :
  listDeletedCertsPageFromGenerated ParseID g = Returns page ->
  let value := generated.KeyVaultClientGetDeletedCertificatesResponse.Value g in
  let deleted := ListDeletedCertificatesResponse.DeletedCertificates page in
  ListDeletedCertificatesResponse.NextLink page
  = generated.KeyVaultClientGetDeletedCertificatesResponse.NextLink g
  /\ len deleted = len value
  /\ (deleted = None <-> len value = 0%nat)
  /\ Forall2
       (fun c item =>
          exists c' item',
            c = Some c' /\ item = Some item'
            /\ DeletedCertificateItem.ID item' = generated.DeletedCertificateItem.ID c'
            /\ DeletedCertificateItem.Name item'
               = snd (fst (ParseID (generated.DeletedCertificateItem.ID c')))
            /\ DeletedCertificateItem.RecoveryID item'
               = generated.DeletedCertificateItem.RecoveryID c'
            /\ DeletedCertificateItem.DeletedOn item'
               = generated.DeletedCertificateItem.DeletedDate c'
            /\ DeletedCertificateItem.ScheduledPurgeDate item'
               = generated.DeletedCertificateItem.ScheduledPurgeDate c')
       (elems value) (elems deleted).
Proof.
  intros E value deleted.
  rewrite listDeletedCertsPageFromGenerated_run in E. fold value in E.
  destruct (traverse (deletedCertificateItem_of ParseID) (elems value))
    as [items|] eqn:Et; simpl in E; [| discriminate].
  inversion E; subst page; clear E. unfold deleted; clear deleted; simpl.
  pose proof (traverse_length _ _ _ Et) as Hlen.
  assert (Hlen' : List.length (elems value) = len value)
    by (now destruct value).
  assert (Hall : Forall2
            (fun c item =>
               exists c' item',
                 c = Some c' /\ item = Some item'
                 /\ DeletedCertificateItem.ID item'
                    = generated.DeletedCertificateItem.ID c'
                 /\ DeletedCertificateItem.Name item'
                    = snd (fst (ParseID (generated.DeletedCertificateItem.ID c')))
                 /\ DeletedCertificateItem.RecoveryID item'
                    = generated.DeletedCertificateItem.RecoveryID c'
                 /\ DeletedCertificateItem.DeletedOn item'
                    = generated.DeletedCertificateItem.DeletedDate c'
                 /\ DeletedCertificateItem.ScheduledPurgeDate item'
                    = generated.DeletedCertificateItem.ScheduledPurgeDate c')
            (elems value) items).
  { clear Hlen Hlen'. revert items Et.
    induction (elems value) as [|c rest IH]; simpl; intros items Et.
    - inversion Et. constructor.
    - destruct c as [c'|]; [| discriminate].
      rewrite deletedCertificateItem_of_Some in Et. simpl in Et.
      destruct (traverse (deletedCertificateItem_of ParseID) rest) as [items'|];
        simpl in Et; [| discriminate].
      inversion Et; subst. constructor; [| now apply IH].
      eexists; eexists. split; [reflexivity |]. split; [reflexivity |].
      simpl. repeat split. }
  split; [reflexivity |]. split; [| split].
  - destruct items; simpl in *; lia.
  - destruct items; simpl in *; split; intros; try reflexivity;
      try discriminate; lia.
  - now destruct items.
Qed.

Lemma certificate_items_returned (l : list (ptr generated.CertificateItem.t)) :
  returned (traverse certificateItem_of l) = forallb non_nil l.
Proof.
  rewrite traverse_returned.
  induction l as [|v rest IH]; cbn [forallb]; [reflexivity |].
  now rewrite certificateItem_of_returned, IH.
Qed.

Lemma deleted_items_returned (l : list (ptr generated.DeletedCertificateItem.t)) :
  returned (traverse (deletedCertificateItem_of ParseID) l) = forallb non_nil l.
Proof.
  rewrite traverse_returned.
  induction l as [|v rest IH]; cbn [forallb]; [reflexivity |].
  now rewrite deletedCertificateItem_of_returned, IH.
Qed.

(** X16. The three page conversions return exactly when no item of the page
    is nil, and panic with a nil dereference as soon as one is. *)
Theorem page_conversions_panic_on_nil_item
    (value : slice (ptr generated.CertificateItem.t))
    (deletedValue : slice (ptr generated.DeletedCertificateItem.t))
    (next : ptr string) :
  let certs :=
    listCertsPageFromGenerated
      (generated.KeyVaultClientGetCertificatesResponse.mk value next) in
  let versions :=
    listCertificateVersionsPageFromGenerated
      (generated.KeyVaultClientGetCertificateVersionsResponse.mk value next) in
  let deleted :=
    listDeletedCertsPageFromGenerated ParseID
      (generated.KeyVaultClientGetDeletedCertificatesResponse.mk deletedValue next) in
  returned certs = forallb non_nil (elems value)
  /\ returned versions = returned certs
  /\ returned deleted
     = forallb non_nil (elems deletedValue)
  /\ (returned certs = false ->
      certs = Panics nil_dereference /\ versions = Panics nil_dereference)
  /\ (returned deleted = false -> deleted = Panics nil_dereference).
Proof.
  intros certs versions deleted.
  assert (Hv : versions = certs) by reflexivity.
  rewrite Hv. clear Hv versions. unfold certs, deleted. clear certs deleted.
  rewrite listCertsPageFromGenerated_run, listDeletedCertsPageFromGenerated_run.
  cbn [generated.KeyVaultClientGetCertificatesResponse.Value
       generated.KeyVaultClientGetDeletedCertificatesResponse.Value].
  pose proof (certificate_items_returned (elems value)) as Hc.
  pose proof (deleted_items_returned (elems deletedValue)) as Hd.
  assert (Pc : returned (traverse certificateItem_of (elems value)) = false ->
               traverse certificateItem_of (elems value) = Panics nil_dereference).
  { apply traverse_panics. intros [v|]; simpl; [discriminate | reflexivity]. }
  assert (Pd : returned (traverse (deletedCertificateItem_of ParseID)
                           (elems deletedValue)) = false ->
               traverse (deletedCertificateItem_of ParseID) (elems deletedValue)
               = Panics nil_dereference).
  { apply traverse_panics.
    intros [v|]; [rewrite deletedCertificateItem_of_Some; discriminate |].
    reflexivity. }
  revert Hc Hd Pc Pd.
  destruct (traverse certificateItem_of (elems value)) as [items|r];
    destruct (traverse (deletedCertificateItem_of ParseID) (elems deletedValue))
      as [ditems|r']; simpl; intros Hc Hd Pc Pd.
  - split; [exact Hc |]. split; [reflexivity |]. split; [exact Hd |].
    split; discriminate.
  - split; [exact Hc |]. split; [reflexivity |]. split; [exact Hd |].
    split; [discriminate |]. intros _. injection (Pd eq_refl) as ->. reflexivity.
  - split; [exact Hc |]. split; [reflexivity |]. split; [exact Hd |].
    split; [| discriminate]. intros _. injection (Pc eq_refl) as ->.
    split; reflexivity.
  - split; [exact Hc |]. split; [reflexivity |]. split; [exact Hd |].
    split.
    + intros _. injection (Pc eq_refl) as ->. split; reflexivity.
    + intros _. injection (Pd eq_refl) as ->. reflexivity.
Qed.

End CertificatePages.

Lemma listCertsPageFromGenerated_keeps_items_witness :
  len (azcertificates.ListPropertiesOfCertificatesResponse.Certificates
         (azcertificates.ListPropertiesOfCertificatesResponse.mk
            (Properties_t := @azcertificates.Properties samples.models)
            (Some [Some (azcertificates.CertificateItem.mk
                           (Some "https://vault.example/certificates/a")
                           (Some "https://vault.example/certificates/a"));
                   Some (azcertificates.CertificateItem.mk
                           (Some "https://vault.example/certificates/b")
                           (Some "https://vault.example/certificates/b"))])
            (Some "https://vault.example/certificates?skiptoken=2")))
  = len (azcertificates.generated.KeyVaultClientGetCertificatesResponse.Value
           samples.certificates_page).
Proof.
  exact (proj1 (proj2
    (listCertsPageFromGenerated_keeps_items (Mo := samples.models)
       samples.certificates_page _ eq_refl))).
Defined.

Lemma listDeletedCertsPageFromGenerated_keeps_items_witness :
  len (azcertificates.ListDeletedCertificatesResponse.DeletedCertificates
         (azcertificates.ListDeletedCertificatesResponse.mk
            (Properties_t := @azcertificates.Properties samples.models)
            (Some [Some (azcertificates.DeletedCertificateItem.mk
                           (Some "https://vault.example/deletedcertificates/a")
                           (Some "https://vault.example/deletedcertificates/a")
                           None None None None);
                   Some (azcertificates.DeletedCertificateItem.mk
                           (Some "https://vault.example/deletedcertificates/b")
                           (Some "https://vault.example/deletedcertificates/b")
                           None None None None)])
            None))
  = len (azcertificates.generated.KeyVaultClientGetDeletedCertificatesResponse.Value
           samples.deleted_certificates_page).
Proof.
  exact (proj1 (proj2
    (listDeletedCertsPageFromGenerated_keeps_items (Mo := samples.models)
       samples.ParseID samples.deleted_certificates_page _ eq_refl))).
Defined.

(** ** azcertificates: issuers *)

Section CertificateIssuers.
Import azcertificates.
Variable IssuerCredentials : Type.
Variable generated_IssuerCredentials : Type.
Variable IssuerCredentials_toGenerated :
  ptr IssuerCredentials -> ptr generated_IssuerCredentials.
Variable issuerCredentialsFromGenerated :
  ptr generated_IssuerCredentials -> ptr IssuerCredentials.
Variable ParseID : ptr string -> ptr string * ptr string * ptr string.

Lemma administrator_conversions_inverse
    (x : ptr AdministratorContact.t) (y : ptr generated.AdministratorDetails.t) :
  administratorDetails_of x = Returns y -> administratorContact_of y = Returns x.
Proof.
  destruct x as [[? ? ? ?]|]; simpl; intros E; inversion E; reflexivity.
Qed.

Lemma administrator_details_returned (l : list (ptr AdministratorContact.t)) :
  returned (traverse administratorDetails_of l) = forallb non_nil l.
Proof.
  rewrite traverse_returned.
  induction l as [|v rest IH]; cbn [forallb]; [reflexivity |].
  rewrite IH. now destruct v.
Qed.

Lemma administrator_details_panic (l : list (ptr AdministratorContact.t)) :
  returned (traverse administratorDetails_of l) = false ->
  traverse administratorDetails_of l = Panics nil_dereference.
Proof.
  apply traverse_panics. intros [v|]; simpl; [discriminate | reflexivity].
Qed.

(** The organization details, by cases on what they are built from. *)
Lemma organization_details_run (organizationID : ptr string)
    (contacts : slice (ptr AdministratorContact.t)) :
  organization_details organizationID contacts
  = exec_bind
      (match contacts with
       | Some l =>
           exec_bind (traverse administratorDetails_of l)
             (fun a => Returns (Some a))
       | None => Returns None
       end)
      (fun admin =>
         Returns (match contacts, organizationID with
                  | None, None => None
                  | _, _ =>
                      Some (generated.OrganizationDetails.mk admin organizationID)
                  end)).
Proof.
  unfold organization_details.
  destruct contacts as [l|], organizationID as [id|]; simpl; try reflexivity.
  - rewrite range_assign_exec_make.
    now destruct (traverse administratorDetails_of l).
  - rewrite range_assign_exec_make.
    now destruct (traverse administratorDetails_of l).
Qed.

Lemma organization_details_returned (organizationID : ptr string)
    (contacts : slice (ptr AdministratorContact.t)) :
  returned (organization_details organizationID contacts)
  = forallb non_nil (elems contacts)
  /\ (returned (organization_details organizationID contacts) = false ->
      organization_details organizationID contacts = Panics nil_dereference).
Proof.
  rewrite organization_details_run.
  destruct contacts as [l|]; simpl.
  - pose proof (administrator_details_returned l) as Hr.
    pose proof (administrator_details_panic l) as Hp.
    destruct (traverse administratorDetails_of l) as [a|r]; simpl in *.
    + split; [exact Hr | discriminate].
    + split; [exact Hr |]. intros _. injection (Hp eq_refl) as ->. reflexivity.
  - split; [reflexivity | discriminate].
Qed.

(** What organization details built without a panic look like. *)
Lemma organization_details_shape (organizationID : ptr string)
    (contacts : slice (ptr AdministratorContact.t))
    (od : ptr generated.OrganizationDetails.t) :
  organization_details organizationID contacts = Returns od ->
  (od = None <-> organizationID = None /\ contacts = None)
  /\ (forall o,
        od = Some o ->
        generated.OrganizationDetails.ID o = organizationID
        /\ adminDetails_of o = Returns contacts).
Proof.
  rewrite organization_details_run.
  destruct contacts as [l|]; simpl.
  - destruct (traverse administratorDetails_of l) as [a|] eqn:Et; simpl;
      [| discriminate].
    intros E. inversion E; subst. split.
    + split; [discriminate | intros [_ H]; discriminate].
    + intros o Ho. inversion Ho; subst. simpl. split; [reflexivity |].
      unfold adminDetails_of; simpl. rewrite range_assign_exec_make.
      rewrite (traverse_inverse administratorDetails_of administratorContact_of
                 l administrator_conversions_inverse a Et).
      reflexivity.
  - destruct organizationID as [id|]; simpl; intros E; inversion E; subst.
    + split; [split; [discriminate | intros [H _]; discriminate] |].
      intros o Ho. inversion Ho; subst. split; reflexivity.
    + split; [split; [intros _; split; reflexivity | reflexivity] |].
      intros o Ho. discriminate.
Qed.

(** X17. When [Issuer.toUpdateParameters] returns on an issuer, the
    parameters keep the provider and the converted credentials; they have
    attributes exactly when [Enabled] is set, and organization details
    exactly when the organization identifier or the administrator contacts
    are set; the organization details carry the identifier and convert back
    to the contacts of the issuer, nil included. A nil issuer gives empty
    parameters. *)
Theorem Issuer_toUpdateParameters_shape
    (i : Issuer.t IssuerCredentials)
    (parameters :
       generated.CertificateIssuerUpdateParameters.t generated_IssuerCredentials) :
  Issuer_toUpdateParameters IssuerCredentials generated_IssuerCredentials
    IssuerCredentials_toGenerated (Some i) = Returns parameters ->
  Issuer_toUpdateParameters IssuerCredentials generated_IssuerCredentials
    IssuerCredentials_toGenerated None
  = Returns generated.CertificateIssuerUpdateParameters.zero
  /\ generated.CertificateIssuerUpdateParameters.Provider parameters
     = Issuer.Provider i
  /\ generated.CertificateIssuerUpdateParameters.Credentials parameters
     = IssuerCredentials_toGenerated (Issuer.Credentials i)
  /\ (generated.CertificateIssuerUpdateParameters.Attributes parameters = None
      <-> Issuer.Enabled i = None)
  /\ (forall a,
        generated.CertificateIssuerUpdateParameters.Attributes parameters = Some a ->
        generated.IssuerAttributes.Enabled a = Issuer.Enabled i)
  /\ (generated.CertificateIssuerUpdateParameters.OrganizationDetails parameters
      = None
      <-> Issuer.OrganizationID i = None /\ Issuer.AdministratorContacts i = None)
  /\ (forall o,
        generated.CertificateIssuerUpdateParameters.OrganizationDetails parameters
        = Some o ->
        generated.OrganizationDetails.ID o = Issuer.OrganizationID i
        /\ adminDetails_of o = Returns (Issuer.AdministratorContacts i)).
Proof.
  unfold Issuer_toUpdateParameters.
  destruct (organization_details (Issuer.OrganizationID i)
              (Issuer.AdministratorContacts i)) as [od|] eqn:Eo; simpl;
    [| discriminate].
  intros E. inversion E; subst; simpl. clear E.
  destruct (organization_details_shape _ _ _ Eo) as [Hnone Hsome].
  split; [reflexivity |]. split; [reflexivity |]. split; [reflexivity |].
  split; [| split; [| split]].
  - destruct (Issuer.Enabled i); split; intros; try discriminate; reflexivity.
  - destruct (Issuer.Enabled i); intros a Ha; inversion Ha; reflexivity.
  - exact Hnone.
  - exact Hsome.
Qed.

(** X18. [Issuer.toUpdateParameters] and the building of the parameters of
    [CreateIssuer] return exactly when no administrator contact in the list
    is nil, and panic with a nil dereference otherwise. *)
Theorem issuer_parameters_panic_on_nil_contact
    (i : Issuer.t IssuerCredentials) (provider : string)
    (options : CreateIssuerOptions.t IssuerCredentials) :
  let update :=
    Issuer_toUpdateParameters IssuerCredentials generated_IssuerCredentials
      IssuerCredentials_toGenerated (Some i) in
  let create :=
    CreateIssuer_parameters IssuerCredentials generated_IssuerCredentials
      IssuerCredentials_toGenerated provider options in
  returned update = forallb non_nil (elems (Issuer.AdministratorContacts i))
  /\ (returned update = false -> update = Panics nil_dereference)
  /\ returned create
     = forallb non_nil (elems (CreateIssuerOptions.AdministratorContacts options))
  /\ (returned create = false -> create = Panics nil_dereference).
Proof.
  intros update create. unfold update, create,
    Issuer_toUpdateParameters, CreateIssuer_parameters.
  destruct (organization_details_returned (Issuer.OrganizationID i)
              (Issuer.AdministratorContacts i)) as [Hu Pu].
  destruct (organization_details_returned
              (CreateIssuerOptions.OrganizationID options)
              (CreateIssuerOptions.AdministratorContacts options)) as [Hc Pc].
  revert Hu Pu Hc Pc.
  destruct (organization_details (Issuer.OrganizationID i) _) as [ou|ru];
    destruct (organization_details (CreateIssuerOptions.OrganizationID options) _)
      as [oc|rc]; simpl; intros Hu Pu Hc Pc.
  - repeat split; try assumption; discriminate.
  - split; [exact Hu |]. split; [discriminate |]. split; [exact Hc |].
    intros _. injection (Pc eq_refl) as ->. reflexivity.
  - split; [exact Hu |]. split.
    + intros _. injection (Pu eq_refl) as ->. reflexivity.
    + split; [exact Hc | discriminate].
  - split; [exact Hu |]. split.
    + intros _. injection (Pu eq_refl) as ->. reflexivity.
    + split; [exact Hc |]. intros _. injection (Pc eq_refl) as ->. reflexivity.
Qed.

(** The issuer read off a bundle, as [CreateIssuer], [GetIssuer] and
    [UpdateIssuer] each do after a successful call. *)
Lemma GetIssuer_run
    (GetCertificateIssuer :
       string -> string ->
       IssuerBundle generated_IssuerCredentials * error)
    (c : Client) (issuerName : string)
    (resp : IssuerBundle generated_IssuerCredentials) :
  GetCertificateIssuer (vaultURL c) issuerName = (resp, None) ->
  forall contacts,
    match generated.IssuerBundle.OrganizationDetails resp with
    | Some o => adminDetails_of o
    | None => Returns None
    end = Returns contacts ->
    GetIssuer IssuerCredentials generated_IssuerCredentials
      issuerCredentialsFromGenerated ParseID GetCertificateIssuer c issuerName
    = Returns
        (Issuer.mk contacts
           (match generated.IssuerBundle.Attributes resp with
            | Some a => generated.IssuerAttributes.Created a
            | None => None
            end)
           (issuerCredentialsFromGenerated (generated.IssuerBundle.Credentials resp))
           (match generated.IssuerBundle.Attributes resp with
            | Some a => generated.IssuerAttributes.Enabled a
            | None => None
            end)
           (generated.IssuerBundle.ID resp)
           (snd (ParseID (generated.IssuerBundle.ID resp)))
           (match generated.IssuerBundle.OrganizationDetails resp with
            | Some o => generated.OrganizationDetails.ID o
            | None => None
            end)
           (generated.IssuerBundle.Provider resp)
           (match generated.IssuerBundle.Attributes resp with
            | Some a => generated.IssuerAttributes.Updated a
            | None => None
            end),
         None).
Proof.
  intros Hget contacts Hcontacts. unfold GetIssuer. rewrite Hget.
  destruct (ParseID (generated.IssuerBundle.ID resp)) as [[vault nm] version].
  destruct (generated.IssuerBundle.OrganizationDetails resp) as [o|];
    destruct (generated.IssuerBundle.Attributes resp) as [a|];
    simpl in *; rewrite ?Hcontacts; simpl;
    try (inversion Hcontacts; subst); reflexivity.
Qed.

Lemma CreateIssuer_reads_bundle
    (SetCertificateIssuer :
       string -> string ->
       generated.CertificateIssuerSetParameters.t generated_IssuerCredentials ->
       IssuerBundle generated_IssuerCredentials * error)
    (c : Client) (issuerName provider : string)
    (options : ptr (CreateIssuerOptions.t IssuerCredentials))
    (resp : IssuerBundle generated_IssuerCredentials) parameters :
  CreateIssuer_parameters IssuerCredentials generated_IssuerCredentials
    IssuerCredentials_toGenerated provider
    (default CreateIssuerOptions.zero options) = Returns parameters ->
  SetCertificateIssuer (vaultURL c) issuerName parameters = (resp, None) ->
  CreateIssuer IssuerCredentials generated_IssuerCredentials
    IssuerCredentials_toGenerated issuerCredentialsFromGenerated ParseID
    SetCertificateIssuer c issuerName provider options
  = GetIssuer IssuerCredentials generated_IssuerCredentials
      issuerCredentialsFromGenerated ParseID (fun _ _ => (resp, None)) c issuerName.
Proof.
  intros Hparams Hset. unfold CreateIssuer, GetIssuer.
  rewrite Hparams. cbn [exec_bind]. now rewrite Hset.
Qed.

Lemma UpdateIssuer_reads_bundle
    (UpdateCertificateIssuer :
       string -> string ->
       generated.CertificateIssuerUpdateParameters.t generated_IssuerCredentials ->
       IssuerBundle generated_IssuerCredentials * error)
    (c : Client) (issuerName : string)
    (certificateIssuer : Issuer.t IssuerCredentials)
    (resp : IssuerBundle generated_IssuerCredentials) parameters :
  Issuer.Name certificateIssuer = Some issuerName ->
  Issuer_toUpdateParameters IssuerCredentials generated_IssuerCredentials
    IssuerCredentials_toGenerated (Some certificateIssuer) = Returns parameters ->
  UpdateCertificateIssuer (vaultURL c) issuerName parameters = (resp, None) ->
  UpdateIssuer IssuerCredentials generated_IssuerCredentials
    IssuerCredentials_toGenerated issuerCredentialsFromGenerated ParseID
    UpdateCertificateIssuer c certificateIssuer
  = GetIssuer IssuerCredentials generated_IssuerCredentials
      issuerCredentialsFromGenerated ParseID (fun _ _ => (resp, None)) c issuerName.
Proof.
  intros Hname Hparams Hupdate. unfold UpdateIssuer, GetIssuer.
  rewrite Hname. cbn [deref exec_bind]. rewrite Hparams. cbn [exec_bind].
  now rewrite Hupdate.
Qed.

Lemma GetIssuer_reads_bundle
    (GetCertificateIssuer :
       string -> string -> IssuerBundle generated_IssuerCredentials * error)
    (c : Client) (issuerName : string)
    (resp : IssuerBundle generated_IssuerCredentials) :
  GetCertificateIssuer (vaultURL c) issuerName = (resp, None) ->
  GetIssuer IssuerCredentials generated_IssuerCredentials
    issuerCredentialsFromGenerated ParseID GetCertificateIssuer c issuerName
  = GetIssuer IssuerCredentials generated_IssuerCredentials
      issuerCredentialsFromGenerated ParseID (fun _ _ => (resp, None)) c issuerName.
Proof. intros Hget. unfold GetIssuer. now rewrite Hget. Qed.

(** X19. Whatever the service answers to [CreateIssuer], [GetIssuer] and
    [UpdateIssuer], the three read the same issuer off the same bundle: if
    the calls succeed with one bundle, they return the same result. *)
Theorem issuer_operations_agree
    (SetCertificateIssuer :
       string -> string ->
       generated.CertificateIssuerSetParameters.t generated_IssuerCredentials ->
       IssuerBundle generated_IssuerCredentials * error)
    (GetCertificateIssuer :
       string -> string -> IssuerBundle generated_IssuerCredentials * error)
    (UpdateCertificateIssuer :
       string -> string ->
       generated.CertificateIssuerUpdateParameters.t generated_IssuerCredentials ->
       IssuerBundle generated_IssuerCredentials * error)
    (c : Client) (issuerName provider : string)
    (options : ptr (CreateIssuerOptions.t IssuerCredentials))
    (certificateIssuer : Issuer.t IssuerCredentials)
    (resp : IssuerBundle generated_IssuerCredentials) :
  GetCertificateIssuer (vaultURL c) issuerName = (resp, None) ->
  (forall parameters,
      CreateIssuer_parameters IssuerCredentials generated_IssuerCredentials
        IssuerCredentials_toGenerated provider
        (default CreateIssuerOptions.zero options) = Returns parameters ->
      SetCertificateIssuer (vaultURL c) issuerName parameters = (resp, None) ->
      CreateIssuer IssuerCredentials generated_IssuerCredentials
        IssuerCredentials_toGenerated issuerCredentialsFromGenerated ParseID
        SetCertificateIssuer c issuerName provider options
      = GetIssuer IssuerCredentials generated_IssuerCredentials
          issuerCredentialsFromGenerated ParseID GetCertificateIssuer c issuerName)
  /\ (forall parameters,
        Issuer.Name certificateIssuer = Some issuerName ->
        Issuer_toUpdateParameters IssuerCredentials generated_IssuerCredentials
          IssuerCredentials_toGenerated (Some certificateIssuer)
        = Returns parameters ->
        UpdateCertificateIssuer (vaultURL c) issuerName parameters = (resp, None) ->
        UpdateIssuer IssuerCredentials generated_IssuerCredentials
          IssuerCredentials_toGenerated issuerCredentialsFromGenerated ParseID
          UpdateCertificateIssuer c certificateIssuer
        = GetIssuer IssuerCredentials generated_IssuerCredentials
            issuerCredentialsFromGenerated ParseID GetCertificateIssuer c issuerName).
Proof.
  intros Hget. rewrite (GetIssuer_reads_bundle _ _ _ _ Hget). split.
  - intros parameters Hparams Hset.
    exact (CreateIssuer_reads_bundle _ _ _ _ _ _ _ Hparams Hset).
  - intros parameters Hname Hparams Hupdate.
    exact (UpdateIssuer_reads_bundle _ _ _ _ _ _ Hname Hparams Hupdate).
Qed.

(** X20. If the service answers [CreateIssuer] with a bundle that echoes the
    organization details it was sent, the issuer returned has the
    organization identifier and the administrator contacts of the options,
    nil and empty lists included; its identifier and provider are those of
    the bundle and its name is the third part of the parsed identifier. *)
Theorem CreateIssuer_echoes_organization
    (SetCertificateIssuer :
       string -> string ->
       generated.CertificateIssuerSetParameters.t generated_IssuerCredentials ->
       IssuerBundle generated_IssuerCredentials * error)
    (c : Client) (issuerName provider : string)
    (options : ptr (CreateIssuerOptions.t IssuerCredentials))
    (parameters :
       generated.CertificateIssuerSetParameters.t generated_IssuerCredentials)
    (resp : IssuerBundle generated_IssuerCredentials) :
  let opts := default CreateIssuerOptions.zero options in
  CreateIssuer_parameters IssuerCredentials generated_IssuerCredentials
    IssuerCredentials_toGenerated provider opts = Returns parameters ->
  SetCertificateIssuer (vaultURL c) issuerName parameters = (resp, None) ->
  generated.IssuerBundle.OrganizationDetails resp
  = generated.CertificateIssuerSetParameters.OrganizationDetails parameters ->
  exists issuer,
    CreateIssuer IssuerCredentials generated_IssuerCredentials
      IssuerCredentials_toGenerated issuerCredentialsFromGenerated ParseID
      SetCertificateIssuer c issuerName provider options
    = Returns (issuer, None)
    /\ Issuer.AdministratorContacts issuer
       = CreateIssuerOptions.AdministratorContacts opts
    /\ Issuer.OrganizationID issuer = CreateIssuerOptions.OrganizationID opts
    /\ Issuer.ID issuer = generated.IssuerBundle.ID resp
    /\ Issuer.Provider issuer = generated.IssuerBundle.Provider resp
    /\ Issuer.Name issuer = snd (ParseID (generated.IssuerBundle.ID resp)).
Proof.
  intros opts Hparams Hset Hecho.
  assert (Hod : organization_details (CreateIssuerOptions.OrganizationID opts)
                  (CreateIssuerOptions.AdministratorContacts opts)
                = Returns (generated.IssuerBundle.OrganizationDetails resp)).
  { unfold CreateIssuer_parameters in Hparams.
    destruct (organization_details _ _) as [od|]; simpl in Hparams;
      [| discriminate].
    inversion Hparams; subst. simpl in Hecho. now rewrite Hecho. }
  destruct (organization_details_shape _ _ _ Hod) as [Hnone Hsome].
  assert (Hcontacts :
            match generated.IssuerBundle.OrganizationDetails resp with
            | Some o => adminDetails_of o
            | None => Returns None
            end = Returns (CreateIssuerOptions.AdministratorContacts opts)
            /\ match generated.IssuerBundle.OrganizationDetails resp with
               | Some o => generated.OrganizationDetails.ID o
               | None => None
               end = CreateIssuerOptions.OrganizationID opts).
  { destruct (generated.IssuerBundle.OrganizationDetails resp) as [o|].
    - destruct (Hsome o eq_refl) as [Hid Hadmin]. now split.
    - destruct (proj1 Hnone eq_refl) as [Hid Hadmin].
      rewrite Hid, Hadmin. now split. }
  destruct Hcontacts as [Hadmin Hid].
  rewrite (CreateIssuer_reads_bundle _ _ _ _ _ _ _ Hparams Hset).
  rewrite (GetIssuer_run (fun _ _ => (resp, None)) c issuerName resp eq_refl
             _ Hadmin).
  eexists. split; [reflexivity |]. simpl.
  split; [reflexivity |]. split; [exact Hid |]. repeat split.
Qed.

(** X21. [UpdateIssuer] reads the name of the issuer through its pointer:
    on an issuer without a name it panics with a nil dereference whatever
    the service would answer; with a name, an error of the service comes
    back as it is with the empty issuer. *)
Theorem UpdateIssuer_needs_a_name
    (UpdateCertificateIssuer :
       string -> string ->
       generated.CertificateIssuerUpdateParameters.t generated_IssuerCredentials ->
       IssuerBundle generated_IssuerCredentials * error)
    (c : Client) (certificateIssuer : Issuer.t IssuerCredentials) :
  let run :=
    UpdateIssuer IssuerCredentials generated_IssuerCredentials
      IssuerCredentials_toGenerated issuerCredentialsFromGenerated ParseID
      UpdateCertificateIssuer c certificateIssuer in
  (Issuer.Name certificateIssuer = None -> run = Panics nil_dereference)
  /\ (forall issuerName parameters resp e,
        Issuer.Name certificateIssuer = Some issuerName ->
        Issuer_toUpdateParameters IssuerCredentials generated_IssuerCredentials
          IssuerCredentials_toGenerated (Some certificateIssuer)
        = Returns parameters ->
        UpdateCertificateIssuer (vaultURL c) issuerName parameters
        = (resp, Some e) ->
        run = Returns (Issuer.zero, Some e)).
Proof.
  intros run. unfold run, UpdateIssuer. split.
  - intros Hname. now rewrite Hname.
  - intros issuerName parameters resp e Hname Hparams Hupdate.
    rewrite Hname. cbn [deref exec_bind]. rewrite Hparams. cbn [exec_bind].
    now rewrite Hupdate.
Qed.

End CertificateIssuers.

Lemma Issuer_toUpdateParameters_shape_witness :
  azcertificates.adminDetails_of
    (azcertificates.generated.OrganizationDetails.mk
       (Some [Some (azcertificates.generated.AdministratorDetails.mk
                      (Some "admin@example.com") (Some "Ada") None None);
              Some (azcertificates.generated.AdministratorDetails.mk
                      (Some "admin@example.com") (Some "Ada") None None)])
       None)
  = Returns (azcertificates.Issuer.AdministratorContacts samples.issuer).
Proof.
  exact (proj2 (proj2 (proj2 (proj2 (proj2 (proj2 (proj2
    (Issuer_toUpdateParameters_shape string string (fun x => x)
       samples.issuer _ eq_refl)))))) _ eq_refl)).
Defined.

Lemma issuer_operations_agree_witness :
  azcertificates.CreateIssuer string string (fun x => x) (fun x => x)
    samples.ParseID samples.SetCertificateIssuer samples.client "issuer1" "Test"
    (Some samples.issuer_options)
  = azcertificates.GetIssuer string string (fun x => x) samples.ParseID
      samples.GetCertificateIssuer samples.client "issuer1".
Proof.
  exact (proj1
    (issuer_operations_agree string string (fun x => x) (fun x => x)
       samples.ParseID samples.SetCertificateIssuer samples.GetCertificateIssuer
       (fun _ _ _ => samples.GetCertificateIssuer "" "")
       samples.client "issuer1" "Test" (Some samples.issuer_options)
       samples.issuer _ eq_refl) samples.issuer_parameters eq_refl eq_refl).
Defined.

Lemma CreateIssuer_echoes_organization_witness :
  exists issuer,
    azcertificates.CreateIssuer string string (fun x => x) (fun x => x)
      samples.ParseID samples.SetCertificateIssuer samples.client "issuer1" "Test"
      (Some samples.issuer_options)
    = Returns (issuer, None)
    /\ azcertificates.Issuer.AdministratorContacts issuer
       = Some [Some samples.contact]
    /\ azcertificates.Issuer.OrganizationID issuer = Some "org-1"
    /\ azcertificates.Issuer.ID issuer
       = Some "https://vault.example/certificates/issuers/issuer1"
    /\ azcertificates.Issuer.Provider issuer = Some "Test"
    /\ azcertificates.Issuer.Name issuer = Some "issuer1".
Proof.
  exact (CreateIssuer_echoes_organization string string (fun x => x) (fun x => x)
           samples.ParseID samples.SetCertificateIssuer samples.client
           "issuer1" "Test" (Some samples.issuer_options) _ _
           eq_refl eq_refl eq_refl).
Defined.

(** ** sql: further properties of the responders *)

Section MoreSyncMembersResponders.
Import sql.
Context `{J : Json}.

(** A responder that checks the status code against [codes], decodes and
    closes. *)
Lemma decoding_responder_run (codes : list Z) (resp : http.Response.t) :
  let b := autorest.TrimPrefix
             (http.Body.bytes (http.Response.Body resp)) autorest.BOM in
  let closing (err : error) : error :=
    match http.Body.close_error (http.Response.Body resp) with
    | Some e => Some ("Error closing the response body: " +:+ e)
    | None => err
    end in
  autorest.Respond (Some resp)
    [azure.WithErrorUnlessStatusCode codes;
     autorest.ByUnmarshallingJSON Unmarshal;
     autorest.ByClosing]
    SyncMember.zero
  = if autorest.ResponseHasStatusCode resp codes then
      match http.Body.read_error (http.Response.Body resp) with
      | Some e =>
          (Some resp, SyncMember.zero,
           closing (Some ("Error occurred reading http.Response#Body - Error = "
                          +:+ e)))
      | None =>
          if (0 <? String.length (autorest.Trim_space b))%nat then
            (Some resp, fst (Unmarshal b SyncMember.zero),
             closing (match snd (Unmarshal b SyncMember.zero) with
                      | Some e =>
                          Some ("Error occurred unmarshalling JSON - Error = "
                                +:+ e)
                      | None => None
                      end))
          else (Some resp, SyncMember.zero, closing None)
      end
    else (Some (azure.copied_body resp), SyncMember.zero,
          Some "autorest/azure: Service returned an error").
Proof.
  intros b closing. unfold closing.
  unfold autorest.Respond, autorest.CreateResponder; cbn [fold_left].
  unfold autorest.ByClosing, autorest.ByUnmarshallingJSON,
    azure.WithErrorUnlessStatusCode.
  destruct (autorest.ResponseHasStatusCode resp codes); cbn [negb];
    [| reflexivity].
  fold b.
  destruct (http.Body.read_error (http.Response.Body resp));
    [now destruct (http.Body.close_error (http.Response.Body resp)) |].
  destruct (0 <? String.length (autorest.Trim_space b))%nat;
    [| now destruct (http.Body.close_error (http.Response.Body resp))].
  destruct (Unmarshal b SyncMember.zero) as [v [e|]];
    now destruct (http.Body.close_error (http.Response.Body resp)).
Qed.

(** Accepting a response implies that its status code is among the codes of
    the responder. *)
Lemma decoding_responder_accepts (codes : list Z) (resp : http.Response.t) :
  snd (autorest.Respond (Some resp)
         [azure.WithErrorUnlessStatusCode codes;
          autorest.ByUnmarshallingJSON Unmarshal;
          autorest.ByClosing]
         SyncMember.zero) = None ->
  autorest.ResponseHasStatusCode resp codes = true.
Proof.
  rewrite decoding_responder_run.
  destruct (autorest.ResponseHasStatusCode resp codes);
    [reflexivity | discriminate].
Qed.

(** Two such responders agree on a response whose status code both take. *)
Lemma decoding_responders_agree (codes codes' : list Z) (resp : http.Response.t) :
  autorest.ResponseHasStatusCode resp codes = true ->
  autorest.ResponseHasStatusCode resp codes' = true ->
  autorest.Respond (Some resp)
    [azure.WithErrorUnlessStatusCode codes;
     autorest.ByUnmarshallingJSON Unmarshal;
     autorest.ByClosing]
    SyncMember.zero
  = autorest.Respond (Some resp)
      [azure.WithErrorUnlessStatusCode codes';
       autorest.ByUnmarshallingJSON Unmarshal;
       autorest.ByClosing]
      SyncMember.zero.
Proof.
  intros H H'. rewrite !decoding_responder_run. now rewrite H, H'.
Qed.

Lemma has_status_incl (codes codes' : list Z) (resp : http.Response.t) :
  incl codes codes' ->
  autorest.ResponseHasStatusCode resp codes = true ->
  autorest.ResponseHasStatusCode resp codes' = true.
Proof.
  intros Hincl H. apply ResponseHasStatusCode_In.
  apply Hincl. now apply ResponseHasStatusCode_In.
Qed.

Lemma snd_let3 {A B C D} (t : A * B * C) (f : A -> B -> D) :
  snd (let '(a, b, c) := t in (f a b, c)) = snd t.
Proof. now destruct t as [[a b] c]. Qed.

(** A response with status 201 is refused by the responders that accept
    only 200, or 200 and 202. *)
Lemma status_201_is_refused (r : http.Response.t) :
  http.Response.StatusCode r = 201%Z ->
  snd (GetResponder (Some r)) = Some "autorest/azure: Service returned an error"
  /\ snd (UpdateResponder (Some r))
     = Some "autorest/azure: Service returned an error".
Proof.
  intros Hcode. unfold GetResponder, UpdateResponder.
  rewrite !snd_let3, !decoding_responder_run.
  unfold autorest.ResponseHasStatusCode. rewrite Hcode. simpl. now split.
Qed.

(** X22. On a status code outside its accepted set a decoding responder
    never decodes: whatever the body and the decoder, [GetResponder]
    (accepting 200), [UpdateResponder] (200, 202) and
    [CreateOrUpdateResponder] (200, 201, 202) return the service error and
    an empty [SyncMember] that only carries the response. *)
Theorem refused_status_is_never_decoded (resp : http.Response.t) :
  let code := http.Response.StatusCode resp in
  let refused :=
    (SyncMember.set_Response
       (autorest.Response.mk (Some (azure.copied_body resp))) SyncMember.zero,
     Some "autorest/azure: Service returned an error") in
  (code <> 200%Z -> GetResponder (Some resp) = refused)
  /\ (~ In code [200; 202]%Z -> UpdateResponder (Some resp) = refused)
  /\ (~ In code [200; 201; 202]%Z -> CreateOrUpdateResponder (Some resp) = refused).
Proof.
  intros code refused.
  assert (H : forall codes,
             ~ In code codes ->
             autorest.Respond (Some resp)
               [azure.WithErrorUnlessStatusCode codes;
                autorest.ByUnmarshallingJSON Unmarshal;
                autorest.ByClosing]
               SyncMember.zero
             = (Some (azure.copied_body resp), SyncMember.zero,
                Some "autorest/azure: Service returned an error")).
  { intros codes Hout. rewrite decoding_responder_run.
    destruct (autorest.ResponseHasStatusCode resp codes) eqn:E; [| reflexivity].
    apply ResponseHasStatusCode_In in E. contradiction. }
  split; [| split].
  - intros Hcode. unfold GetResponder.
    change [http.StatusOK] with [200%Z]. rewrite (H [200%Z]); [reflexivity |].
    intros [Heq | []]. now apply Hcode.
  - intros Hout. unfold UpdateResponder.
    change [http.StatusOK; http.StatusAccepted] with [200; 202]%Z.
    now rewrite (H _ Hout).
  - intros Hout. unfold CreateOrUpdateResponder.
    change [http.StatusOK; http.StatusCreated; http.StatusAccepted]
      with [200; 201; 202]%Z.
    now rewrite (H _ Hout).
Qed.

(** X23. The decoding responders are nested: a response [GetResponder]
    accepts is accepted by [UpdateResponder] with the same result, and a
    response [UpdateResponder] accepts is accepted by
    [CreateOrUpdateResponder] with the same result; but a response with
    status 201 is refused by [GetResponder] and [UpdateResponder]. *)
Theorem decoding_responders_are_nested (resp : ptr http.Response.t) :
  (snd (GetResponder resp) = None -> UpdateResponder resp = GetResponder resp)
  /\ (snd (UpdateResponder resp) = None ->
      CreateOrUpdateResponder resp = UpdateResponder resp)
  /\ (forall r,
        resp = Some r -> http.Response.StatusCode r = 201%Z ->
        snd (GetResponder resp) <> None /\ snd (UpdateResponder resp) <> None).
Proof.
  destruct resp as [r|]; [| repeat split; intros; discriminate].
  split; [| split].
  - unfold GetResponder, UpdateResponder. rewrite snd_let3. intros Hacc.
    apply decoding_responder_accepts in Hacc.
    assert (Hin : incl [http.StatusOK] [http.StatusOK; http.StatusAccepted])
      by (intros x Hx; simpl in Hx |- *; tauto).
    now rewrite (decoding_responders_agree
                   [http.StatusOK; http.StatusAccepted] [http.StatusOK] r
                   (has_status_incl _ _ r Hin Hacc) Hacc).
  - unfold UpdateResponder, CreateOrUpdateResponder. rewrite snd_let3.
    intros Hacc. apply decoding_responder_accepts in Hacc.
    assert (Hin : incl [http.StatusOK; http.StatusAccepted]
                    [http.StatusOK; http.StatusCreated; http.StatusAccepted])
      by (intros x Hx; simpl in Hx |- *; tauto).
    now rewrite (decoding_responders_agree
                   [http.StatusOK; http.StatusCreated; http.StatusAccepted]
                   [http.StatusOK; http.StatusAccepted] r
                   (has_status_incl _ _ r Hin Hacc) Hacc).
  - intros r' Hr Hcode. inversion Hr; subst r'.
    destruct (status_201_is_refused r Hcode) as [Hg Hu].
    split; [now rewrite Hg | now rewrite Hu].
Qed.

(** X24. The two responders without a payload are nested as well: a
    response [RefreshMemberSchemaResponder] accepts is accepted by
    [DeleteResponder] with the same result; a response with status 204
    whose body closes without error is accepted by [DeleteResponder] and
    refused by [RefreshMemberSchemaResponder]. *)
Theorem delete_style_responders_are_nested (resp : ptr http.Response.t) :
  (snd (RefreshMemberSchemaResponder resp) = None ->
   DeleteResponder resp = RefreshMemberSchemaResponder resp)
  /\ (forall r,
        resp = Some r -> http.Response.StatusCode r = 204%Z ->
        http.Body.close_error (http.Response.Body r) = None ->
        DeleteResponder resp = (autorest.Response.mk resp, None)
        /\ snd (RefreshMemberSchemaResponder resp) <> None).
Proof.
  destruct resp as [r|]; [| split; [reflexivity | intros; discriminate]].
  split.
  - rewrite DeleteResponder_run, RefreshMemberSchemaResponder_run.
    destruct (autorest.ResponseHasStatusCode r [200; 202]%Z) eqn:E;
      [| discriminate].
    intros _.
    assert (Hin : incl [200; 202]%Z [200; 202; 204]%Z)
      by (intros x Hx; simpl in Hx |- *; tauto).
    now rewrite (has_status_incl _ _ r Hin E).
  - intros r' Hr Hcode Hclose. inversion Hr; subst r'.
    rewrite DeleteResponder_run, RefreshMemberSchemaResponder_run.
    unfold autorest.ResponseHasStatusCode. rewrite Hcode, Hclose. simpl.
    split; [reflexivity | discriminate].
Qed.

End MoreSyncMembersResponders.
